(** * WriteCoach: a shallow embedding of the analysis, classification,
      suggestion and progress pipeline

    The Python services under [writecoach/] are embedded one module per
    source file.  Conventions of the embedding:

    - a Python [str] is a [string] whose characters are read as code points
      below 256;
    - a Python [float] (and an [int] used in float arithmetic) is an exact
      rational of [Q]; [round(x, n)] is rounding to the nearest multiple of
      [10^-n], a tie going to the even one on the exact value (binary
      floating point can settle a decimal tie either way);
    - a [dict] with a fixed set of keys is a record; a key that a function
      reads with [.get(key, default)] is an [option] field;
    - an exception that a caller catches is a [None] result;
    - libraries that are not part of the repository (the NLTK tokenizer, the
      [re] engine, [json.loads], the generative-text services, the clock) are
      classes, and the functions that call them take an instance. *)

From Stdlib Require Import QArith ZArith Lia.
From Stdlib Require Import Ascii String DecimalString.
From stdpp Require Import base list strings gmap.

Local Open Scope Z_scope.
Local Open Scope Q_scope.
Local Open Scope string_scope.
Local Open Scope list_scope.

(* ================================================================== *)
(** ** Python built-ins *)
(* ================================================================== *)

Module Py.

(** [str.isspace] on a single character with code point below 256. *)
Definition is_space (c : ascii) : bool :=
  let n := nat_of_ascii c in
  ((9 <=? n) && (n <=? 13) || (28 <=? n) && (n <=? 32)
   || (n =? 133) || (n =? 160))%nat.

(** [str.lower] on a single character with code point below 256. *)
Definition lower_char (c : ascii) : ascii :=
  let n := nat_of_ascii c in
  if ((65 <=? n) && (n <=? 90)
      || (192 <=? n) && (n <=? 222) && negb (n =? 215))%nat
  then ascii_of_nat (n + 32) else c.

(** [str.isalpha] on a single character with code point below 256. *)
Definition is_alpha_char (c : ascii) : bool :=
  let n := nat_of_ascii c in
  ((65 <=? n) && (n <=? 90) || (97 <=? n) && (n <=? 122)
   || (n =? 170) || (n =? 181) || (n =? 186)
   || (192 <=? n) && (n <=? 255) && negb (n =? 215) && negb (n =? 247))%nat.

Fixpoint all_chars (p : ascii -> bool) (s : string) : bool :=
  match s with
  | EmptyString => true
  | String c s' => p c && all_chars p s'
  end.

(** [s.isalpha()]: non-empty and every character alphabetic. *)
Definition isalpha (s : string) : bool :=
  match s with
  | EmptyString => false
  | _ => all_chars is_alpha_char s
  end.

Fixpoint lower (s : string) : string :=
  match s with
  | EmptyString => EmptyString
  | String c s' => String (lower_char c) (lower s')
  end.

Definition len (s : string) : nat := String.length s.

Fixpoint rev_onto (s acc : string) : string :=
  match s with
  | EmptyString => acc
  | String c s' => rev_onto s' (String c acc)
  end.

Definition rev (s : string) : string := rev_onto s EmptyString.

Fixpoint lstrip (s : string) : string :=
  match s with
  | EmptyString => EmptyString
  | String c s' => if is_space c then lstrip s' else s
  end.

Definition rstrip (s : string) : string := rev (lstrip (rev s)).

(** [s.strip()] *)
Definition strip (s : string) : string := rstrip (lstrip s).

(** [s.startswith(p)] *)
Fixpoint startswith (p s : string) : bool :=
  match p, s with
  | EmptyString, _ => true
  | String a p', String b s' => if Ascii.eqb a b then startswith p' s' else false
  | String _ _, EmptyString => false
  end.

(** [s.endswith(p)] *)
Definition endswith (p s : string) : bool := startswith (rev p) (rev s).

(** [sub in s] *)
Fixpoint contains (sub s : string) : bool :=
  startswith sub s ||
  match s with
  | EmptyString => false
  | String _ s' => contains sub s'
  end.

(** [s.find(sub)], [None] for -1. *)
Fixpoint find_from (sub s : string) (i : nat) : option nat :=
  if startswith sub s then Some i
  else match s with
       | EmptyString => None
       | String _ s' => find_from sub s' (S i)
       end.

Definition find (sub s : string) : option nat := find_from sub s 0.

(** [s.rfind(sub)], [None] for -1. *)
Fixpoint rfind_from (sub s : string) (i : nat) (last : option nat) : option nat :=
  let last' := if startswith sub s then Some i else last in
  match s with
  | EmptyString => last'
  | String _ s' => rfind_from sub s' (S i) last'
  end.

Definition rfind (sub s : string) : option nat := rfind_from sub s 0 None.

(** [s[start:stop]] for non-negative bounds. *)
Definition slice (start stop : nat) (s : string) : string :=
  String.substring start (stop - start) s.

(** [s.split(sep)] for a non-empty separator: [skip] counts the characters
    of a separator occurrence still to be passed over, [cur] holds the
    current piece reversed. *)
Fixpoint split_aux (sep : string) (skip : nat) (s cur : string) : list string :=
  match s with
  | EmptyString => [rev cur]
  | String c s' =>
      match skip with
      | S k => split_aux sep k s' cur
      | O =>
          if startswith sep s
          then rev cur :: split_aux sep (String.length sep - 1) s' EmptyString
          else split_aux sep 0 s' (String c cur)
      end
  end.

Definition split (sep s : string) : list string := split_aux sep 0 s EmptyString.

(** [s.split()]: maximal runs of characters that are not white space. *)
Fixpoint split_ws_aux (s cur : string) : list string :=
  match s with
  | EmptyString =>
      match cur with EmptyString => [] | _ => [rev cur] end
  | String c s' =>
      if is_space c
      then match cur with
           | EmptyString => split_ws_aux s' EmptyString
           | _ => rev cur :: split_ws_aux s' EmptyString
           end
      else split_ws_aux s' (String c cur)
  end.

Definition split_ws (s : string) : list string := split_ws_aux s EmptyString.

(** [sep.join(l)] *)
Fixpoint join (sep : string) (l : list string) : string :=
  match l with
  | [] => EmptyString
  | [x] => x
  | x :: l' => x +:+ sep +:+ join sep l'
  end.

(** [str(n)] for a non-negative [int]. *)
Definition str_of_nat (n : nat) : string :=
  NilEmpty.string_of_uint (Nat.to_uint n).

(** [l[-n:]] for [n > 0]. *)
Definition last_n {A} (n : nat) (l : list A) : list A :=
  List.skipn (List.length l - n) l.

(** [repr(s)] for a string of code points below 256: single quotes unless
    the string has a single quote and no double quote; the quote, the
    backslash, tab, line feed and carriage return escaped; every other
    character that is not printable as a two-digit hexadecimal escape. *)
Definition hex_digit (n : nat) : ascii :=
  if (n <? 10)%nat then ascii_of_nat (48 + n) else ascii_of_nat (87 + n).

Definition is_printable (c : ascii) : bool :=
  let n := nat_of_ascii c in
  negb ((n <? 32) || (127 <=? n) && (n <=? 160) || (n =? 173))%nat.

Definition repr_char (quote c : ascii) : string :=
  let n := nat_of_ascii c in
  if Ascii.eqb c quote || (n =? 92)%nat then String (ascii_of_nat 92) (String c EmptyString)
  else if (n =? 9)%nat then "\t"
  else if (n =? 10)%nat then "\n"
  else if (n =? 13)%nat then "\r"
  else if is_printable c then String c EmptyString
  else String (ascii_of_nat 92)
         (String "x" (String (hex_digit (n / 16)) (String (hex_digit (n mod 16)) EmptyString))).

Fixpoint repr_chars (quote : ascii) (s : string) : string :=
  match s with
  | EmptyString => EmptyString
  | String c s' => repr_char quote c +:+ repr_chars quote s'
  end.

Definition repr_str (s : string) : string :=
  let single := ascii_of_nat 39 in
  let double := ascii_of_nat 34 in
  let quote :=
    if contains (String single EmptyString) s
       && negb (contains (String double EmptyString) s)
    then double else single in
  String quote (repr_chars quote s +:+ String quote EmptyString).

(** [repr(l)] for a list of strings. *)
Definition repr_list (l : list string) : string :=
  "[" +:+ join ", " (map repr_str l) +:+ "]".

(** Truth value of a string: empty is false. *)
Definition truthy (s : string) : bool :=
  match s with EmptyString => false | _ => true end.

(** A word, as [s.split()] yields them: not empty, and without white space. *)
Definition nonspace (c : ascii) : bool := negb (is_space c).

Definition is_word (w : string) : Prop := w <> "" /\ all_chars nonspace w = true.

End Py.

(* ================================================================== *)
(** ** Numbers *)
(* ================================================================== *)

Module Num.

Definition of_nat (n : nat) : Q := inject_Z (Z.of_nat n).

Definition Qltb (a b : Q) : bool := negb (Qle_bool b a).
Definition Qgeb (a b : Q) : bool := Qle_bool b a.
Definition Qgtb (a b : Q) : bool := negb (Qle_bool a b).

(** Nearest integer, ties to the even one. *)
Definition round_half_even (q : Q) : Z :=
  let n := Qnum q in
  let d := Zpos (Qden q) in
  let f := (n / d)%Z in
  let r2 := (2 * (n mod d))%Z in
  if (r2 <? d)%Z then f
  else if (d <? r2)%Z then (f + 1)%Z
  else if Z.even f then f else (f + 1)%Z.

(** [round(x, ndigits)] *)
Definition round (x : Q) (ndigits : nat) : Q :=
  let p := Pos.of_nat (10 ^ ndigits) in
  Qmake (round_half_even (x * inject_Z (Zpos p))) p.

(** A number of at most two decimals, as [round(x, 2)] returns. *)
Definition two_decimals (x : Q) : Prop := exists a : Z, x == a # 100.

End Num.

(* ================================================================== *)
(** ** External collaborators *)
(* ================================================================== *)

(** The NLTK tokenizer: [nltk.sent_tokenize] and [nltk.word_tokenize]. *)
Class Tokenizer := {
  sent_tokenize : string -> list string;
  word_tokenize : string -> list string
}.

Inductive re_flag := IGNORECASE | MULTILINE.

(** The [re] engine.  [re_finditer] lists, for each match in order, the
    matched text ([match.group()]) and its offset ([match.start()]). *)
Class Regex := {
  re_search : string -> list re_flag -> string -> bool;
  re_match : string -> list re_flag -> string -> bool;
  re_finditer : string -> list re_flag -> string -> list (string * nat)
}.

(** The double quote and the line feed, which string literals here do not
    spell. *)
Definition dquote : string := String (ascii_of_nat 34) EmptyString.
Definition nl : string := String (ascii_of_nat 10) EmptyString.

(* ================================================================== *)
(** ** text_analyzer.py *)
(* ================================================================== *)

Module TextAnalyzer.

Record Issue := {
  issue_type : string;
  issue_text : string;
  issue_suggestion : string;
  issue_position : option nat
}.

Record BasicStats := {
  sentence_count : nat;
  word_count : nat;
  avg_words_per_sentence : Q;
  char_count : nat;
  unique_words : nat
}.

Record Readability := {
  score : Q;
  level : string
}.

Record SentenceAnalysis := {
  total_sentences : nat;
  sentence_types : list string;
  sentence_lengths : list nat;
  variety_score : Q
}.

(** The analysis dictionary.  A key is [None] when the dictionary lacks it;
    [analyze] sets all five. *)
Record Analysis := {
  basic_stats : option BasicStats;
  readability : option Readability;
  style_issues : option (list Issue);
  grammar_issues : option (list Issue);
  sentence_analysis : option SentenceAnalysis
}.

(** The empty dictionary [{}]. *)
Definition empty_analysis : Analysis :=
  {| basic_stats := None; readability := None; style_issues := None;
     grammar_issues := None; sentence_analysis := None |}.

(** [self.common_errors], in insertion order. *)
Definition common_errors : list (string * string) :=
  [ ("\b(their|there|they\'re)\b", "their/there/they're");
    ("\b(your|you\'re)\b", "your/you're");
    ("\b(its|it\'s)\b", "its/it's");
    ("\b(affect|effect)\b", "affect/effect");
    ("\b(then|than)\b", "then/than") ].

Definition passive_indicators : list string :=
  ["was"; "were"; "been"; "being"; "is"; "are"; "am"].

Definition wordy_phrases : list (string * string) :=
  [ ("in order to", "to");
    ("due to the fact that", "because");
    ("in the event that", "if");
    ("at this point in time", "now");
    ("in spite of the fact that", "although") ].

(** [x in l] for a list of strings. *)
Definition mem (x : string) (l : list string) : bool :=
  existsb (String.eqb x) l.

Section WithLibraries.
Context {tok : Tokenizer} {rx : Regex}.

Definition _get_basic_stats (text : string) : BasicStats :=
  let sentences := sent_tokenize text in
  let words := word_tokenize text in
  {| sentence_count := length sentences;
     word_count := length words;
     avg_words_per_sentence :=
       match sentences with
       | [] => 0
       | _ => Num.of_nat (length words) / Num.of_nat (length sentences)
       end;
     char_count := Py.len text;
     unique_words :=
       length (remove_dups (map Py.lower (List.filter Py.isalpha words))) |}.

Definition _calculate_readability (text : string) : Readability :=
  let sentences := sent_tokenize text in
  let words := word_tokenize text in
  match sentences, words with
  | [], _ | _, [] => {| score := 0; level := "Unknown" |}
  | _, _ =>
      let avg_sentence_length := Num.of_nat (length words) / Num.of_nat (length sentences) in
      let avg_syllables_per_word := 1.5 in
      let flesch_score :=
        206.835 - (1.015 * avg_sentence_length) - (84.6 * avg_syllables_per_word) in
      let level :=
        if Num.Qgeb flesch_score 90 then "Very Easy"
        else if Num.Qgeb flesch_score 80 then "Easy"
        else if Num.Qgeb flesch_score 70 then "Fairly Easy"
        else if Num.Qgeb flesch_score 60 then "Standard"
        else if Num.Qgeb flesch_score 50 then "Fairly Difficult"
        else if Num.Qgeb flesch_score 30 then "Difficult"
        else "Very Difficult" in
      {| score := Num.round flesch_score 2; level := level |}
  end.

(** The passive-voice loop of [_check_style]: each word with a successor. *)
Fixpoint passive_voice (words : list string) : list Issue :=
  match words with
  | word :: ((next :: _) as rest) =>
      (if mem word passive_indicators
          && (Py.endswith "ed" next || Py.endswith "en" next)
       then [ {| issue_type := "passive_voice";
                 issue_text := word +:+ " " +:+ next;
                 issue_suggestion := "Consider using active voice";
                 issue_position := None |} ]
       else [])
      ++ passive_voice rest
  | _ => []
  end.

Definition wordiness (text : string) : list Issue :=
  flat_map
    (fun '(phrase, replacement) =>
       if Py.contains phrase (Py.lower text)
       then [ {| issue_type := "wordiness";
                 issue_text := phrase;
                 issue_suggestion := "Replace with " +:+ dquote +:+ replacement +:+ dquote;
                 issue_position := None |} ]
       else [])
    wordy_phrases.

Definition _check_style (text : string) : list Issue :=
  passive_voice (word_tokenize (Py.lower text)) ++ wordiness text.

Definition confused_words (text : string) : list Issue :=
  flat_map
    (fun '(pattern, kind) =>
       map (fun '(group, start) =>
              {| issue_type := "confused_words";
                 issue_text := group;
                 issue_suggestion := "Check usage of " +:+ kind;
                 issue_position := Some start |})
           (re_finditer pattern [IGNORECASE] text))
    common_errors.

(** The repeated-word loop of [_check_grammar]. *)
Fixpoint repeated_words (words : list string) : list Issue :=
  match words with
  | w :: ((w' :: _) as rest) =>
      (if String.eqb (Py.lower w) (Py.lower w')
          && negb (mem (Py.lower w) ["the"; "a"; "an"])
       then [ {| issue_type := "repeated_word";
                 issue_text := w;
                 issue_suggestion := "Remove repeated word";
                 issue_position := None |} ]
       else [])
      ++ repeated_words rest
  | _ => []
  end.

Definition _check_grammar (text : string) : list Issue :=
  confused_words text ++ repeated_words (Py.split_ws text).

Definition sentence_type (sentence : string) : string :=
  if Py.endswith "?" sentence then "question"
  else if Py.endswith "!" sentence then "exclamation"
  else "statement".

Definition _analyze_sentences (text : string) : SentenceAnalysis :=
  let sentences := sent_tokenize text in
  let types := map sentence_type sentences in
  {| total_sentences := length sentences;
     sentence_types := types;
     sentence_lengths := map (fun s => length (word_tokenize s)) sentences;
     variety_score :=
       match sentences with
       | [] => 0
       | _ => Num.of_nat (length (remove_dups types)) / Num.of_nat (length sentences)
       end |}.

Definition analyze (text : string) : Analysis :=
  {| basic_stats := Some (_get_basic_stats text);
     readability := Some (_calculate_readability text);
     style_issues := Some (_check_style text);
     grammar_issues := Some (_check_grammar text);
     sentence_analysis := Some (_analyze_sentences text) |}.

End WithLibraries.

(** *** The readability table, as the specification words it *)



End TextAnalyzer.

(* ================================================================== *)
(** ** format_classifier.py *)
(* ================================================================== *)

Module FormatClassifier.
Import TextAnalyzer.

Record Indicators := {
  keywords : list string;
  patterns : list string;
  structural : list string
}.

Record Rules := {
  min_length : option nat;
  max_length : option nat;
  preferred_paragraph_length : nat;
  formality : string;
  required_elements : list string
}.

Record Recommendation := {
  rec_type : string;
  rec_issue : string;
  rec_suggestion : string
}.

Record FormatRules := {
  fr_format : string;
  fr_rules : Rules;
  recommendations : list Recommendation;
  compliance_score : Q;
  format_specific_tips : list string
}.

(** [d.get(key)] on a dictionary kept in insertion order. *)
Fixpoint dict_get {V} (key : string) (d : list (string * V)) : option V :=
  match d with
  | [] => None
  | (k, v) :: d' => if String.eqb key k then Some v else dict_get key d'
  end.

(** [key in d] *)
Definition dict_has {V} (key : string) (d : list (string * V)) : bool :=
  match dict_get key d with Some _ => true | None => false end.

(** [self.format_indicators] *)
Definition format_indicators : list (string * Indicators) :=
  [ ("email",
     {| keywords := ["dear"; "sincerely"; "regards"; "best"; "hi"; "hello";
                     "subject:"; "from:"; "to:"];
        patterns := ["^(hi|hello|dear)\s+\w+"; "(sincerely|regards|best),?\s*$"];
        structural := ["short_paragraphs"; "greeting"; "closing"] |});
    ("essay",
     {| keywords := ["thesis"; "conclusion"; "furthermore"; "however";
                     "therefore"; "moreover"; "consequently"];
        patterns := ["first(ly)?[\s,]"; "second(ly)?[\s,]"; "finally[\s,]";
                     "in conclusion"];
        structural := ["introduction"; "body_paragraphs"; "conclusion"] |});
    ("report",
     {| keywords := ["executive summary"; "findings"; "recommendations";
                     "analysis"; "methodology"; "results"];
        patterns := ["\d+\.\d+"; "figure \d+"; "table \d+"; "section \d+"];
        structural := ["headings"; "numbered_sections"; "data_presentation"] |});
    ("creative",
     {| keywords := ["once upon"; "suddenly"; "meanwhile"; "whispered";
                     "shouted"; "felt"; "remembered"];
        patterns := [dquote +:+ "[^" +:+ dquote +:+ "]+?" +:+ dquote;
                     "[.!?]\s*[A-Z][^.!?]*[.!?]"];
        structural := ["dialogue"; "descriptive_language"; "narrative_flow"] |}) ].

(** [self.format_rules] *)
Definition format_rules : list (string * Rules) :=
  [ ("email",
     {| min_length := None; max_length := Some 500%nat;
        preferred_paragraph_length := 50;
        formality := "semi-formal";
        required_elements := ["greeting"; "body"; "closing"] |});
    ("essay",
     {| min_length := Some 300%nat; max_length := None;
        preferred_paragraph_length := 150;
        formality := "formal";
        required_elements := ["introduction"; "thesis"; "body"; "conclusion"] |});
    ("report",
     {| min_length := Some 500%nat; max_length := None;
        preferred_paragraph_length := 100;
        formality := "formal";
        required_elements := ["executive_summary"; "main_content"; "conclusions"] |});
    ("creative",
     {| min_length := Some 200%nat; max_length := None;
        preferred_paragraph_length := 100;
        formality := "variable";
        required_elements := ["narrative"; "characters_or_imagery"] |});
    ("general",
     {| min_length := Some 50%nat; max_length := None;
        preferred_paragraph_length := 100;
        formality := "neutral";
        required_elements := ["coherent_content"] |}) ].

Definition general_rules : Rules :=
  {| min_length := Some 50%nat; max_length := None;
     preferred_paragraph_length := 100;
     formality := "neutral";
     required_elements := ["coherent_content"] |}.

(** [sum(len(p.split()) for p in paragraphs) / len(paragraphs) if paragraphs else 0]
    for [paragraphs = text.split('\n\n')]. *)
Definition avg_paragraph_words (text : string) : Q :=
  let paragraphs := Py.split (nl +:+ nl) text in
  match paragraphs with
  | [] => 0
  | _ =>
      Num.of_nat (list_sum (map (fun p => length (Py.split_ws p)) paragraphs))
      / Num.of_nat (length paragraphs)
  end.

(** [max(items, key=...)]: the first item whose key no later item exceeds
    strictly. *)
Fixpoint max_from {A} (key : A -> nat) (best : A) (items : list A) : A :=
  match items with
  | [] => best
  | x :: items' => max_from key (if (key best <? key x)%nat then x else best) items'
  end.

Definition py_max {A} (key : A -> nat) (items : list A) : option A :=
  match items with
  | [] => None
  | x :: items' => Some (max_from key x items')
  end.

(** Number of elements of [l] on which [p] holds. *)
Definition count_if {A} (p : A -> bool) (l : list A) : nat :=
  length (List.filter p l).

Section WithLibraries.
Context {rx : Regex}.

Definition _check_structure (text : string) (structural_elements : list string) : nat :=
  let score := 0%nat in
  let score :=
    if mem "short_paragraphs" structural_elements
    then if Num.Qltb (avg_paragraph_words text) 75 then (score + 1)%nat else score
    else score in
  let score :=
    if mem "greeting" structural_elements
    then if re_match "^(dear|hi|hello)\s+\w+" [IGNORECASE] text
         then (score + 2)%nat else score
    else score in
  let score :=
    if mem "closing" structural_elements
    then if re_search "(sincerely|regards|best|thanks),?\s*$" [IGNORECASE; MULTILINE] text
         then (score + 2)%nat else score
    else score in
  let score :=
    if mem "headings" structural_elements
    then if re_search "^[A-Z][^.!?]*:?\s*$" [MULTILINE] text
         then (score + 2)%nat else score
    else score in
  let score :=
    if mem "dialogue" structural_elements
    then if re_search (dquote +:+ "[^" +:+ dquote +:+ "]+?" +:+ dquote) [] text
         then (score + 3)%nat else score
    else score in
  score.

(** The body of the scoring loop of [classify] for one format. *)
Definition format_score (text : string) (indicators : Indicators) : nat :=
  let score := 0%nat in
  let score :=
    fold_left
      (fun score keyword =>
         if Py.contains (Py.lower keyword) (Py.lower text)
         then (score + 1)%nat else score)
      (keywords indicators) score in
  let score :=
    fold_left
      (fun score pattern =>
         if re_search pattern [IGNORECASE; MULTILINE] text
         then (score + 2)%nat else score)
      (patterns indicators) score in
  (score + _check_structure text (structural indicators))%nat.

Definition classify (text : string) (user_specified_format : option string)
  : string * Q :=
  let known :=
    match user_specified_format with
    | Some f => Py.truthy f && dict_has f format_rules
    | None => false
    end in
  match user_specified_format, known with
  | Some f, true => (f, 1.0)
  | _, _ =>
      let scores :=
        map (fun '(format_type, indicators) => (format_type, format_score text indicators))
            format_indicators in
      match py_max snd scores with
      | Some best_format =>
          let total_score := list_sum (map snd scores) in
          let confidence :=
            if (0 <? total_score)%nat
            then Num.of_nat (snd best_format) / Num.of_nat total_score
            else 0 in
          if Num.Qltb confidence 0.3 then ("general", confidence)
          else (fst best_format, confidence)
      | None => ("general", 0.5)
      end
  end.

Definition any_phrase (phrases : list string) (t : string) : bool :=
  existsb (fun phrase => Py.contains phrase (Py.lower t)) phrases.

(** [element_checks]: the detector of an element, when it has one. *)
Definition element_checks (element : string) : option (string -> bool) :=
  if String.eqb element "greeting" then
    Some (re_search "^(dear|hi|hello)\s+\w+" [IGNORECASE; MULTILINE])
  else if String.eqb element "closing" then
    Some (re_search "(sincerely|regards|best|thanks),?\s*$" [IGNORECASE; MULTILINE])
  else if String.eqb element "introduction" then
    Some (fun t =>
            match Py.split (nl +:+ nl) t with
            | first :: _ => (30 <? length (Py.split_ws first))%nat
            | [] => false
            end)
  else if String.eqb element "thesis" then
    Some (any_phrase ["argue that"; "believe that"; "this essay will"; "this paper will"])
  else if String.eqb element "conclusion" then
    Some (any_phrase ["in conclusion"; "to conclude"; "therefore"; "in summary"])
  else if String.eqb element "executive_summary" then
    Some (re_search "(executive summary|summary|overview)" [IGNORECASE])
  else if String.eqb element "methodology" then
    Some (re_search "(methodology|methods|approach)" [IGNORECASE])
  else if String.eqb element "findings" then
    Some (re_search "(findings|results|outcomes)" [IGNORECASE])
  else if String.eqb element "recommendations" then
    Some (re_search "(recommend|suggest|propose)" [IGNORECASE])
  else None.

Definition _check_required_elements
    (text : string) (required : list string) (format_type : string) : list string :=
  flat_map
    (fun element =>
       match element_checks element with
       | Some check => if check text then [] else [element]
       | None => []
       end)
    required.

Definition _get_format_specific_tips (format_type : string) : list string :=
  let tips :=
    [ ("email",
       ["Use a clear, descriptive subject line";
        "Start with a professional greeting";
        "Keep paragraphs concise (2-3 sentences)";
        "End with a specific call to action";
        "Include a professional signature"]);
      ("essay",
       ["Start with a compelling hook";
        "Present a clear thesis statement";
        "Use topic sentences for each paragraph";
        "Provide evidence to support claims";
        "End with a strong conclusion that reinforces your thesis"]);
      ("report",
       ["Begin with an executive summary";
        "Use clear section headings";
        "Present data visually when possible";
        "Keep language objective and factual";
        "Include actionable recommendations"]);
      ("creative",
       ["Engage readers from the first line";
        "Show, don't tell - use sensory details";
        "Develop distinct character voices";
        "Maintain consistent point of view";
        "Create tension and resolution"]);
      ("general",
       ["Know your audience";
        "Use clear, concise language";
        "Organize ideas logically";
        "Proofread for errors";
        "Maintain consistent tone"]) ] in
  match dict_get format_type tips with
  | Some l => l
  | None => ["Know your audience";
             "Use clear, concise language";
             "Organize ideas logically";
             "Proofread for errors";
             "Maintain consistent tone"]
  end.

(** The three tests of [apply_format_rules], by name: the word count below
    the minimum length, above the maximum length, and the average paragraph
    above 1.5 times the preferred length. *)
Definition too_short (rules : Rules) (word_count : nat) : bool :=
  match min_length rules with
  | Some m => (word_count <? m)%nat
  | None => false
  end.

Definition too_long (rules : Rules) (word_count : nat) : bool :=
  match max_length rules with
  | Some m => (m <? word_count)%nat
  | None => false
  end.

Definition long_paragraphs (rules : Rules) (text : string) : bool :=
  Num.Qgtb (avg_paragraph_words text)
           (Num.of_nat (preferred_paragraph_length rules) * 1.5).

(** [None] is the [KeyError] of [analysis['basic_stats']]. *)
Definition apply_format_rules
    (text format_type : string) (analysis : Analysis) : option FormatRules :=
  let rules :=
    match dict_get format_type format_rules with
    | Some r => r
    | None => general_rules
    end in
  let recommendations := [] in
  let compliance_score := 1.0 in
  match basic_stats analysis with
  | None => None
  | Some stats =>
      let word_count := word_count stats in
      let '(recommendations, compliance_score) :=
        match min_length rules with
        | Some m =>
            if (word_count <? m)%nat
            then (recommendations ++
                    [ {| rec_type := "length";
                         rec_issue := "Text is too short for " +:+ format_type;
                         rec_suggestion :=
                           "Expand to at least " +:+ Py.str_of_nat m +:+ " words" |} ],
                  compliance_score * 0.8)
            else (recommendations, compliance_score)
        | None => (recommendations, compliance_score)
        end in
      let '(recommendations, compliance_score) :=
        match max_length rules with
        | Some m =>
            if (m <? word_count)%nat
            then (recommendations ++
                    [ {| rec_type := "length";
                         rec_issue := "Text is too long for " +:+ format_type;
                         rec_suggestion :=
                           "Reduce to maximum " +:+ Py.str_of_nat m +:+ " words" |} ],
                  compliance_score * 0.9)
            else (recommendations, compliance_score)
        | None => (recommendations, compliance_score)
        end in
      let avg_paragraph_length := avg_paragraph_words text in
      let '(recommendations, compliance_score) :=
        if Num.Qgtb avg_paragraph_length
                    (Num.of_nat (preferred_paragraph_length rules) * 1.5)
        then (recommendations ++
                [ {| rec_type := "structure";
                     rec_issue := "Paragraphs are too long";
                     rec_suggestion :=
                       "Break into shorter paragraphs (~"
                       +:+ Py.str_of_nat (preferred_paragraph_length rules)
                       +:+ " words)" |} ],
              compliance_score * 0.9)
        else (recommendations, compliance_score) in
      let missing_elements :=
        _check_required_elements text (required_elements rules) format_type in
      let '(recommendations, compliance_score) :=
        fold_left
          (fun '(recommendations, compliance_score) element =>
             (recommendations ++
                [ {| rec_type := "missing_element";
                     rec_issue := "Missing " +:+ element;
                     rec_suggestion := "Add a clear " +:+ element +:+ " section" |} ],
              compliance_score * 0.85))
          missing_elements (recommendations, compliance_score) in
      Some {| fr_format := format_type;
              fr_rules := rules;
              recommendations := recommendations;
              compliance_score := Num.round compliance_score 2;
              format_specific_tips := _get_format_specific_tips format_type |}
  end.

End WithLibraries.

(** *** The scoring and the compliance decay, as the specification words them *)

Section Specification.
Context {rx : Regex}.

Definition bonus (b : bool) (points : nat) : nat := if b then points else 0%nat.

(** The structural indicator points of each format: short paragraphs (1),
    greeting (2) and closing (2) for email; a heading line (2) for report;
    quoted dialogue (3) for creative; none for essay. *)
Definition structure_points (text format_type : string) : nat :=
  if String.eqb format_type "email" then
    (bonus (Num.Qltb (avg_paragraph_words text) 75) 1
     + bonus (re_match "^(dear|hi|hello)\s+\w+" [IGNORECASE] text) 2
     + bonus (re_search "(sincerely|regards|best|thanks),?\s*$" [IGNORECASE; MULTILINE] text) 2)%nat
  else if String.eqb format_type "report" then
    bonus (re_search "^[A-Z][^.!?]*:?\s*$" [MULTILINE] text) 2
  else if String.eqb format_type "creative" then
    bonus (re_search (dquote +:+ "[^" +:+ dquote +:+ "]+?" +:+ dquote) [] text) 3
  else 0%nat.

Definition matched_keywords (text : string) (indicators : Indicators) : nat :=
  count_if (fun keyword => Py.contains (Py.lower keyword) (Py.lower text))
           (keywords indicators).

Definition matched_patterns (text : string) (indicators : Indicators) : nat :=
  count_if (fun pattern => re_search pattern [IGNORECASE; MULTILINE] text)
           (patterns indicators).

(** One point per matched keyword, two per matched pattern, plus the
    structural points. *)
Definition total_score (text : string) (entry : string * Indicators) : nat :=
  (matched_keywords text (snd entry) + 2 * matched_patterns text (snd entry)
   + structure_points text (fst entry))%nat.

End Specification.

(** The factor of each violation, and the decayed score before rounding:
    1.0 times 0.8 if too short, 0.9 if too long, 0.9 if the paragraphs are
    long, and 0.85 per missing element. *)
Definition factor (violated : bool) (f : Q) : Q := if violated then f else 1.

Fixpoint power (f : Q) (n : nat) : Q :=
  match n with
  | O => 1
  | S n' => power f n' * f
  end.

Definition decayed (short long paragraphs : bool) (missing : nat) : Q :=
  1 * factor short 0.8 * factor long 0.9 * factor paragraphs 0.9
  * power 0.85 missing.

(** A required element counts as missing when it has a detector and the
    detector finds nothing; an element with no detector is passed over. *)
Definition is_missing {rx : Regex} (text element : string) : bool :=
  match element_checks element with
  | Some check => negb (check text)
  | None => false
  end.

Definition count_true (b : bool) : nat := if b then 1%nat else 0%nat.

(** The rule set of a format, the general one for a format it does not know. *)
Definition rules_of (format_type : string) : Rules :=
  default general_rules (dict_get format_type format_rules).

End FormatClassifier.

(* ================================================================== *)
(** ** suggestion_generator.py *)
(* ================================================================== *)

Module SuggestionGenerator.
Import TextAnalyzer.

Record Improvement := {
  imp_type : string;
  imp_problem : string;
  imp_suggestion : string;
  imp_priority : string
}.

Record Rewrite := {
  original : string;
  suggested : string;
  reason : string
}.

Record Suggestions := {
  overall_feedback : string;
  specific_improvements : list Improvement;
  rewrite_suggestions : list Rewrite;
  format_specific_tips : list string
}.

(** An item of the reply's [grammar_corrections]; a key is [None] when the
    item lacks it or is not a dictionary. *)
Record Correction := {
  error : option string;
  correction : option string
}.

(** The decoded reply, read at the shape the prompt asks for; a key is
    [None] when the reply lacks it. *)
Record Reply := {
  reply_overall_feedback : option string;
  clarity_suggestions : option (list string);
  structure_suggestions : option (list string);
  grammar_corrections : option (list Correction);
  improved_version : option string
}.

(** [json.loads], with the decoded object read at the keys of [Reply]:
    [None] when decoding raises, or the decoded value is no such object and
    reading it raises. *)
Class Json := {
  json_loads : string -> option Reply
}.

(** The two generative-text services, from the prompt to the text of the
    reply: [None] when the request raises. *)
Class Client := {
  gemini_generate_content : string -> option string;
  openai_chat_completions_create : string -> option string
}.

Inductive ApiType := gemini | openai | mock.

(** [__init__]: the strategy chosen from the credentials, given whether each
    client can be set up. *)
Definition init (gemini_key openai_key : option string)
    (gemini_client_ok openai_client_ok : bool) : ApiType :=
  let has k := match k with Some s => Py.truthy s | None => false end in
  if has gemini_key && gemini_client_ok then gemini
  else if has openai_key && openai_client_ok then openai
  else mock.

Definition _get_overall_feedback (analysis : Analysis) (writing_format : string) : string :=
  let readability :=
    match readability analysis with
    | Some r => level r
    | None => "Unknown"
    end in
  if mem readability ["Very Easy"; "Easy"] then
    "Your " +:+ writing_format
    +:+ " is very readable. Consider adding more sophisticated vocabulary where appropriate."
  else if mem readability ["Standard"; "Fairly Easy"] then
    "Your " +:+ writing_format
    +:+ " has good readability. Minor improvements could enhance clarity."
  else
    "Your " +:+ writing_format
    +:+ " might be difficult to read. Consider simplifying complex sentences.".

Definition improvement_of (priority : string) (issue : Issue) : Improvement :=
  {| imp_type := issue_type issue;
     imp_problem := issue_text issue;
     imp_suggestion := issue_suggestion issue;
     imp_priority := priority |}.

Definition _get_specific_improvements (analysis : Analysis) : list Improvement :=
  let improvements := [] in
  let improvements :=
    improvements ++ map (improvement_of "medium") (default [] (style_issues analysis)) in
  let improvements :=
    improvements ++ map (improvement_of "high") (default [] (grammar_issues analysis)) in
  let variety :=
    match sentence_analysis analysis with
    | Some sa => variety_score sa
    | None => 1
    end in
  if Num.Qltb variety 0.3
  then improvements ++
         [ {| imp_type := "sentence_variety";
              imp_problem := "Limited sentence variety";
              imp_suggestion := "Mix different sentence types and lengths";
              imp_priority := "low" |} ]
  else improvements.

Definition _simplify_sentence (sentence : string) : string :=
  let words := Py.split_ws sentence in
  if (25 <? length words)%nat then
    let midpoint := (length words / 2)%nat in
    Py.join " " (firstn midpoint words) +:+ ". " +:+ Py.join " " (skipn midpoint words)
  else sentence.

Definition _get_rewrite_suggestions (text : string) (analysis : Analysis) : list Rewrite :=
  let sentences := Py.split "." text in
  flat_map
    (fun sentence =>
       if (25 <? length (Py.split_ws sentence))%nat
       then [ {| original := Py.strip sentence;
                 suggested := _simplify_sentence sentence;
                 reason := "Sentence too long" |} ]
       else [])
    sentences.

Definition general_tips : list string :=
  ["Be clear and concise"; "Use appropriate tone for audience"; "Proofread carefully"].

Definition tips : list (string * list string) :=
  [ ("email",
     ["Start with a clear subject line";
      "Keep paragraphs short (2-3 sentences)";
      "End with a clear call to action"]);
    ("essay",
     ["Include a strong thesis statement";
      "Use topic sentences for each paragraph";
      "Provide evidence for your claims"]);
    ("report",
     ["Use headings and subheadings";
      "Include an executive summary";
      "Use bullet points for key information"]);
    ("creative",
     ["Show, don't tell";
      "Use vivid sensory details";
      "Develop unique voice and style"]);
    ("general", general_tips) ].

Definition _get_format_tips (writing_format : string) : list string :=
  match FormatClassifier.dict_get writing_format tips with
  | Some l => l
  | None => general_tips
  end.

Definition _generate_mock_suggestions
    (text : string) (analysis : Analysis) (writing_format : string) : Suggestions :=
  {| overall_feedback := _get_overall_feedback analysis writing_format;
     specific_improvements := _get_specific_improvements analysis;
     rewrite_suggestions := _get_rewrite_suggestions text analysis;
     format_specific_tips := _get_format_tips writing_format |}.

(** [None] is the [KeyError] of [analysis['readability']]. *)
Definition _create_prompt
    (text : string) (analysis : Analysis) (writing_format : string) : option string :=
  let grammar_issues := default [] (grammar_issues analysis) in
  let style_issues := default [] (style_issues analysis) in
  let issues_text := "" in
  let issues_text :=
    match grammar_issues with
    | [] => issues_text
    | _ => issues_text +:+ "Grammar issues found: "
           +:+ Py.repr_list (map issue_text (firstn 3 grammar_issues)) +:+ nl
    end in
  let issues_text :=
    match style_issues with
    | [] => issues_text
    | _ => issues_text +:+ "Style issues found: "
           +:+ Py.repr_list (map issue_text (firstn 3 style_issues)) +:+ nl
    end in
  match readability analysis with
  | None => None
  | Some r =>
      Some (Py.join nl
        [ "";
          "        Analyze this " +:+ writing_format
            +:+ " and provide specific improvement suggestions:";
          "        ";
          "        Text: " +:+ dquote +:+ text +:+ dquote;
          "        ";
          "        Analysis results:";
          "        - Readability: " +:+ level r;
          "        - Style issues: " +:+ Py.str_of_nat (length style_issues);
          "        - Grammar issues: " +:+ Py.str_of_nat (length grammar_issues);
          "        " +:+ issues_text;
          "        ";
          "        Please provide your response in JSON format with the following structure:";
          "        {";
          "            " +:+ dquote +:+ "overall_feedback" +:+ dquote +:+ ": " +:+ dquote
            +:+ "A brief overall assessment of the writing" +:+ dquote +:+ ",";
          "            " +:+ dquote +:+ "clarity_suggestions" +:+ dquote +:+ ": ["
            +:+ dquote +:+ "suggestion 1" +:+ dquote +:+ ", "
            +:+ dquote +:+ "suggestion 2" +:+ dquote +:+ ", "
            +:+ dquote +:+ "suggestion 3" +:+ dquote +:+ "],";
          "            " +:+ dquote +:+ "structure_suggestions" +:+ dquote +:+ ": ["
            +:+ dquote +:+ "suggestion 1" +:+ dquote +:+ ", "
            +:+ dquote +:+ "suggestion 2" +:+ dquote +:+ "],";
          "            " +:+ dquote +:+ "grammar_corrections" +:+ dquote +:+ ": [";
          "                {" +:+ dquote +:+ "error" +:+ dquote +:+ ": "
            +:+ dquote +:+ "error text" +:+ dquote +:+ ", "
            +:+ dquote +:+ "correction" +:+ dquote +:+ ": "
            +:+ dquote +:+ "corrected text" +:+ dquote +:+ "},";
          "                {" +:+ dquote +:+ "error" +:+ dquote +:+ ": "
            +:+ dquote +:+ "error text" +:+ dquote +:+ ", "
            +:+ dquote +:+ "correction" +:+ dquote +:+ ": "
            +:+ dquote +:+ "corrected text" +:+ dquote +:+ "}";
          "            ],";
          "            " +:+ dquote +:+ "improved_version" +:+ dquote +:+ ": " +:+ dquote
            +:+ "A rewritten version of the text with all corrections applied" +:+ dquote;
          "        }";
          "        ";
          "        Make sure your response is valid JSON format.";
          "        " ])
  end.

(** [enumerate] with the 1-based label of each item. *)
Fixpoint numbered (kind label : string) (idx : nat) (l : list string) : list Improvement :=
  match l with
  | [] => []
  | suggestion :: l' =>
      {| imp_type := kind;
         imp_problem := label +:+ Py.str_of_nat (idx + 1);
         imp_suggestion := suggestion;
         imp_priority := "medium" |} :: numbered kind label (S idx) l'
  end.

Definition _convert_to_improvements (parsed : Reply) : list Improvement :=
  numbered "clarity" "Clarity issue " 0 (default [] (clarity_suggestions parsed))
  ++ numbered "structure" "Structure issue " 0 (default [] (structure_suggestions parsed))
  ++ flat_map
       (fun c =>
          match error c, correction c with
          | Some e, Some fixed =>
              [ {| imp_type := "grammar";
                   imp_problem := e;
                   imp_suggestion := "Change to: " +:+ fixed;
                   imp_priority := "high" |} ]
          | _, _ => []
          end)
       (default [] (grammar_corrections parsed)).

Definition _create_rewrite_suggestions (parsed : Reply) : list Rewrite :=
  let improved := default "" (improved_version parsed) in
  if Py.truthy improved
  then [ {| original := "Original text";
            suggested := improved;
            reason := "AI suggested comprehensive improvement" |} ]
  else [].

(** The test of [_convert_to_improvements] on a grammar correction:
    ['error' in correction and 'correction' in correction]. *)
Definition complete (c : Correction) : bool :=
  match error c, correction c with
  | Some _, Some _ => true
  | _, _ => false
  end.

(** The text handed to [json.loads] by [_parse_ai_response]. *)
Definition json_str_of (response : string) : string :=
  if Py.contains "```json" response then
    match Py.split "```json" response with
    | _ :: after :: _ =>
        match Py.split "```" after with
        | inner :: _ => Py.strip inner
        | [] => response
        end
    | _ => response
    end
  else if Py.contains "{" response then
    match Py.find "{" response, Py.rfind "}" response with
    | Some start, Some last => Py.slice start (last + 1) response
    | _, _ => response
    end
  else response.

Section WithLibraries.
Context {js : Json} {cl : Client}.

Definition _parse_ai_response (response : string) : Suggestions :=
  match json_loads (json_str_of response) with
  | Some parsed =>
      {| overall_feedback :=
           default "No overall feedback provided" (reply_overall_feedback parsed);
         specific_improvements := _convert_to_improvements parsed;
         rewrite_suggestions := _create_rewrite_suggestions parsed;
         format_specific_tips := _get_format_tips "general" |}
  | None => _generate_mock_suggestions "" empty_analysis "general"
  end.

Definition _generate_gemini_suggestions
    (text : string) (analysis : Analysis) (writing_format : string) : Suggestions :=
  match _create_prompt text analysis writing_format with
  | Some prompt =>
      match gemini_generate_content prompt with
      | Some response_text => _parse_ai_response response_text
      | None => _generate_mock_suggestions text analysis writing_format
      end
  | None => _generate_mock_suggestions text analysis writing_format
  end.

Definition _generate_openai_suggestions
    (text : string) (analysis : Analysis) (writing_format : string) : Suggestions :=
  match _create_prompt text analysis writing_format with
  | Some prompt =>
      match openai_chat_completions_create prompt with
      | Some response_text => _parse_ai_response response_text
      | None => _generate_mock_suggestions text analysis writing_format
      end
  | None => _generate_mock_suggestions text analysis writing_format
  end.

Definition generate_suggestions (api_type : ApiType)
    (text : string) (analysis : Analysis) (writing_format : string) : Suggestions :=
  match api_type with
  | gemini => _generate_gemini_suggestions text analysis writing_format
  | openai => _generate_openai_suggestions text analysis writing_format
  | mock => _generate_mock_suggestions text analysis writing_format
  end.

End WithLibraries.

End SuggestionGenerator.

(* ================================================================== *)
(** ** progress_tracker.py *)
(* ================================================================== *)

Module ProgressTracker.

(** A [datetime], as microseconds since the start of the calendar.  The
    timestamp strings are kept as the [datetime] they are printed from and
    parsed back to. *)
Definition datetime := Z.

Definition microseconds_per_day : Z := 86400000000.

(** [t.date()], as a day number. *)
Definition date (t : datetime) : Z := (t / microseconds_per_day)%Z.

(** [(t2 - t1).days] *)
Definition days_between (t1 t2 : datetime) : Z := ((t2 - t1) / microseconds_per_day)%Z.

Record Metrics := {
  readability_score : Q;
  readability_level : string;
  style_issues_count : nat;
  grammar_issues_count : nat;
  avg_sentence_length : Q;
  sentence_variety : Q;
  word_count : nat
}.

Record Submission := {
  timestamp : datetime;
  analysis : TextAnalyzer.Analysis;
  suggestions : SuggestionGenerator.Suggestions;
  metrics : Metrics
}.

Record Tracked := {
  total_submissions : nat;
  readability_change : Q;
  style_improvement : Z;
  grammar_improvement : Z;
  readability_trend : string;
  days_active : nat;
  consistency_score : Q
}.

(** The [progress] dictionary, by its [status]. *)
Inductive Progress :=
| new_user
| insufficient_data (message : string)
| tracked (p : Tracked).


Record UserData := {
  user_id : string;
  created_at : datetime;
  submissions : list Submission;
  progress : Progress
}.

Record Area := {
  area : string;
  area_priority : string;
  area_suggestion : string
}.

Record Achievement := {
  name : string;
  description : string;
  earned_at : datetime
}.

Record TrackResult := {
  submission_tracked : bool;
  current_metrics : Metrics;
  overall_progress : Progress;
  improvement_areas : list Area
}.

Record FullReport := {
  report_user_id : string;
  member_since : datetime;
  report_total_submissions : nat;
  report_progress : Progress;
  recent_submissions : list Submission;
  report_improvement_areas : list Area;
  achievements : list Achievement
}.

(** The report dictionary: [{status: no_data, message}] or the full one. *)
Inductive Report :=
| no_data (message : string)
| report (r : FullReport).

(** The world the tracker acts on: the documents under the storage
    directory by file path, and the number of clock readings taken. *)
Record World := {
  files : gmap string UserData;
  ticks : nat
}.

(** [datetime.now()]: the reading the clock gives at each successive call. *)
Class Clock := {
  reading : nat -> datetime
}.

(** Computations on the world that may raise: [None] is an exception. *)
Definition M (A : Type) : Type := World -> option A * World.

Definition ret {A} (a : A) : M A := fun w => (Some a, w).

Definition bind {A B} (m : M A) (k : A -> M B) : M B :=
  fun w =>
    match m w with
    | (Some a, w') => k a w'
    | (None, w') => (None, w')
    end.

Definition raise {A} : M A := fun w => (None, w).

Definition lift_option {A} (o : option A) : M A :=
  match o with
  | Some a => ret a
  | None => raise
  end.

Notation "'do' x <- m ; k" := (bind m (fun x => k))
  (at level 10, x name, m at level 100, k at level 200).

Definition datetime_now {clk : Clock} : M datetime :=
  fun w => (Some (reading (ticks w)), {| files := files w; ticks := S (ticks w) |}).

(** [os.path.join(a, b)] *)
Definition os_path_join (a b : string) : string :=
  if Py.startswith "/" b then b
  else if negb (Py.truthy a) || Py.endswith "/" a then a +:+ b
  else a +:+ "/" +:+ b.

(** [json.load] of the document at [path], when [os.path.exists(path)]. *)
Definition load_json (path : string) : M (option UserData) :=
  fun w => (Some (files w !! path), w).

(** [json.dump(data, f)] on the file at [path] opened for writing. *)
Definition dump_json (path : string) (data : UserData) : M unit :=
  fun w => (Some tt, {| files := <[path := data]> (files w); ticks := ticks w |}).

(** [None] is the [KeyError] of a key the analysis lacks. *)
Definition _extract_metrics (analysis : TextAnalyzer.Analysis) : option Metrics :=
  match TextAnalyzer.readability analysis,
        TextAnalyzer.style_issues analysis,
        TextAnalyzer.grammar_issues analysis,
        TextAnalyzer.basic_stats analysis,
        TextAnalyzer.sentence_analysis analysis with
  | Some r, Some style, Some grammar, Some stats, Some sa =>
      Some {| readability_score := TextAnalyzer.score r;
              readability_level := TextAnalyzer.level r;
              style_issues_count := length style;
              grammar_issues_count := length grammar;
              avg_sentence_length := TextAnalyzer.avg_words_per_sentence stats;
              sentence_variety := TextAnalyzer.variety_score sa;
              word_count := TextAnalyzer.word_count stats |}
  | _, _, _, _, _ => None
  end.

Definition _calculate_days_active (submissions : list Submission) : nat :=
  match submissions with
  | [] => 0
  | _ => length (remove_dups (map (fun s => date (timestamp s)) submissions))
  end.

(** [[(timestamps[i+1] - timestamps[i]).days for i in range(len(timestamps)-1)]] *)
Fixpoint intervals (timestamps : list datetime) : list Z :=
  match timestamps with
  | t :: ((t' :: _) as rest) => days_between t t' :: intervals rest
  | _ => []
  end.

Definition sum_Z (l : list Z) : Z := fold_right Z.add 0%Z l.

Definition _calculate_consistency_score (submissions : list Submission) : Q :=
  if (length submissions <? 2)%nat then 0.0
  else
    let timestamps := map timestamp submissions in
    let intervals := intervals timestamps in
    match intervals with
    | [] => 0.0
    | _ =>
        let avg_interval := inject_Z (sum_Z intervals) / Num.of_nat (length intervals) in
        if Qle_bool avg_interval 1 then 1.0
        else if Qle_bool avg_interval 3 then 0.8
        else if Qle_bool avg_interval 7 then 0.6
        else 0.4
    end.

(** [len(submissions) < 2] is the list being empty or a singleton; past it,
    [submissions[0]] is the head and [submissions[-1]] the last item. *)
Definition _calculate_progress (submissions : list Submission) : Progress :=
  match submissions with
  | [] | [_] => insufficient_data "Need more submissions to track progress"
  | s0 :: ((_ :: _) as rest) =>
      let first := metrics s0 in
      let last := metrics (List.last rest s0) in
      let recent :=
        if (5 <=? length submissions)%nat then Py.last_n 5 submissions else submissions in
      let readability_change := readability_score last - readability_score first in
      let style_improvement :=
        (Z.of_nat (style_issues_count first) - Z.of_nat (style_issues_count last))%Z in
      let grammar_improvement :=
        (Z.of_nat (grammar_issues_count first) - Z.of_nat (grammar_issues_count last))%Z in
      let recent_readability := map (fun s => readability_score (metrics s)) recent in
      let readability_trend :=
        if Num.Qgtb (List.last recent_readability 0) (List.hd 0 recent_readability)
        then "improving" else "declining" in
      tracked
        {| total_submissions := length submissions;
           readability_change := Num.round readability_change 2;
           style_improvement := style_improvement;
           grammar_improvement := grammar_improvement;
           readability_trend := readability_trend;
           days_active := _calculate_days_active submissions;
           consistency_score := _calculate_consistency_score submissions |}
  end.

Definition _identify_improvement_areas (submissions : list Submission) : list Area :=
  match last submissions with
  | None => []
  | Some latest =>
      let m := metrics latest in
      (if Num.Qltb (readability_score m) 60
       then [ {| area := "readability"; area_priority := "high";
                 area_suggestion := "Focus on simplifying complex sentences" |} ]
       else [])
      ++ (if (3 <? grammar_issues_count m)%nat
          then [ {| area := "grammar"; area_priority := "high";
                    area_suggestion := "Review common grammar rules" |} ]
          else [])
      ++ (if Num.Qltb (sentence_variety m) 0.3
          then [ {| area := "sentence_variety"; area_priority := "medium";
                    area_suggestion := "Mix different sentence types and lengths" |} ]
          else [])
      ++ (if (5 <? style_issues_count m)%nat
          then [ {| area := "writing_style"; area_priority := "medium";
                    area_suggestion := "Focus on active voice and concise language" |} ]
          else [])
  end.

(** [all(r[i] > r[i-1] for i in range(1, 3))] on the readability of
    [submissions[-3:]]. *)
Definition rising (submissions : list Submission) : bool :=
  match map (fun s => readability_score (metrics s)) (Py.last_n 3 submissions) with
  | [r0; r1; r2] => Num.Qgtb r1 r0 && Num.Qgtb r2 r1
  | _ => false
  end.

Definition _calculate_achievements (submissions : list Submission) : list Achievement :=
  (if (5 <=? length submissions)%nat
   then match submissions !! 4%nat with
        | Some s => [ {| name := "Getting Started";
                         description := "Completed 5 writing submissions";
                         earned_at := timestamp s |} ]
        | None => []
        end
   else [])
  ++ (if (10 <=? length submissions)%nat
      then match submissions !! 9%nat with
           | Some s => [ {| name := "Consistent Writer";
                            description := "Completed 10 writing submissions";
                            earned_at := timestamp s |} ]
           | None => []
           end
      else [])
  ++ (if (3 <=? length submissions)%nat
      then if rising submissions
           then match last submissions with
                | Some s => [ {| name := "Rising Star";
                                 description := "Improved readability for 3 consecutive submissions";
                                 earned_at := timestamp s |} ]
                | None => []
                end
           else []
      else []).

(** The three blocks of [_calculate_achievements], each empty or one
    achievement. *)
Definition getting_started (submissions : list Submission) : list Achievement :=
  if (5 <=? length submissions)%nat
  then match submissions !! 4%nat with
       | Some s => [ {| name := "Getting Started";
                        description := "Completed 5 writing submissions";
                        earned_at := timestamp s |} ]
       | None => []
       end
  else [].

Definition consistent_writer (submissions : list Submission) : list Achievement :=
  if (10 <=? length submissions)%nat
  then match submissions !! 9%nat with
       | Some s => [ {| name := "Consistent Writer";
                        description := "Completed 10 writing submissions";
                        earned_at := timestamp s |} ]
       | None => []
       end
  else [].

Definition rising_star (submissions : list Submission) : list Achievement :=
  if (3 <=? length submissions)%nat
  then if rising submissions
       then match last submissions with
            | Some s => [ {| name := "Rising Star";
                             description := "Improved readability for 3 consecutive submissions";
                             earned_at := timestamp s |} ]
            | None => []
            end
       else []
  else [].

Section WithClock.
Context {clk : Clock}.
Variable storage_path : string.

Definition file_path (user_id : string) : string :=
  os_path_join storage_path (user_id +:+ ".json").

Definition _load_user_data (user_id : string) : M UserData :=
  do stored <- load_json (file_path user_id) ;
  match stored with
  | Some data => ret data
  | None =>
      do now <- datetime_now ;
      ret {| user_id := user_id;
             created_at := now;
             submissions := [];
             progress := new_user |}
  end.

Definition _save_user_data (user_id : string) (data : UserData) : M unit :=
  dump_json (file_path user_id) data.

Definition track_submission (user_id : string)
    (analysis_result : TextAnalyzer.Analysis)
    (suggestions : SuggestionGenerator.Suggestions) : M TrackResult :=
  do now <- datetime_now ;
  do metrics <- lift_option (_extract_metrics analysis_result) ;
  let submission :=
    {| timestamp := now; analysis := analysis_result;
       suggestions := suggestions; metrics := metrics |} in
  do user_data <- _load_user_data user_id ;
  let submissions := submissions user_data ++ [submission] in
  let progress := _calculate_progress submissions in
  let user_data :=
    {| user_id := ProgressTracker.user_id user_data;
       created_at := created_at user_data;
       submissions := submissions;
       progress := progress |} in
  do _ <- _save_user_data user_id user_data ;
  ret {| submission_tracked := true;
         current_metrics := metrics;
         overall_progress := progress;
         improvement_areas := _identify_improvement_areas submissions |}.

Definition get_user_report (user_id : string) : M Report :=
  do user_data <- _load_user_data user_id ;
  match submissions user_data with
  | [] => ret (no_data "No submissions found")
  | _ =>
      ret (report
        {| report_user_id := user_id;
           member_since := created_at user_data;
           report_total_submissions := length (submissions user_data);
           report_progress := progress user_data;
           recent_submissions := Py.last_n 5 (submissions user_data);
           report_improvement_areas := _identify_improvement_areas (submissions user_data);
           achievements := _calculate_achievements (submissions user_data) |})
  end.

End WithClock.

End ProgressTracker.

(* ================================================================== *)
(** ** input_handler.py *)
(* ================================================================== *)

Module InputHandler.

Definition valid_formats : list string :=
  ["email"; "essay"; "report"; "creative"; "general"].

Record ValidInput := {
  text : string;
  format : string;
  word_count : nat;
  char_count : nat
}.

(** The validation dictionary: [{valid: False, error}] or
    [{valid: True, text, format, word_count, char_count}]. *)
Inductive Validation :=
| invalid (error : string)
| valid (v : ValidInput).

Definition is_valid (r : Validation) : bool :=
  match r with
  | invalid _ => false
  | valid _ => true
  end.

Definition validate_input (text : string) (writing_format : option string) : Validation :=
  if negb (Py.truthy text) || negb (Py.truthy (Py.strip text)) then
    invalid "Text cannot be empty"
  else if (Py.len (Py.strip text) <? 10)%nat then
    invalid "Text too short for meaningful analysis"
  else
    let writing_format :=
      match writing_format with
      | Some f =>
          if Py.truthy f && negb (TextAnalyzer.mem f valid_formats)
          then Some "general" else Some f
      | None => None
      end in
    valid {| text := Py.strip text;
             format :=
               match writing_format with
               | Some f => if Py.truthy f then f else "general"
               | None => "general"
               end;
             word_count := length (Py.split_ws text);
             char_count := Py.len text |}.

Record Metadata := {
  meta_format : string;
  meta_word_count : nat;
  meta_char_count : nat
}.

Record Prepared := {
  prepared_text : string;
  metadata : Metadata
}.

(** For a valid input; an invalid one is handed back as it is, and
    [process_text] has returned before. *)
Definition prepare_for_analysis (v : ValidInput) : Prepared :=
  {| prepared_text := text v;
     metadata := {| meta_format := format v;
                    meta_word_count := word_count v;
                    meta_char_count := char_count v |} |}.

End InputHandler.

(* ================================================================== *)
(** ** main.py *)
(* ================================================================== *)

Module Pipeline.
Import ProgressTracker.

(** [OutputFormatter.format_analysis_results]; its header reads the clock. *)
Class Formatter := {
  format_analysis_results :
    TextAnalyzer.Analysis -> SuggestionGenerator.Suggestions ->
    FormatClassifier.FormatRules -> option Progress -> M string
}.

Section WithLibraries.
Context {tok : Tokenizer} {rx : Regex}
        {js : SuggestionGenerator.Json} {cl : SuggestionGenerator.Client}
        {clk : Clock} {fmt : Formatter}.
Variable api_type : SuggestionGenerator.ApiType.

(** [ProgressTracker()] is built with the default storage path. *)
Definition storage_path : string := "user_progress".

Definition process_text (text user_id : string) (specified_format : option string)
  : M string :=
  let validated_input := InputHandler.validate_input text specified_format in
  match validated_input with
  | InputHandler.invalid error => ret ("Error: " +:+ error)
  | InputHandler.valid v =>
      let prepared_input := InputHandler.prepare_for_analysis v in
      let text := InputHandler.prepared_text prepared_input in
      let analysis_results := TextAnalyzer.analyze text in
      let '(format_type, confidence) := FormatClassifier.classify text specified_format in
      do format_rules <-
        lift_option (FormatClassifier.apply_format_rules text format_type analysis_results) ;
      let suggestions :=
        SuggestionGenerator.generate_suggestions api_type text analysis_results format_type in
      do progress_result <-
        track_submission storage_path user_id analysis_results suggestions ;
      format_analysis_results analysis_results suggestions format_rules
        (Some (overall_progress progress_result))
  end.

End WithLibraries.

End Pipeline.

(* ================================================================== *)
(** ** output_formatter.py *)
(* ================================================================== *)

Module OutputFormatter.
Import TextAnalyzer ProgressTracker.

Record QuickFix := {
  fix_type : string;
  fix_description : string;
  fix_priority : string
}.

(** [None] is the [KeyError] of an analysis without one of its issue
    lists. *)
Definition _get_quick_fixes
    (analysis : Analysis) (suggestions : SuggestionGenerator.Suggestions)
  : option (list QuickFix) :=
  let fixes := [] in
  match grammar_issues analysis with
  | None => None
  | Some grammar =>
      let fixes :=
        fixes ++ map (fun issue => {| fix_type := "grammar";
                                      fix_description := issue_suggestion issue;
                                      fix_priority := "high" |})
                     (firstn 3 grammar) in
      match style_issues analysis with
      | None => None
      | Some style =>
          Some (fixes ++ map (fun issue => {| fix_type := "style";
                                              fix_description := issue_suggestion issue;
                                              fix_priority := "medium" |})
                             (firstn 2 style))
      end
  end.

Record Summary := {
  summary_readability_score : Q;
  summary_readability_level : string;
  summary_format : string;
  summary_compliance_score : option Q;
  total_issues : nat
}.

Record WebOutput := {
  web_timestamp : datetime;
  summary : Summary;
  web_analysis : Analysis;
  web_suggestions : SuggestionGenerator.Suggestions;
  web_format_rules : option FormatClassifier.FormatRules;
  web_progress : option Progress;
  quick_fixes : list QuickFix
}.

(** [format_rules] is a dictionary as [apply_format_rules] returns it, or
    [None]; the entries of the result are evaluated in the order written,
    the clock first. *)
Definition format_for_web {clk : Clock}
    (analysis : Analysis) (suggestions : SuggestionGenerator.Suggestions)
    (format_rules : option FormatClassifier.FormatRules)
    (user_progress : option Progress) : M WebOutput :=
  do now <- datetime_now ;
  do readability <- lift_option (readability analysis) ;
  do style <- lift_option (style_issues analysis) ;
  do grammar <- lift_option (grammar_issues analysis) ;
  do fixes <- lift_option (_get_quick_fixes analysis suggestions) ;
  ret {| web_timestamp := now;
         summary :=
           {| summary_readability_score := score readability;
              summary_readability_level := level readability;
              summary_format :=
                match format_rules with
                | Some r => FormatClassifier.fr_format r
                | None => "general"
                end;
              summary_compliance_score :=
                match format_rules with
                | Some r => Some (FormatClassifier.compliance_score r)
                | None => None
                end;
              total_issues := (length style + length grammar)%nat |};
         web_analysis := analysis;
         web_suggestions := suggestions;
         web_format_rules := format_rules;
         web_progress := user_progress;
         quick_fixes := fixes |}.

End OutputFormatter.

(* ================================================================== *)
(** ** Sample collaborators and inputs for the worked examples *)
(* ================================================================== *)

Module Samples.

Definition two_sentences : string := "I like tea. You like coffee more.".
Definition two_more : string := "We met him. They left us early.".

(** The tokenizer on the two sample texts (nine tokens in two sentences
    each), and on nothing else. *)
Definition sample_sentences : list (string * list string) :=
  [ (two_sentences, ["I like tea."; "You like coffee more."]);
    (two_more, ["We met him."; "They left us early."]) ].

Definition sample_words : list (string * list string) :=
  [ (two_sentences, ["I"; "like"; "tea"; "."; "You"; "like"; "coffee"; "more"; "."]);
    (two_more, ["We"; "met"; "him"; "."; "They"; "left"; "us"; "early"; "."]) ].

#[local] Instance sample_tokenizer : Tokenizer :=
  {| sent_tokenize t := default [] (FormatClassifier.dict_get t sample_sentences);
     word_tokenize t := default [] (FormatClassifier.dict_get t sample_words) |}.

(** An engine that finds no match. *)
#[local] Instance no_match : Regex :=
  {| re_search _ _ _ := false;
     re_match _ _ _ := false;
     re_finditer _ _ _ := [] |}.

(** A submission with the given timestamp and readability score. *)
Definition submission_at (t : ProgressTracker.datetime) (readability : Q)
  : ProgressTracker.Submission :=
  {| ProgressTracker.timestamp := t;
     ProgressTracker.analysis := TextAnalyzer.empty_analysis;
     ProgressTracker.suggestions :=
       SuggestionGenerator._generate_mock_suggestions "" TextAnalyzer.empty_analysis "general";
     ProgressTracker.metrics :=
       {| ProgressTracker.readability_score := readability;
          ProgressTracker.readability_level := "Fairly Difficult";
          ProgressTracker.style_issues_count := 0;
          ProgressTracker.grammar_issues_count := 0;
          ProgressTracker.avg_sentence_length := 20;
          ProgressTracker.sentence_variety := 0.5;
          ProgressTracker.word_count := 100 |} |}.

(** Submissions one day apart with the given readability scores. *)
Fixpoint history_from (day : Z) (scores : list Q) : list ProgressTracker.Submission :=
  match scores with
  | [] => []
  | x :: scores' =>
      submission_at (day * ProgressTracker.microseconds_per_day)%Z x
      :: history_from (day + 1)%Z scores'
  end.

(** A clock that advances one second per reading. *)
#[local] Instance sample_clock : ProgressTracker.Clock :=
  {| ProgressTracker.reading n := (Z.of_nat n * 1000000)%Z |}.

(** The world before anything was stored. *)
Definition empty_world : ProgressTracker.World :=
  {| ProgressTracker.files := ∅; ProgressTracker.ticks := 0 |}.

(** A text of one sentence of thirty-one words and a short one. *)
Definition long_text : string :=
  "We met on the first day of the week and we talked for a long time about the plan that the team was made to follow in the next two years. It is done.".

(** A hand-written analysis to go with it: level "Easy", one style issue,
    one grammar issue, and a variety score of 0.2. *)
Definition long_text_analysis : TextAnalyzer.Analysis :=
  {| TextAnalyzer.basic_stats :=
       Some {| TextAnalyzer.sentence_count := 2;
               TextAnalyzer.word_count := 35;
               TextAnalyzer.avg_words_per_sentence := 17.5;
               TextAnalyzer.char_count := Py.len long_text;
               TextAnalyzer.unique_words := 27 |};
     TextAnalyzer.readability :=
       Some {| TextAnalyzer.score := 80.5; TextAnalyzer.level := "Easy" |};
     TextAnalyzer.style_issues :=
       Some [ {| TextAnalyzer.issue_type := "passive_voice";
                 TextAnalyzer.issue_text := "was made";
                 TextAnalyzer.issue_suggestion := "Consider using active voice";
                 TextAnalyzer.issue_position := None |} ];
     TextAnalyzer.grammar_issues :=
       Some [ {| TextAnalyzer.issue_type := "confused_words";
                 TextAnalyzer.issue_text := "than";
                 TextAnalyzer.issue_suggestion := "Check usage of then/than";
                 TextAnalyzer.issue_position := Some 10%nat |} ];
     TextAnalyzer.sentence_analysis :=
       Some {| TextAnalyzer.total_sentences := 2;
               TextAnalyzer.sentence_types := ["statement"; "statement"];
               TextAnalyzer.sentence_lengths := [31%nat; 4%nat];
               TextAnalyzer.variety_score := 0.2 |} |}.

(** A decoder for replies that hold no JSON document: decoding raises. *)
#[local] Instance refusing_json : SuggestionGenerator.Json :=
  {| SuggestionGenerator.json_loads _ := None |}.

(** A service that answers every prompt with a sentence and no JSON. *)
Definition apology : string := "I am sorry, I cannot help with that.".

#[local] Instance apologising_client : SuggestionGenerator.Client :=
  {| SuggestionGenerator.gemini_generate_content _ := Some apology;
     SuggestionGenerator.openai_chat_completions_create _ := Some apology |}.

(** A service whose every request raises. *)
#[local] Instance failing_client : SuggestionGenerator.Client :=
  {| SuggestionGenerator.gemini_generate_content _ := None;
     SuggestionGenerator.openai_chat_completions_create _ := None |}.


End Samples.

(* ================================================================== *)
(** * Properties *)
(* ================================================================== *)

(** ** Numbers *)

Module NumFacts.
Import Num.

Lemma Qgeb_true (a b : Q) : Qgeb a b = true <-> b <= a.
Proof. unfold Qgeb. apply Qle_bool_iff. Qed.

Lemma Qgeb_false (a b : Q) : Qgeb a b = false <-> a < b.
Proof.
  unfold Qgeb. split.
  - intros H. apply Qnot_le_lt. intros Hle.
    apply Qle_bool_iff in Hle. congruence.
  - intros H. destruct (Qle_bool b a) eqn:E; [|reflexivity].
    apply Qle_bool_iff in E. exfalso. exact (Qlt_not_le _ _ H E).
Qed.

Lemma Qltb_true (a b : Q) : Qltb a b = true <-> a < b.
Proof.
  unfold Qltb. rewrite negb_true_iff. apply (Qgeb_false a b).
Qed.

Lemma Qltb_false (a b : Q) : Qltb a b = false <-> b <= a.
Proof.
  unfold Qltb. rewrite negb_false_iff. apply (Qgeb_true a b).
Qed.

Lemma Qgtb_true (a b : Q) : Qgtb a b = true <-> b < a.
Proof. apply (Qltb_true b a). Qed.



Local Open Scope Z_scope.

(** The rounding of a fraction [n/d], by its floor [f] and remainder [m]. *)
Lemma round_half_even_cases (q : Q) :
  exists f m,
    Qnum q = Zpos (Qden q) * f + m /\ 0 <= m < Zpos (Qden q)
    /\ ((2 * m < Zpos (Qden q) /\ round_half_even q = f)
        \/ (Zpos (Qden q) < 2 * m /\ round_half_even q = f + 1)
        \/ (2 * m = Zpos (Qden q) /\ Z.even f = true /\ round_half_even q = f)
        \/ (2 * m = Zpos (Qden q) /\ Z.even f = false /\ round_half_even q = f + 1)).
Proof.
  destruct q as [n d]. unfold round_half_even. cbn [Qnum Qden].
  exists (n / Zpos d), (n mod Zpos d).
  split; [apply Z.div_mod; lia|].
  split; [apply Z.mod_pos_bound; lia|].
  destruct (2 * (n mod Zpos d) <? Zpos d) eqn:E1.
  { apply Z.ltb_lt in E1. left. split; [exact E1|reflexivity]. }
  apply Z.ltb_ge in E1.
  destruct (Zpos d <? 2 * (n mod Zpos d)) eqn:E2.
  { apply Z.ltb_lt in E2. right; left. split; [exact E2|reflexivity]. }
  apply Z.ltb_ge in E2.
  destruct (Z.even (n / Zpos d)) eqn:E3.
  - right; right; left. repeat split; lia.
  - right; right; right. repeat split; lia.
Qed.


Lemma round_half_even_mono (q q' : Q) :
  (q <= q')%Q -> round_half_even q <= round_half_even q'.
Proof.
  unfold Qle. intros Hle.
  destruct (round_half_even_cases q) as (f & m & Hn & Hm & H).
  destruct (round_half_even_cases q') as (f' & m' & Hn' & Hm' & H').
  rewrite Hn, Hn' in Hle.
  set (d := Zpos (Qden q)) in *. set (d' := Zpos (Qden q')) in *.
  assert (Hd : 0 < d) by (unfold d; lia).
  assert (Hd' : 0 < d') by (unfold d'; lia).
  assert (Hf : f <= f').
  { destruct (Z_lt_le_dec f' f) as [Hlt|]; [|assumption]. exfalso.
    assert (H1 : d * d' * (f' + 1) <= d * d' * f)
      by (apply Z.mul_le_mono_nonneg_l; nia).
    assert (H2 : m' * d < d' * d) by (apply Z.mul_lt_mono_pos_r; lia).
    assert (H3 : 0 <= m * d') by nia.
    nia. }
  destruct (Z.eq_dec f f') as [<-|Hne].
  - assert (Hmm : m * d' <= m' * d) by nia.
    destruct H as [[? ->]|[[? ->]|[(? & Ev & ->)|(? & Ev & ->)]]];
    destruct H' as [[? ->]|[[? ->]|[(? & Ev' & ->)|(? & Ev' & ->)]]];
      try lia; try congruence; exfalso; nia.
  - assert (f + 1 <= f') by lia.
    destruct H as [[? ->]|[[? ->]|[(? & Ev & ->)|(? & Ev & ->)]]];
    destruct H' as [[? ->]|[[? ->]|[(? & Ev' & ->)|(? & Ev' & ->)]]]; lia.
Qed.

Lemma round_mono (x y : Q) (n : nat) : (x <= y)%Q -> (round x n <= round y n)%Q.
Proof.
  intros H. unfold round.
  set (p := Pos.of_nat (10 ^ n)).
  assert (Hm : round_half_even (x * inject_Z (Zpos p)) <= round_half_even (y * inject_Z (Zpos p))).
  { apply round_half_even_mono. apply Qmult_le_compat_r; [exact H|].
    unfold Qle; simpl; lia. }
  unfold Qle. cbn [Qnum Qden]. nia.
Qed.


Local Close Scope Z_scope.

End NumFacts.

(** ** Readability (text_analyzer.py) *)

Module TextAnalyzerFacts.
Import TextAnalyzer NumFacts.


Section WithLibraries.
Context {tok : Tokenizer} {rx : Regex}.



(** The score the analyzer reports has at most two decimals. *)
Lemma readability_score_two_decimals (text : string) :
  Num.two_decimals (score (_calculate_readability text)).
Proof.
  unfold _calculate_readability.
  destruct (sent_tokenize text), (word_tokenize text); cbn [score];
    try (exists 0%Z; reflexivity).
  eexists. unfold Num.round. reflexivity.
Qed.


End WithLibraries.

End TextAnalyzerFacts.

Module ReadabilityClaim.
Import TextAnalyzer TextAnalyzerFacts.




End ReadabilityClaim.

(** ** Progress and achievements (progress_tracker.py) *)

Module ProgressFacts.
Import ProgressTracker NumFacts.







Lemma round2_two_decimals (x : Q) : Num.two_decimals (Num.round x 2).
Proof. eexists. unfold Num.round. reflexivity. Qed.



End ProgressFacts.

Module ProgressClaim.
Import ProgressTracker NumFacts ProgressFacts.

(** The readability score a submission froze. *)
Abbreviation rs s := (readability_score (metrics s)).




End ProgressClaim.

Module AchievementFacts.
Import ProgressTracker NumFacts ProgressFacts.

Lemma achievements_blocks (submissions : list Submission) :
  _calculate_achievements submissions
  = getting_started submissions ++ consistent_writer submissions ++ rising_star submissions.
Proof. reflexivity. Qed.

Lemma getting_started_elem (submissions : list Submission) (a : Achievement) :
  a ∈ getting_started submissions <->
  (5 <= length submissions)%nat
  /\ exists s, submissions !! 4%nat = Some s
       /\ a = {| name := "Getting Started";
                 description := "Completed 5 writing submissions";
                 earned_at := timestamp s |}.
Proof.
  unfold getting_started. destruct (5 <=? length submissions)%nat eqn:E.
  - apply Nat.leb_le in E.
    destruct (lookup_lt_is_Some_2 submissions 4) as [s Hs]; [lia|].
    rewrite Hs. rewrite list_elem_of_singleton. split.
    + intros ->. split; [exact E|]. exists s. split; reflexivity.
    + intros (_ & s' & Hs' & ->). congruence.
  - apply Nat.leb_gt in E. split.
    + intros H. inversion H.
    + intros [H _]. lia.
Qed.

Lemma consistent_writer_elem (submissions : list Submission) (a : Achievement) :
  a ∈ consistent_writer submissions <->
  (10 <= length submissions)%nat
  /\ exists s, submissions !! 9%nat = Some s
       /\ a = {| name := "Consistent Writer";
                 description := "Completed 10 writing submissions";
                 earned_at := timestamp s |}.
Proof.
  unfold consistent_writer. destruct (10 <=? length submissions)%nat eqn:E.
  - apply Nat.leb_le in E.
    destruct (lookup_lt_is_Some_2 submissions 9) as [s Hs]; [lia|].
    rewrite Hs. rewrite list_elem_of_singleton. split.
    + intros ->. split; [exact E|]. exists s. split; reflexivity.
    + intros (_ & s' & Hs' & ->). congruence.
  - apply Nat.leb_gt in E. split.
    + intros H. inversion H.
    + intros [H _]. lia.
Qed.

(** [rising] holds exactly when the history ends with three submissions of
    strictly increasing readability. *)
Lemma rising_iff (submissions : list Submission) :
  rising submissions = true <->
  exists older s1 s2 s3,
    submissions = older ++ [s1; s2; s3]
    /\ readability_score (metrics s1) < readability_score (metrics s2)
    /\ readability_score (metrics s2) < readability_score (metrics s3).
Proof.
  unfold rising, Py.last_n. split.
  - intros H.
    pose proof (take_drop (length submissions - 3) submissions) as Htd.
    change (@List.skipn) with (@drop) in H.
    destruct (drop (length submissions - 3) submissions) as [|s1 [|s2 [|s3 [|s4 t]]]];
      simpl in H; try discriminate.
    apply andb_true_iff in H as [H1 H2].
    apply Qgtb_true in H1, H2.
    exists (take (length submissions - 3) submissions), s1, s2, s3.
    split; [symmetry; exact Htd|]. split; assumption.
  - intros (older & s1 & s2 & s3 & -> & H1 & H2).
    change (@List.skipn) with (@drop).
    rewrite length_app. simpl length.
    replace (length older + 3 - 3)%nat with (length older) by lia.
    rewrite drop_app_length. simpl.
    apply andb_true_iff. split; apply Qgtb_true; assumption.
Qed.

Lemma rising_star_elem (submissions : list Submission) (a : Achievement) :
  a ∈ rising_star submissions <->
  rising submissions = true
  /\ exists s, last submissions = Some s
       /\ a = {| name := "Rising Star";
                 description := "Improved readability for 3 consecutive submissions";
                 earned_at := timestamp s |}.
Proof.
  unfold rising_star. split.
  - destruct (3 <=? length submissions)%nat; [|intros H; inversion H].
    destruct (rising submissions); [|intros H; inversion H].
    destruct (last submissions) as [s|]; [|intros H; inversion H].
    rewrite list_elem_of_singleton. intros ->. split; [reflexivity|].
    exists s. split; reflexivity.
  - intros (Hr & s & Hs & ->).
    destruct (proj1 (rising_iff submissions) Hr) as (older & s1 & s2 & s3 & E & _).
    assert (Hlen : (3 <=? length submissions)%nat = true).
    { apply Nat.leb_le. rewrite E, length_app. simpl. lia. }
    rewrite Hlen, Hr, Hs. apply list_elem_of_singleton. reflexivity.
Qed.

End AchievementFacts.

Module AchievementClaim.
Import ProgressTracker AchievementFacts.

(** C8: for every submission history, the achievements contain "Getting
    Started" if and only if there are at least 5 submissions (so not at 4),
    and then its [earned_at] is the 5th submission's timestamp; "Consistent
    Writer" if and only if there are at least 10; and "Rising Star" if and
    only if the history ends with three submissions whose readability scores
    increase strictly from each to the next. *)
Theorem achievements_of_history (submissions : list Submission) :
  let earned n := exists a, a ∈ _calculate_achievements submissions /\ name a = n in
  (earned "Getting Started" <-> (5 <= length submissions)%nat)
  /\ (forall a, a ∈ _calculate_achievements submissions ->
        name a = "Getting Started" ->
        exists fifth, submissions !! 4%nat = Some fifth /\ earned_at a = timestamp fifth)
  /\ (earned "Consistent Writer" <-> (10 <= length submissions)%nat)
  /\ (earned "Rising Star" <->
      exists older s1 s2 s3,
        submissions = older ++ [s1; s2; s3]
        /\ readability_score (metrics s1) < readability_score (metrics s2)
        /\ readability_score (metrics s2) < readability_score (metrics s3)).
Proof.
  cbv zeta. rewrite achievements_blocks.
  assert (Hcases : forall a,
    a ∈ getting_started submissions ++ consistent_writer submissions
        ++ rising_star submissions <->
    a ∈ getting_started submissions \/ a ∈ consistent_writer submissions
    \/ a ∈ rising_star submissions).
  { intros a. rewrite !elem_of_app. tauto. }
  repeat split.
  - intros (a & Ha & Hn). apply Hcases in Ha as [Ha|[Ha|Ha]].
    + apply getting_started_elem in Ha. tauto.
    + apply consistent_writer_elem in Ha as (_ & s & _ & ->). discriminate Hn.
    + apply rising_star_elem in Ha as (_ & s & _ & ->). discriminate Hn.
  - intros H. destruct (lookup_lt_is_Some_2 submissions 4) as [s Hs]; [lia|].
    exists {| name := "Getting Started";
              description := "Completed 5 writing submissions";
              earned_at := timestamp s |}.
    split; [|reflexivity]. apply Hcases. left.
    apply getting_started_elem. split; [exact H|]. exists s. split; [exact Hs|reflexivity].
  - intros a Ha Hn. apply Hcases in Ha as [Ha|[Ha|Ha]].
    + apply getting_started_elem in Ha as (_ & s & Hs & ->). exists s. split; [exact Hs|reflexivity].
    + apply consistent_writer_elem in Ha as (_ & s & _ & ->). discriminate Hn.
    + apply rising_star_elem in Ha as (_ & s & _ & ->). discriminate Hn.
  - intros (a & Ha & Hn). apply Hcases in Ha as [Ha|[Ha|Ha]].
    + apply getting_started_elem in Ha as (_ & s & _ & ->). discriminate Hn.
    + apply consistent_writer_elem in Ha. tauto.
    + apply rising_star_elem in Ha as (_ & s & _ & ->). discriminate Hn.
  - intros H. destruct (lookup_lt_is_Some_2 submissions 9) as [s Hs]; [lia|].
    exists {| name := "Consistent Writer";
              description := "Completed 10 writing submissions";
              earned_at := timestamp s |}.
    split; [|reflexivity]. apply Hcases. right; left.
    apply consistent_writer_elem. split; [exact H|]. exists s. split; [exact Hs|reflexivity].
  - intros (a & Ha & Hn). apply Hcases in Ha as [Ha|[Ha|Ha]].
    + apply getting_started_elem in Ha as (_ & s & _ & ->). discriminate Hn.
    + apply consistent_writer_elem in Ha as (_ & s & _ & ->). discriminate Hn.
    + apply rising_star_elem in Ha as (Hr & _). apply rising_iff. exact Hr.
  - intros H. apply rising_iff in H.
    destruct (proj1 (rising_iff submissions) H) as (older & s1 & s2 & s3 & E & _).
    assert (Hl : is_Some (last submissions)).
    { apply last_is_Some. rewrite E. destruct older; discriminate. }
    destruct Hl as [s Hs].
    exists {| name := "Rising Star";
              description := "Improved readability for 3 consecutive submissions";
              earned_at := timestamp s |}.
    split; [|reflexivity]. apply Hcases. right; right.
    apply rising_star_elem. split; [exact H|]. exists s. split; [exact Hs|reflexivity].
Qed.

(** The theorem on five submissions of readability 40, 50, 45, 55, 60:
    "Getting Started" (earned at the fifth) and "Rising Star" are there,
    "Consistent Writer" is not. *)
Lemma achievements_of_history_witness :
  (exists a, a ∈ _calculate_achievements (Samples.history_from 0 [40; 50; 45; 55; 60])
             /\ name a = "Getting Started")
  /\ (exists a, a ∈ _calculate_achievements (Samples.history_from 0 [40; 50; 45; 55; 60])
                /\ name a = "Rising Star")
  /\ ~ (exists a, a ∈ _calculate_achievements (Samples.history_from 0 [40; 50; 45; 55; 60])
                  /\ name a = "Consistent Writer")
  /\ ~ (exists a, a ∈ _calculate_achievements (Samples.history_from 0 [40; 50; 45; 55])
                  /\ name a = "Getting Started").
Proof.
  pose proof (achievements_of_history (Samples.history_from 0 [40; 50; 45; 55; 60]))
    as (Hgs & _ & Hcw & Hrs).
  pose proof (achievements_of_history (Samples.history_from 0 [40; 50; 45; 55]))
    as (Hgs4 & _).
  cbv zeta in *. split; [apply Hgs; simpl; lia|].
  split.
  - apply Hrs. eexists (Samples.history_from 0 [40; 50]), _, _, _.
    split; [reflexivity|]. split; vm_compute; reflexivity.
  - split.
    + intros H. apply Hcw in H. simpl in H. lia.
    + intros H. apply Hgs4 in H. simpl in H. lia.
Defined.

End AchievementClaim.

(** ** Reports for unseen users (progress_tracker.py) *)

Module ReportClaim.
Import ProgressTracker.

Lemma load_unseen_user {clk : Clock} (storage_path user : string) (w : World) :
  files w !! file_path storage_path user = None ->
  _load_user_data storage_path user w
    = (Some {| user_id := user; created_at := reading (ticks w);
               submissions := []; progress := new_user |},
       {| files := files w; ticks := S (ticks w) |}).
Proof.
  intros Hnone. unfold _load_user_data, bind, load_json. rewrite Hnone. reflexivity.
Qed.

Lemma report_unseen_user {clk : Clock} (storage_path user : string) (w : World) :
  files w !! file_path storage_path user = None ->
  get_user_report storage_path user w
    = (Some (no_data "No submissions found"),
       {| files := files w; ticks := S (ticks w) |}).
Proof.
  intros Hnone. unfold get_user_report, bind.
  rewrite (load_unseen_user _ _ _ Hnone). reflexivity.
Qed.

(** C9 (as amended): for a user identifier with no persisted record,
    [get_user_report] returns [{status: no_data}] and leaves the storage as
    it was.  The user's record (the identifier, [created_at] read from the
    clock at this access, an empty submissions list) is built by
    [_load_user_data] for the call only and is not saved, so the user still
    has no persisted record after the report request. *)
Theorem report_for_unseen_user {clk : Clock}
    (storage_path user : string) (w : World) :
  files w !! file_path storage_path user = None ->
  _load_user_data storage_path user w
    = (Some {| user_id := user; created_at := reading (ticks w);
               submissions := []; progress := new_user |},
       {| files := files w; ticks := S (ticks w) |})
  /\ fst (get_user_report storage_path user w) = Some (no_data "No submissions found")
  /\ files (snd (get_user_report storage_path user w)) = files w
  /\ files (snd (get_user_report storage_path user w)) !! file_path storage_path user = None.
Proof.
  intros Hnone. split; [apply load_unseen_user; exact Hnone|].
  rewrite (report_unseen_user _ _ _ Hnone). cbn [fst snd files].
  repeat split. exact Hnone.
Qed.

(** The theorem on the empty storage. *)
Lemma report_for_unseen_user_witness :
  fst (@get_user_report Samples.sample_clock "user_progress" "alice" Samples.empty_world)
    = Some (no_data "No submissions found")
  /\ files (snd (@get_user_report Samples.sample_clock "user_progress" "alice"
                   Samples.empty_world))
     = files Samples.empty_world.
Proof.
  destruct (@report_for_unseen_user Samples.sample_clock "user_progress" "alice"
              Samples.empty_world) as (_ & Hreport & Hfiles & _).
  - apply lookup_empty.
  - split; [exact Hreport | exact Hfiles].
Defined.

(** C9 as stated fails: after the first report request on the empty storage
    the user has no persisted record. *)
Lemma report_request_saves_nothing :
  fst (@get_user_report Samples.sample_clock "user_progress" "alice" Samples.empty_world)
    = Some (no_data "No submissions found")
  /\ ~ is_Some
       (files (snd (@get_user_report Samples.sample_clock "user_progress" "alice"
                      Samples.empty_world))
        !! file_path "user_progress" "alice").
Proof.
  rewrite (report_unseen_user "user_progress" "alice" Samples.empty_world (lookup_empty _)).
  split; [reflexivity|].
  intros [data Hdata]. cbn [snd files Samples.empty_world] in Hdata.
  rewrite lookup_empty in Hdata. discriminate Hdata.
Qed.

End ReportClaim.

(** ** Input validation (input_handler.py, main.py) *)

Module ValidationClaim.
Import InputHandler.

Lemma truthy_false (s : string) : Py.truthy s = false <-> s = "".
Proof. destruct s; simpl; split; congruence. Qed.

Lemma len_zero (s : string) : Py.len s = 0%nat <-> s = "".
Proof. destruct s; simpl; split; congruence. Qed.

(** [not text or not text.strip()] is: the stripped text is empty. *)
Lemma empty_test (text : string) :
  negb (Py.truthy text) || negb (Py.truthy (Py.strip text)) = true
  <-> Py.strip text = "".
Proof.
  rewrite orb_true_iff, !negb_true_iff, !truthy_false. split.
  - intros [->| H]; [reflexivity | exact H].
  - intros H. right. exact H.
Qed.

(** C10: [validate_input] marks the input invalid exactly when the stripped
    text has fewer than 10 characters, with error "Text cannot be empty"
    when the stripped text is empty and "Text too short for meaningful
    analysis" when it has 1 to 9 characters; a text whose stripped length is
    at least 10 is valid and carries the stripped text.  On an invalid input
    [process_text] returns the error, whatever the collaborators are, and
    leaves the world (storage and clock) as it was. *)
Theorem validate_input_gate (text : string) (writing_format : option string) :
  let n := Py.len (Py.strip text) in
  (is_valid (validate_input text writing_format) = false <-> (n < 10)%nat)
  /\ (n = 0%nat -> validate_input text writing_format = invalid "Text cannot be empty")
  /\ ((1 <= n <= 9)%nat ->
      validate_input text writing_format
        = invalid "Text too short for meaningful analysis")
  /\ ((10 <= n)%nat ->
      exists v, validate_input text writing_format = valid v
                /\ InputHandler.text v = Py.strip text)
  /\ (forall (tok : Tokenizer) (rx : Regex)
             (js : SuggestionGenerator.Json) (cl : SuggestionGenerator.Client)
             (clk : ProgressTracker.Clock) (fm : Pipeline.Formatter)
             (api_type : SuggestionGenerator.ApiType)
             (user : string) (w : ProgressTracker.World),
        is_valid (validate_input text writing_format) = false ->
        exists error,
          validate_input text writing_format = invalid error
          /\ Pipeline.process_text api_type text user writing_format w
             = (Some ("Error: " +:+ error), w)).
Proof.
  cbv zeta. unfold validate_input.
  destruct (negb (Py.truthy text) || negb (Py.truthy (Py.strip text))) eqn:Eempty.
  - apply empty_test in Eempty. rewrite Eempty. simpl.
    repeat split; try (intros; lia); try reflexivity.
    intros. exists "Text cannot be empty". split; [reflexivity|].
    unfold Pipeline.process_text, validate_input.
    rewrite (proj2 (empty_test text) Eempty). reflexivity.
  - assert (Hne : Py.len (Py.strip text) <> 0%nat).
    { intros H. apply len_zero in H. apply empty_test in H. congruence. }
    destruct (Py.len (Py.strip text) <? 10)%nat eqn:Eshort.
    + apply Nat.ltb_lt in Eshort.
      repeat split; try (intros; lia); try reflexivity; try (intros; exact Eshort).
      intros. exists "Text too short for meaningful analysis". split; [reflexivity|].
      unfold Pipeline.process_text, validate_input.
      rewrite Eempty. rewrite (proj2 (Nat.ltb_lt _ _) Eshort). reflexivity.
    + apply Nat.ltb_ge in Eshort.
      repeat split; try (intros; lia); try (simpl; intros; discriminate).
      intros _. eexists. split; reflexivity.
Qed.

(** The theorem on an empty, a short and a long enough text. *)
Lemma validate_input_gate_witness :
  validate_input "   " None = invalid "Text cannot be empty"
  /\ validate_input " too short " (Some "essay")
     = invalid "Text too short for meaningful analysis"
  /\ exists v, validate_input "  long enough text  " None = valid v
               /\ InputHandler.text v = "long enough text".
Proof.
  pose proof (validate_input_gate "   " None) as (_ & Hempty & _).
  pose proof (validate_input_gate " too short " (Some "essay")) as (_ & _ & Hshort & _).
  pose proof (validate_input_gate "  long enough text  " None) as (_ & _ & _ & Hvalid & _).
  split; [apply Hempty; reflexivity|].
  split; [apply Hshort; vm_compute; split; lia|].
  apply Hvalid. vm_compute. lia.
Defined.

End ValidationClaim.

(** ** Classification (format_classifier.py) *)

Module ClassifierFacts.
Import FormatClassifier NumFacts.

Lemma fold_left_bonus {A} (p : A -> bool) (w : nat) (l : list A) (s : nat) :
  fold_left (fun s x => if p x then (s + w)%nat else s) l s
  = (s + w * count_if p l)%nat.
Proof.
  unfold count_if. revert s. induction l as [|x l IH]; intros s; simpl.
  - lia.
  - rewrite IH. destruct (p x); simpl; lia.
Qed.

(** [max_from] keeps a running best: whatever precedes the result is
    strictly below it, whatever follows is at most it. *)
Lemma max_from_spec {A} (key : A -> nat) (items seen : list A) (best : A) :
  (forall x, x ∈ seen -> (key x <= key best)%nat) ->
  exists before after,
    seen ++ items = seen ++ before ++ after
    /\ (max_from key best items = best /\ before = [] /\ after = items
        \/ exists before', before = before' ++ [max_from key best items]
             /\ (key best < key (max_from key best items))%nat
             /\ forall x, x ∈ before' -> (key x < key (max_from key best items))%nat)
    /\ (forall x, x ∈ after -> (key x <= key (max_from key best items))%nat)
    /\ (key best <= key (max_from key best items))%nat.
Proof.
  revert seen best. induction items as [|y items IH]; intros seen best Hseen.
  - exists [], []. simpl. split; [reflexivity|]. split; [left; auto|].
    split; [intros x Hx; inversion Hx | lia].
  - simpl. destruct (key best <? key y)%nat eqn:E.
    + apply Nat.ltb_lt in E.
      destruct (IH (seen ++ [best]) y) as (before & after & Happ & Hcase & Hafter & Hle).
      { intros x Hx. apply elem_of_app in Hx as [Hx|Hx].
        - specialize (Hseen x Hx). lia.
        - apply list_elem_of_singleton in Hx as ->. lia. }
      destruct Hcase as [(Heq & -> & ->)|(before' & -> & Hlt & Hbefore)].
      * exists [y], items. rewrite Heq in *.
        split; [reflexivity|]. split.
        { right. exists []. split; [reflexivity|]. split; [exact E|].
          intros x Hx. inversion Hx. }
        split; [exact Hafter | lia].
      * exists (y :: before' ++ [max_from key y items]), after.
        split.
        { f_equal. simpl. f_equal.
          apply app_inv_head in Happ. exact Happ. }
        split.
        { right. exists (y :: before'). split; [reflexivity|]. split; [lia|].
          intros x Hx. apply elem_of_cons in Hx as [->|Hx]; [exact Hlt|].
          exact (Hbefore x Hx). }
        split; [exact Hafter | lia].
    + apply Nat.ltb_ge in E.
      destruct (IH (seen ++ [y]) best) as (before & after & Happ & Hcase & Hafter & Hle).
      { intros x Hx. apply elem_of_app in Hx as [Hx|Hx].
        - exact (Hseen x Hx).
        - apply list_elem_of_singleton in Hx as ->. exact E. }
      destruct Hcase as [(Heq & -> & ->)|(before' & -> & Hlt & Hbefore)].
      * exists [], (y :: items). rewrite Heq in *.
        split; [reflexivity|]. split; [left; auto|].
        split; [|lia].
        intros x Hx. apply elem_of_cons in Hx as [->|Hx]; [exact E|].
        exact (Hafter x Hx).
      * exists (y :: before' ++ [max_from key best items]), after.
        split.
        { f_equal. simpl. f_equal. apply app_inv_head in Happ. exact Happ. }
        split.
        { right. exists (y :: before'). split; [reflexivity|]. split; [exact Hlt|].
          intros x Hx. apply elem_of_cons in Hx as [->|Hx]; [lia|].
          exact (Hbefore x Hx). }
        split; [exact Hafter | exact Hle].
Qed.

(** [max(items, key=...)] returns the first item of maximal key. *)
Lemma py_max_first_maximum {A} (key : A -> nat) (items : list A) (best : A) :
  py_max key items = Some best ->
  exists before after,
    items = before ++ best :: after
    /\ (forall x, x ∈ before -> (key x < key best)%nat)
    /\ (forall x, x ∈ after -> (key x <= key best)%nat).
Proof.
  destruct items as [|x items]; simpl; [discriminate|].
  intros [= <-].
  destruct (max_from_spec key items [] x) as (before & after & Happ & Hcase & Hafter & Hle).
  { intros y Hy. inversion Hy. }
  simpl in Happ.
  destruct Hcase as [(Heq & -> & ->)|(before' & -> & Hlt & Hbefore)].
  - exists [], items. rewrite Heq in *. split; [reflexivity|].
    split; [intros y Hy; inversion Hy | exact Hafter].
  - exists (x :: before'), after. split.
    { simpl. f_equal. rewrite <- app_assoc in Happ. exact Happ. }
    split; [|exact Hafter].
    intros y Hy. apply elem_of_cons in Hy as [->|Hy]; [exact Hlt|].
    exact (Hbefore y Hy).
Qed.

Section WithLibraries.
Context {rx : Regex}.

Lemma format_score_total (text : string) (indicators : Indicators) :
  format_score text indicators
  = (matched_keywords text indicators + 2 * matched_patterns text indicators
     + _check_structure text (structural indicators))%nat.
Proof.
  unfold format_score, matched_keywords, matched_patterns.
  rewrite !fold_left_bonus. lia.
Qed.

(** The score of each of the four formats is its total as specified. *)
Lemma scores_are_totals (text : string) :
  map (fun '(format_type, indicators) => (format_type, format_score text indicators))
      format_indicators
  = map (fun entry => (fst entry, total_score text entry)) format_indicators.
Proof.
  unfold format_indicators. cbn [map fst snd].
  repeat f_equal; rewrite format_score_total; unfold total_score; cbn [fst snd];
    f_equal; unfold _check_structure, structure_points, bonus; cbn;
    repeat match goal with |- context [if ?b then _ else _] => destruct b end;
    reflexivity.
Qed.

End WithLibraries.

End ClassifierFacts.

Module ClassifierClaim.
Import FormatClassifier NumFacts ClassifierFacts.

(** C5: with no user-specified format, [classify] scores email, essay,
    report and creative, in this order, by one point per matched keyword,
    two per matched pattern, plus the format's structural points; the winner
    is the first format of maximal total; the confidence is the winner's
    total over the sum of the four totals, 0 when the sum is 0; below 0.3
    the returned format is "general" and the returned confidence is still
    that computed value, otherwise the winner is returned with it. *)
Theorem classify_by_scores {rx : Regex} (text : string) :
  let scores := map (fun entry => (fst entry, total_score text entry)) format_indicators in
  let total := list_sum (map snd scores) in
  map fst scores = ["email"; "essay"; "report"; "creative"]
  /\ exists before winner after confidence,
       scores = before ++ winner :: after
       /\ (forall x, x ∈ before -> (snd x < snd winner)%nat)
       /\ (forall x, x ∈ after -> (snd x <= snd winner)%nat)
       /\ (total = 0%nat -> confidence = 0)
       /\ (total <> 0%nat -> confidence = Num.of_nat (snd winner) / Num.of_nat total)
       /\ (confidence < 0.3 -> classify text None = ("general", confidence))
       /\ (0.3 <= confidence -> classify text None = (fst winner, confidence)).
Proof.
  cbv zeta. split; [reflexivity|].
  unfold classify. rewrite scores_are_totals.
  set (scores := map (fun entry => (fst entry, total_score text entry)) format_indicators).
  destruct (py_max snd scores) as [best|] eqn:Hmax; [|discriminate Hmax].
  destruct (py_max_first_maximum _ _ _ Hmax) as (before & after & Hsplit & Hbefore & Hafter).
  exists before, best, after.
  exists (if (0 <? list_sum (map snd scores))%nat
          then Num.of_nat (snd best) / Num.of_nat (list_sum (map snd scores))
          else 0).
  split; [exact Hsplit|]. split; [exact Hbefore|]. split; [exact Hafter|].
  split.
  { intros ->. reflexivity. }
  split.
  { intros Hne. destruct (0 <? list_sum (map snd scores))%nat eqn:E; [reflexivity|].
    apply Nat.ltb_ge in E. lia. }
  split.
  - intros Hlt. apply Qltb_true in Hlt. rewrite Hlt. reflexivity.
  - intros Hge. apply Qltb_false in Hge. rewrite Hge. reflexivity.
Qed.

(** The theorem on a sample text: the result is "general" or one of the
    four scored formats. *)
Lemma classify_by_scores_witness :
  exists format_type confidence,
    @classify Samples.no_match Samples.two_sentences None = (format_type, confidence)
    /\ format_type ∈ ["general"; "email"; "essay"; "report"; "creative"].
Proof.
  destruct (@classify_by_scores Samples.no_match Samples.two_sentences)
    as (Hnames & before & winner & after & confidence & Hsplit & _ & _ & _ & _ & Hlow & Hhigh).
  destruct (Qlt_le_dec confidence 0.3) as [H|H].
  - exists "general", confidence. split; [exact (Hlow H)|]. apply elem_of_cons; left; reflexivity.
  - exists (fst winner), confidence. split; [exact (Hhigh H)|].
    apply elem_of_cons; right. rewrite <- Hnames.
    apply list_elem_of_fmap. exists winner. split; [reflexivity|].
    cbv zeta in Hsplit. rewrite Hsplit. apply elem_of_app; right. apply elem_of_cons; left; reflexivity.
Defined.

(** C7: a user-specified format of the rule set (email, essay, report,
    creative, general) is returned with confidence 1.0, whatever the text. *)
Theorem classify_user_format {rx : Regex} (text format_type : string) :
  format_type ∈ map fst format_rules ->
  map fst format_rules = ["email"; "essay"; "report"; "creative"; "general"]
  /\ classify text (Some format_type) = (format_type, 1.0).
Proof.
  intros H. split; [reflexivity|].
  cbn [map fst format_rules] in H.
  repeat (apply elem_of_cons in H as [->|H]; [reflexivity|]).
  inversion H.
Qed.

(** The theorem on a text that reads like nothing of an essay. *)
Lemma classify_user_format_witness :
  @classify Samples.no_match Samples.two_sentences (Some "essay") = ("essay", 1.0).
Proof.
  apply (@classify_user_format Samples.no_match Samples.two_sentences "essay").
  apply elem_of_cons; right. apply elem_of_cons; left. reflexivity.
Defined.

End ClassifierClaim.

(** ** Format compliance (format_classifier.py) *)

Module ComplianceFacts.
Import TextAnalyzer FormatClassifier NumFacts.

(** Comparisons of numerals. *)
Ltac qcompare := unfold Qle, Qlt; simpl; lia.

(** Rounding does not depend on how the fraction is written. *)
Lemma round_Qeq (x y : Q) (n : nat) : x == y -> Num.round x n = Num.round y n.
Proof.
  intros H. unfold Num.round. f_equal.
  apply Z.le_antisymm; apply round_half_even_mono;
    apply Qmult_le_compat_r; try (rewrite H; apply Qle_refl);
    unfold Qle; simpl; lia.
Qed.

Lemma factor_range (b : bool) (f : Q) : 0 < f -> f <= 1 -> 0 < factor b f /\ factor b f <= 1.
Proof. intros H0 H1. destruct b; simpl; split; try assumption; qcompare. Qed.

Lemma factor_mono (b b' : bool) (f : Q) :
  f <= 1 -> (b = true -> b' = true) -> factor b' f <= factor b f.
Proof.
  intros H1 Himp. destruct b, b'; simpl; try apply Qle_refl; try assumption.
  discriminate (Himp eq_refl).
Qed.

Lemma power_range (f : Q) (n : nat) : 0 < f -> f <= 1 -> 0 < power f n /\ power f n <= 1.
Proof.
  intros H0 H1. induction n as [|n [IH0 IH1]]; simpl.
  - split; qcompare.
  - split; [apply Qmult_lt_0_compat; assumption|].
    rewrite <- (Qmult_1_l 1). apply Qmult_le_compat_nonneg; split;
      try assumption; apply Qlt_le_weak; assumption.
Qed.

Lemma power_mono (f : Q) (n n' : nat) :
  0 < f -> f <= 1 -> (n <= n')%nat -> power f n' <= power f n.
Proof.
  intros H0 H1 Hle. induction Hle as [|n' Hle IH]; [apply Qle_refl|].
  simpl. eapply Qle_trans; [|exact IH].
  rewrite <- (Qmult_1_r (power f n')) at 2.
  destruct (power_range f n' H0 H1) as [Hp _].
  apply Qmult_le_l; assumption.
Qed.


Lemma product_mono (a a' b b' : Q) :
  0 < a' -> a' <= a -> 0 < b' -> b' <= b -> a' * b' <= a * b.
Proof.
  intros. apply Qmult_le_compat_nonneg; split; try assumption;
    apply Qlt_le_weak; assumption.
Qed.


(** More violations, smaller score before rounding. *)
Lemma decayed_mono (s l p s' l' p' : bool) (k k' : nat) :
  (s = true -> s' = true) -> (l = true -> l' = true) -> (p = true -> p' = true) ->
  (k <= k')%nat ->
  decayed s' l' p' k' <= decayed s l p k.
Proof.
  intros Hs Hl Hp Hk. unfold decayed.
  assert (R : forall b f, 0 < f -> f <= 1 -> 0 < factor b f)
    by (intros; apply factor_range; assumption).
  apply product_mono.
  - repeat apply Qmult_lt_0_compat; try qcompare; apply R; qcompare.
  - apply product_mono.
    + repeat apply Qmult_lt_0_compat; try qcompare; apply R; qcompare.
    + apply product_mono.
      * repeat apply Qmult_lt_0_compat; try qcompare; apply R; qcompare.
      * apply product_mono; try qcompare.
        -- apply R; qcompare.
        -- apply factor_mono; [qcompare | exact Hs].
      * apply R; qcompare.
      * apply factor_mono; [qcompare | exact Hl].
    + apply R; qcompare.
    + apply factor_mono; [qcompare | exact Hp].
  - apply power_range; qcompare.
  - apply power_mono; [qcompare | qcompare | exact Hk].
Qed.

Lemma fold_left_decay {A E} (step : A -> E -> A) (l : list E) (acc : A) (c : Q) :
  fst (fold_left (fun '(acc, c) e => (step acc e, c * 0.85)) l (acc, c))
    = fold_left step l acc
  /\ snd (fold_left (fun '(acc, c) e => (step acc e, c * 0.85)) l (acc, c))
     == c * power 0.85 (length l).
Proof.
  revert acc c. induction l as [|e l IH]; intros acc c; simpl.
  - split; [reflexivity | ring].
  - destruct (IH (step acc e) (c * 0.85)) as [IH1 IH2]. split; [exact IH1|].
    rewrite IH2. clear. generalize (power 0.85 (length l)). intros q. ring.
Qed.

Lemma fold_left_snoc_length {A E} (g : E -> A) (l : list E) (acc : list A) :
  length (fold_left (fun acc e => acc ++ [g e]) l acc) = (length acc + length l)%nat.
Proof.
  revert acc. induction l as [|e l IH]; intros acc; simpl; [lia|].
  rewrite IH, length_app. simpl. lia.
Qed.

Section WithLibraries.
Context {rx : Regex}.

Lemma missing_is_filter (text : string) (required : list string) (format_type : string) :
  _check_required_elements text required format_type
  = List.filter (is_missing text) required.
Proof.
  unfold _check_required_elements, is_missing.
  induction required as [|e required IH]; simpl; [reflexivity|].
  rewrite IH. destruct (element_checks e) as [check|]; [|reflexivity].
  destruct (check text); reflexivity.
Qed.


Lemma compliance_equation (text format_type : string) (analysis : Analysis)
    (stats : BasicStats) :
  basic_stats analysis = Some stats ->
  exists r,
    apply_format_rules text format_type analysis = Some r
    /\ fr_format r = format_type
    /\ fr_rules r = rules_of format_type
    /\ length (recommendations r)
       = (count_true (too_short (rules_of format_type) (TextAnalyzer.word_count stats))
          + count_true (too_long (rules_of format_type) (TextAnalyzer.word_count stats))
          + count_true (long_paragraphs (rules_of format_type) text)
          + length (List.filter (is_missing text)
                      (required_elements (rules_of format_type))))%nat
    /\ compliance_score r
       = Num.round
           (decayed (too_short (rules_of format_type) (TextAnalyzer.word_count stats))
                    (too_long (rules_of format_type) (TextAnalyzer.word_count stats))
                    (long_paragraphs (rules_of format_type) text)
                    (length (List.filter (is_missing text)
                               (required_elements (rules_of format_type)))))
           2.
Proof.
  intros Hstats. unfold apply_format_rules. rewrite Hstats.
  change (match dict_get format_type format_rules with
          | Some r => r
          | None => general_rules
          end) with (rules_of format_type).
  rewrite missing_is_filter.
  unfold too_short, too_long, long_paragraphs.
  generalize (List.filter (is_missing text) (required_elements (rules_of format_type))).
  intros missing.
  generalize (rules_of format_type). intros rules.
  destruct (min_length rules) as [m|], (max_length rules) as [m'|];
    repeat match goal with
           | |- context [(?a <? ?b)%nat] => destruct (a <? b)%nat
           | |- context [Num.Qgtb ?a ?b] => destruct (Num.Qgtb a b)
           end;
    match goal with
    | |- context [fold_left ?F missing (?a0, ?c0)] =>
        let H := fresh "Hfold" in
        assert (H : fst (fold_left F missing (a0, c0))
                      = fold_left (fun acc e =>
                                     acc ++ [ {| rec_type := "missing_element";
                                                 rec_issue := "Missing " +:+ e;
                                                 rec_suggestion :=
                                                   "Add a clear " +:+ e +:+ " section" |} ])
                                  missing a0
                    /\ snd (fold_left F missing (a0, c0)) == c0 * power 0.85 (length missing))
          by (apply (fold_left_decay
                       (fun acc e =>
                          acc ++ [ {| rec_type := "missing_element";
                                      rec_issue := "Missing " +:+ e;
                                      rec_suggestion :=
                                        "Add a clear " +:+ e +:+ " section" |} ])));
        destruct (fold_left F missing (a0, c0)) as [recs c'];
        cbn [fst snd] in H; destruct H as [-> Hc']
    end.
  all: eexists; split; [reflexivity|]; cbn [fr_format fr_rules recommendations compliance_score].
  all: split; [reflexivity|]; split; [reflexivity|].
  all: split; [rewrite fold_left_snoc_length; simpl; lia|].
  all: apply round_Qeq; rewrite Hc'; unfold decayed, factor;
    generalize (power 0.85 (length missing)); intros q; ring.
Qed.

End WithLibraries.

End ComplianceFacts.

Module ComplianceClaim.
Import TextAnalyzer FormatClassifier NumFacts ComplianceFacts.



End ComplianceClaim.

(** ** Suggestions (suggestion_generator.py) *)

Module SuggestionFacts.
Import TextAnalyzer SuggestionGenerator NumFacts.

Lemma mem_elem (x : string) (l : list string) : mem x l = true <-> x ∈ l.
Proof.
  unfold mem. rewrite existsb_exists. split.
  - intros (y & Hy & E). apply String.eqb_eq in E as ->. now apply list_elem_of_In.
  - intros H. exists x. split; [now apply list_elem_of_In | apply String.eqb_refl].
Qed.

Lemma mem_not_elem (x : string) (l : list string) : mem x l = false <-> x ∉ l.
Proof.
  rewrite <- mem_elem. destruct (mem x l); split; intros H; congruence.
Qed.




End SuggestionFacts.

Module DeterministicClaim.
Import TextAnalyzer SuggestionGenerator NumFacts SuggestionFacts.



End DeterministicClaim.

Module FallbackClaim.
Import TextAnalyzer SuggestionGenerator.

Section WithLibraries.
Context {js : Json} {cl : Client}.

(** A request that raises falls back on the deterministic strategy for the
    submission. *)
Lemma request_failure_fallback
    (text : string) (analysis : Analysis) (writing_format prompt : string) :
  _create_prompt text analysis writing_format = Some prompt ->
  gemini_generate_content prompt = None ->
  generate_suggestions gemini text analysis writing_format
  = _generate_mock_suggestions text analysis writing_format.
Proof.
  intros Hp Hr. unfold generate_suggestions, _generate_gemini_suggestions.
  rewrite Hp, Hr. reflexivity.
Qed.

(** A reply that does not decode falls back on the deterministic strategy
    for the empty text, the empty analysis and the format "general". *)
Lemma parse_failure_fallback
    (text : string) (analysis : Analysis) (writing_format prompt response : string) :
  _create_prompt text analysis writing_format = Some prompt ->
  gemini_generate_content prompt = Some response ->
  json_loads (json_str_of response) = None ->
  generate_suggestions gemini text analysis writing_format
  = _generate_mock_suggestions "" empty_analysis "general".
Proof.
  intros Hp Hr Hj. unfold generate_suggestions, _generate_gemini_suggestions.
  rewrite Hp, Hr. unfold _parse_ai_response. rewrite Hj. reflexivity.
Qed.

End WithLibraries.

(** C3, the code at the failing input: the service answers a sentence that
    holds no JSON; [generate_suggestions] returns the deterministic
    suggestions for the empty text and analysis and the format "general" (no
    improvement, no rewrite, the general tips), which are not those of the
    submitted text, its analysis and the requested format "email". *)
Lemma parse_failure_drops_submission :
  json_str_of Samples.apology = Samples.apology
  /\ @generate_suggestions Samples.refusing_json Samples.apologising_client
       gemini Samples.long_text Samples.long_text_analysis "email"
     = _generate_mock_suggestions "" empty_analysis "general"
  /\ specific_improvements (_generate_mock_suggestions "" empty_analysis "general") = []
  /\ rewrite_suggestions (_generate_mock_suggestions "" empty_analysis "general") = []
  /\ @generate_suggestions Samples.refusing_json Samples.apologising_client
       gemini Samples.long_text Samples.long_text_analysis "email"
     <> _generate_mock_suggestions Samples.long_text Samples.long_text_analysis "email".
Proof.
  split; [reflexivity|].
  assert (H : @generate_suggestions Samples.refusing_json Samples.apologising_client
                gemini Samples.long_text Samples.long_text_analysis "email"
              = _generate_mock_suggestions "" empty_analysis "general").
  { eapply (@parse_failure_fallback Samples.refusing_json Samples.apologising_client);
      reflexivity. }
  split; [exact H|]. split; [reflexivity|]. split; [reflexivity|].
  rewrite H. intros E. apply (f_equal specific_improvements) in E.
  vm_compute in E. discriminate E.
Qed.

End FallbackClaim.

(* ================================================================== *)
(** * Further properties of the code *)
(* ================================================================== *)

(** ** The stored record (progress_tracker.py) *)

Module TrackerFacts.
Import ProgressTracker.

Section WithClock.
Context {clk : Clock}.
Variable storage_path : string.



End WithClock.

Lemma intervals_length (timestamps : list datetime) :
  length (intervals timestamps) = (length timestamps - 1)%nat.
Proof.
  induction timestamps as [|t [|t' rest] IH]; [reflexivity | reflexivity |].
  change (intervals (t :: t' :: rest)) with (days_between t t' :: intervals (t' :: rest)).
  cbn [length] in *. rewrite IH. lia.
Qed.

(** A mean of integers against an integer bound, without the division. *)
Lemma mean_le_iff (total : Z) (k : nat) (bound : Z) :
  (0 < k)%nat ->
  Qle_bool (inject_Z total / Num.of_nat k) (inject_Z bound) = true
  <-> (total <= bound * Z.of_nat k)%Z.
Proof.
  intros Hk. rewrite Qle_bool_iff. unfold Num.of_nat.
  assert (Hpos : 0 < inject_Z (Z.of_nat k)).
  { unfold Qlt. simpl. lia. }
  split.
  - intros H. destruct (Z_le_gt_dec total (bound * Z.of_nat k)) as [Hle|Hgt]; [exact Hle|].
    exfalso.
    assert (Hlt : inject_Z bound * inject_Z (Z.of_nat k) < inject_Z total).
    { rewrite <- inject_Z_mult. unfold Qlt. simpl. lia. }
    exact (Qlt_not_le _ _ (Qlt_shift_div_l _ _ _ Hpos Hlt) H).
  - intros H. apply Qle_shift_div_r; [exact Hpos|].
    rewrite <- inject_Z_mult. unfold Qle. simpl. lia.
Qed.

End TrackerFacts.

Module TrackerExtra.
Import ProgressTracker TrackerFacts.





(** X3: a submission whose analysis lacks one of the five keys that the
    metrics are read from is refused: [track_submission] raises after its
    first clock reading and stores nothing. *)
Theorem track_submission_missing_key {clk : Clock}
    (storage_path user : string) (a : TextAnalyzer.Analysis)
    (s : SuggestionGenerator.Suggestions) (w : World) :
  TextAnalyzer.readability a = None \/ TextAnalyzer.style_issues a = None
  \/ TextAnalyzer.grammar_issues a = None \/ TextAnalyzer.basic_stats a = None
  \/ TextAnalyzer.sentence_analysis a = None ->
  _extract_metrics a = None
  /\ track_submission storage_path user a s w
     = (None, {| files := files w; ticks := S (ticks w) |}).
Proof.
  intros H.
  assert (Hm : _extract_metrics a = None).
  { unfold _extract_metrics.
    destruct (TextAnalyzer.readability a), (TextAnalyzer.style_issues a),
      (TextAnalyzer.grammar_issues a), (TextAnalyzer.basic_stats a),
      (TextAnalyzer.sentence_analysis a); try reflexivity.
    destruct H as [H|[H|[H|[H|H]]]]; discriminate H. }
  split; [exact Hm|].
  unfold track_submission, bind, datetime_now, lift_option. rewrite Hm. reflexivity.
Qed.

(** The theorem on the empty analysis. *)
Lemma track_submission_missing_key_witness :
  @track_submission Samples.sample_clock "user_progress" "alice"
    TextAnalyzer.empty_analysis
    (SuggestionGenerator._generate_mock_suggestions "" TextAnalyzer.empty_analysis "general")
    Samples.empty_world
  = (None, {| files := ∅; ticks := 1 |}).
Proof.
  apply (@track_submission_missing_key Samples.sample_clock "user_progress" "alice"
           TextAnalyzer.empty_analysis).
  left. reflexivity.
Defined.


End TrackerExtra.

(** ** Derived metrics (progress_tracker.py) *)

Module MetricsExtra.
Import ProgressTracker NumFacts TrackerFacts AchievementFacts.

(** X5: the consistency score is 0.0 for fewer than two submissions;
    otherwise it is banded by the mean of the whole-day gaps between
    consecutive submissions: 1.0 when the mean is at most 1 day, 0.8 when at
    most 3, 0.6 when at most 7, and 0.4 beyond. *)
Theorem consistency_score_bands (submissions : list Submission) :
  let n := Z.of_nat (length submissions) in
  let gaps := intervals (map timestamp submissions) in
  let total := sum_Z gaps in
  ((n < 2)%Z -> _calculate_consistency_score submissions = 0.0)
  /\ ((2 <= n)%Z ->
      Z.of_nat (length gaps) = (n - 1)%Z
      /\ ((total <= n - 1)%Z -> _calculate_consistency_score submissions = 1.0)
      /\ ((n - 1 < total <= 3 * (n - 1))%Z ->
          _calculate_consistency_score submissions = 0.8)
      /\ ((3 * (n - 1) < total <= 7 * (n - 1))%Z ->
          _calculate_consistency_score submissions = 0.6)
      /\ ((7 * (n - 1) < total)%Z -> _calculate_consistency_score submissions = 0.4)).
Proof.
  cbv zeta. unfold _calculate_consistency_score. split.
  - intros H. destruct (length submissions <? 2)%nat eqn:E; [reflexivity|].
    apply Nat.ltb_ge in E. lia.
  - intros H. destruct (length submissions <? 2)%nat eqn:E; [apply Nat.ltb_lt in E; lia|].
    pose proof (intervals_length (map timestamp submissions)) as Hlen.
    rewrite length_map in Hlen.
    assert (Hpos : (0 < length (intervals (map timestamp submissions)))%nat) by lia.
    split; [lia|].
    destruct (intervals (map timestamp submissions)) as [|g gaps] eqn:Eg;
      [cbn [length] in Hpos; lia|].
    rewrite <- Eg in *. clear Eg g gaps.
    set (gaps := intervals (map timestamp submissions)) in *.
    pose proof (mean_le_iff (sum_Z gaps) (length gaps) 1 Hpos) as H1.
    pose proof (mean_le_iff (sum_Z gaps) (length gaps) 3 Hpos) as H3.
    pose proof (mean_le_iff (sum_Z gaps) (length gaps) 7 Hpos) as H7.
    change (inject_Z 1) with 1 in H1. change (inject_Z 3) with 3 in H3.
    change (inject_Z 7) with 7 in H7.
    destruct (Qle_bool (inject_Z (sum_Z gaps) / Num.of_nat (length gaps)) 1) eqn:E1;
    destruct (Qle_bool (inject_Z (sum_Z gaps) / Num.of_nat (length gaps)) 3) eqn:E3;
    destruct (Qle_bool (inject_Z (sum_Z gaps) / Num.of_nat (length gaps)) 7) eqn:E7.
    all: repeat split; intros Hb; try reflexivity; exfalso.
    all: repeat match goal with
                | Hx : true = true <-> _ |- _ => pose proof (proj1 Hx eq_refl); clear Hx
                | Hx : false = true <-> _ |- _ =>
                    assert (~ _) by (intros Hy; apply (proj2 Hx) in Hy; discriminate Hy);
                    clear Hx
                end.
    all: lia.
Qed.

(** The theorem on three submissions one day apart. *)
Lemma consistency_score_bands_witness :
  _calculate_consistency_score (Samples.history_from 0 [40; 50; 60]) = 1.0
  /\ _calculate_consistency_score (Samples.history_from 0 [40]) = 0.0.
Proof.
  pose proof (consistency_score_bands (Samples.history_from 0 [40; 50; 60])) as (_ & H3).
  pose proof (consistency_score_bands (Samples.history_from 0 [40])) as (H1 & _).
  cbv zeta in *. split.
  - apply H3; vm_compute; discriminate.
  - apply H1. vm_compute. reflexivity.
Defined.

Lemma remove_dups_length_le {A} `{EqDecision A} (l : list A) :
  (length (remove_dups l) <= length l)%nat.
Proof.
  induction l as [|x l IH]; simpl; [lia|].
  destruct (decide_rel elem_of x l); simpl; lia.
Qed.

(** X6: the days active are the number of distinct calendar dates among the
    submission timestamps: 0 for no submission, and otherwise at least 1 and
    at most the number of submissions. *)
Theorem days_active_bounds (submissions : list Submission) :
  (submissions = [] -> _calculate_days_active submissions = 0%nat)
  /\ (submissions <> [] ->
      (1 <= _calculate_days_active submissions <= length submissions)%nat)
  /\ exists dates : list Z,
       NoDup dates
       /\ (forall day, day ∈ dates <->
                       exists s, s ∈ submissions /\ date (timestamp s) = day)
       /\ _calculate_days_active submissions = length dates.
Proof.
  unfold _calculate_days_active. split; [intros ->; reflexivity|]. split.
  - intros Hne. destruct submissions as [|s0 rest]; [congruence|].
    split.
    + assert (Hin : date (timestamp s0)
                    ∈ remove_dups (map (fun s => date (timestamp s)) (s0 :: rest))).
      { apply elem_of_remove_dups. apply list_elem_of_here. }
      destruct (remove_dups (map (fun s => date (timestamp s)) (s0 :: rest)));
        [inversion Hin | simpl; lia].
    + etransitivity; [apply remove_dups_length_le|]. rewrite length_map. reflexivity.
  - exists (remove_dups (map (fun s => date (timestamp s)) submissions)).
    split; [apply NoDup_remove_dups|]. split.
    + intros day. rewrite elem_of_remove_dups.
      change (map (fun s => date (timestamp s)) submissions)
        with ((fun s => date (timestamp s)) <$> submissions).
      rewrite list_elem_of_fmap. split.
      * intros (s & -> & Hs). exists s. split; [exact Hs | reflexivity].
      * intros (s & Hs & <-). exists s. split; [reflexivity | exact Hs].
    + destruct submissions; reflexivity.
Qed.

(** The theorem on three submissions on three consecutive days. *)
Lemma days_active_bounds_witness :
  let history := Samples.history_from 0 [40; 50; 60] in
  (1 <= _calculate_days_active history)%nat
  /\ (_calculate_days_active history <= length history)%nat.
Proof.
  pose proof (days_active_bounds (Samples.history_from 0 [40; 50; 60])) as (_ & H & _).
  apply H. discriminate.
Defined.

(** Membership in a list made of four optional entries. *)
Lemma elem_of_optional_entries {A} (b1 b2 b3 b4 : bool) (a1 a2 a3 a4 x : A) :
  x ∈ (if b1 then [a1] else []) ++ (if b2 then [a2] else [])
      ++ (if b3 then [a3] else []) ++ (if b4 then [a4] else [])
  <-> (b1 = true /\ x = a1) \/ (b2 = true /\ x = a2)
      \/ (b3 = true /\ x = a3) \/ (b4 = true /\ x = a4).
Proof.
  rewrite !elem_of_app.
  destruct b1, b2, b3, b4; rewrite ?list_elem_of_singleton, ?elem_of_nil;
    intuition congruence.
Qed.

(** X7: the improvement areas are read off the latest submission alone, and
    are none for an empty history: a high-priority "readability" area
    exactly when its readability score is below 60, a high-priority
    "grammar" area exactly when it has more than 3 grammar issues, a
    medium-priority "sentence_variety" area exactly when its sentence
    variety is below 0.3, and a medium-priority "writing_style" area exactly
    when it has more than 5 style issues; so at most four areas. *)
Theorem improvement_areas_of_latest (earlier : list Submission) (latest : Submission) :
  let areas := _identify_improvement_areas (earlier ++ [latest]) in
  let named n := exists x, x ∈ areas /\ area x = n in
  _identify_improvement_areas [] = []
  /\ areas = _identify_improvement_areas [latest]
  /\ (length areas <= 4)%nat
  /\ (named "readability" <-> readability_score (metrics latest) < 60)
  /\ (named "grammar" <-> (3 < grammar_issues_count (metrics latest))%nat)
  /\ (named "sentence_variety" <-> sentence_variety (metrics latest) < 0.3)
  /\ (named "writing_style" <-> (5 < style_issues_count (metrics latest))%nat)
  /\ (forall x, x ∈ areas ->
        (area x = "readability" \/ area x = "grammar") /\ area_priority x = "high"
        \/ (area x = "sentence_variety" \/ area x = "writing_style")
           /\ area_priority x = "medium").
Proof.
  cbv zeta. unfold _identify_improvement_areas. rewrite last_snoc. cbn [last].
  split; [reflexivity|]. split; [reflexivity|].
  set (b1 := Num.Qltb (readability_score (metrics latest)) 60).
  set (b2 := (3 <? grammar_issues_count (metrics latest))%nat).
  set (b3 := Num.Qltb (sentence_variety (metrics latest)) 0.3).
  set (b4 := (5 <? style_issues_count (metrics latest))%nat).
  assert (H1 : b1 = true <-> readability_score (metrics latest) < 60) by apply Qltb_true.
  assert (H2 : b2 = true <-> (3 < grammar_issues_count (metrics latest))%nat)
    by apply Nat.ltb_lt.
  assert (H3 : b3 = true <-> sentence_variety (metrics latest) < 0.3) by apply Qltb_true.
  assert (H4 : b4 = true <-> (5 < style_issues_count (metrics latest))%nat)
    by apply Nat.ltb_lt.
  rewrite <- H1, <- H2, <- H3, <- H4. clear H1 H2 H3 H4.
  split.
  { rewrite !length_app. destruct b1, b2, b3, b4; simpl; lia. }
  repeat split.
  all: try (intros (x & Hx & Hn); apply elem_of_optional_entries in Hx;
            destruct Hx as [[Hb ->]|[[Hb ->]|[[Hb ->]|[Hb ->]]]];
            first [exact Hb | discriminate Hn]).
  all: try (intros Hb; eexists; split;
            [apply elem_of_optional_entries;
             first [left; split; [exact Hb | reflexivity]
                   | right; left; split; [exact Hb | reflexivity]
                   | right; right; left; split; [exact Hb | reflexivity]
                   | right; right; right; split; [exact Hb | reflexivity]]
            | reflexivity]).
  intros x Hx. apply elem_of_optional_entries in Hx.
  destruct Hx as [[_ ->]|[[_ ->]|[[_ ->]|[_ ->]]]]; cbn; tauto.
Qed.

(** X8: the two count achievements are kept as the history grows: an
    achievement "Getting Started" or "Consistent Writer" that a history has
    earned is earned, with the same [earned_at], by every history that
    extends it; and a history never has more than three achievements. *)
Theorem count_achievements_are_kept
    (submissions more : list Submission) (a : Achievement) :
  a ∈ _calculate_achievements submissions ->
  name a = "Getting Started" \/ name a = "Consistent Writer" ->
  a ∈ _calculate_achievements (submissions ++ more)
  /\ (length (_calculate_achievements (submissions ++ more)) <= 3)%nat.
Proof.
  intros Ha Hn. split.
  - rewrite achievements_blocks in *. rewrite !elem_of_app in *.
    destruct Ha as [Ha|[Ha|Ha]].
    + left. apply getting_started_elem in Ha as (Hlen & s & Hs & ->).
      apply getting_started_elem. split; [rewrite length_app; lia|].
      exists s. split; [|reflexivity]. apply lookup_app_l_Some. exact Hs.
    + right; left. apply consistent_writer_elem in Ha as (Hlen & s & Hs & ->).
      apply consistent_writer_elem. split; [rewrite length_app; lia|].
      exists s. split; [|reflexivity]. apply lookup_app_l_Some. exact Hs.
    + apply rising_star_elem in Ha as (_ & s & _ & ->).
      destruct Hn as [Hn|Hn]; discriminate Hn.
  - rewrite achievements_blocks, !length_app.
    unfold getting_started, consistent_writer, rising_star.
    repeat match goal with
           | |- context [if ?b then _ else _] => destruct b
           | |- context [match ?o with Some _ => _ | None => _ end] => destruct o
           end; simpl; lia.
Qed.

(** The theorem on a history of five extended by a sixth submission. *)
Lemma count_achievements_are_kept_witness :
  exists a,
    a ∈ _calculate_achievements (Samples.history_from 0 [40; 50; 45; 55; 60])
    /\ name a = "Getting Started"
    /\ a ∈ _calculate_achievements
           (Samples.history_from 0 [40; 50; 45; 55; 60] ++ Samples.history_from 5 [30]).
Proof.
  eexists. split; [apply list_elem_of_here|]. split; [reflexivity|].
  apply (count_achievements_are_kept (Samples.history_from 0 [40; 50; 45; 55; 60])
           (Samples.history_from 5 [30])).
  - apply list_elem_of_here.
  - left. reflexivity.
Defined.

End MetricsExtra.

(** ** Classification and rules (format_classifier.py) *)

Module ClassifierExtraFacts.
Import FormatClassifier NumFacts ClassifierFacts.

Lemma list_sum_bounds (l : list nat) (x : nat) :
  (forall y, y ∈ l -> (y <= x)%nat) -> (list_sum l <= length l * x)%nat.
Proof.
  induction l as [|y l IH]; simpl; intros H; [lia|].
  pose proof (H y (list_elem_of_here _ _)).
  assert (list_sum l <= length l * x)%nat
    by (apply IH; intros z Hz; apply H; now apply list_elem_of_further).
  lia.
Qed.

Lemma list_sum_elem (l : list nat) (x : nat) : x ∈ l -> (x <= list_sum l)%nat.
Proof.
  induction l as [|y l IH]; intros H; [inversion H|].
  apply elem_of_cons in H as [->|H]; simpl; [lia|]. specialize (IH H). lia.
Qed.

(** A ratio of counts against 0, 1/4 and 1. *)
Lemma ratio_bounds (b t : nat) :
  (0 < t)%nat -> (b <= t)%nat -> (t <= 4 * b)%nat ->
  0 <= Num.of_nat b / Num.of_nat t
  /\ Num.of_nat b / Num.of_nat t <= 1
  /\ 1 # 4 <= Num.of_nat b / Num.of_nat t.
Proof.
  intros Ht Hb H4. unfold Num.of_nat.
  assert (Hpos : 0 < inject_Z (Z.of_nat t)) by (unfold Qlt; simpl; lia).
  split; [|split].
  - apply Qle_shift_div_l; [exact Hpos|]. unfold Qle; simpl; lia.
  - apply Qle_shift_div_r; [exact Hpos|]. unfold Qle; simpl; lia.
  - apply Qle_shift_div_l; [exact Hpos|]. unfold Qle; simpl; lia.
Qed.

Lemma dict_has_keys {V} (key : string) (d : list (string * V)) :
  dict_has key d = true <-> key ∈ map fst d.
Proof.
  unfold dict_has. induction d as [|[k v] d IH]; simpl.
  - split; [discriminate | intros H; inversion H].
  - destruct (String.eqb_spec key k) as [->|Hne].
    + split; [intros _; apply list_elem_of_here | reflexivity].
    + rewrite IH. split.
      * intros H. now apply list_elem_of_further.
      * intros H. apply elem_of_cons in H as [H|H]; [congruence | exact H].
Qed.

Lemma unknown_format_is_scored {rx : Regex} (text format_type : string) :
  format_type ∉ map fst format_rules ->
  classify text (Some format_type) = classify text None.
Proof.
  intros H. unfold classify.
  assert (Hk : dict_has format_type format_rules = false).
  { destruct (dict_has format_type format_rules) eqn:E; [|reflexivity].
    apply dict_has_keys in E. contradiction. }
  rewrite Hk, andb_false_r. reflexivity.
Qed.

Lemma filter_sublist {A} (p : A -> bool) (l : list A) : sublist (List.filter p l) l.
Proof.
  induction l as [|x l IH]; simpl; [constructor|].
  destruct (p x); [now apply sublist_skip | now apply sublist_cons].
Qed.

(** How many required elements can be missing, by format. *)
Lemma missing_count_by_format {rx : Regex} (text format_type : string) :
  exists bound,
    length (List.filter (is_missing text) (required_elements (rules_of format_type))) = bound
    /\ (format_type = "email" -> (bound <= 2)%nat)
    /\ (format_type = "essay" -> (bound <= 3)%nat)
    /\ (format_type = "report" -> (bound <= 1)%nat)
    /\ (format_type ∉ ["email"; "essay"; "report"] -> bound = 0%nat).
Proof.
  eexists. split; [reflexivity|].
  unfold rules_of, format_rules. cbn [dict_get].
  destruct (String.eqb_spec format_type "email") as [->|N1];
    [|destruct (String.eqb_spec format_type "essay") as [->|N2];
      [|destruct (String.eqb_spec format_type "report") as [->|N3];
        [|destruct (String.eqb format_type "creative");
          [|destruct (String.eqb format_type "general")]]]].
  all: cbn [default required_elements general_rules].
  all: (split; [|split; [|split]]).
  all: try (intros E; discriminate E).
  all: try (intros Hn; exfalso; apply Hn;
            repeat first [apply list_elem_of_here | apply list_elem_of_further]; fail).
  all: try (intros E; exfalso; congruence).
  all: try (intros _; reflexivity).
  all: intros _; unfold is_missing; simpl;
    repeat match goal with
           | |- context [negb ?b] => destruct b; simpl
           end; lia.
Qed.

End ClassifierExtraFacts.

Module ClassifierExtra.
Import TextAnalyzer FormatClassifier NumFacts ClassifierFacts ClassifierExtraFacts ComplianceFacts.

(** X9: a user-specified format that is not a key of the rule set (the
    empty string included) is ignored: the text is classified as if no
    format had been given. *)
Theorem classify_unknown_format_ignored {rx : Regex} (text format_type : string) :
  format_type ∉ map fst format_rules ->
  classify text (Some format_type) = classify text None.
Proof.
  intros Hout. unfold classify.
  destruct (dict_has format_type format_rules) eqn:Hkey.
  - exfalso. apply Hout. now apply dict_has_keys.
  - now rewrite andb_false_r.
Qed.

(** The theorem on the format "poem". *)
Lemma classify_unknown_format_ignored_witness :
  @classify Samples.no_match Samples.two_sentences (Some "poem")
  = @classify Samples.no_match Samples.two_sentences None.
Proof.
  apply (@classify_unknown_format_ignored Samples.no_match Samples.two_sentences "poem").
  intros H. cbn [map fst format_rules] in H.
  repeat (apply elem_of_cons in H as [H|H]; [discriminate H|]). inversion H.
Defined.

(** X10: whatever the text and the user-specified format, [classify]
    returns one of the five formats of the rule set and a confidence between
    0 and 1; when the format is scored (none specified), the confidence is 0
    or at least 1/4, and the result is "general" exactly when the confidence
    is below 0.3. *)
Theorem classify_result_range {rx : Regex}
    (text : string) (user_specified_format : option string) :
  fst (classify text user_specified_format) ∈ map fst format_rules
  /\ 0 <= snd (classify text user_specified_format)
  /\ snd (classify text user_specified_format) <= 1
  /\ (snd (classify text None) == 0 \/ 1 # 4 <= snd (classify text None))
  /\ (fst (classify text None) = "general" <-> snd (classify text None) < 0.3).
Proof.
  assert (Hscored :
    fst (classify text None) ∈ map fst format_rules
    /\ 0 <= snd (classify text None)
    /\ snd (classify text None) <= 1
    /\ (snd (classify text None) == 0 \/ 1 # 4 <= snd (classify text None))
    /\ (fst (classify text None) = "general" <-> snd (classify text None) < 0.3)).
  { unfold classify. rewrite scores_are_totals.
    set (scores := map (fun entry => (fst entry, total_score text entry)) format_indicators).
    destruct (py_max snd scores) as [best|] eqn:Hmax; [|discriminate Hmax].
    destruct (py_max_first_maximum _ _ _ Hmax) as (before & after & Hsplit & Hbefore & Hafter).
    assert (Hin : best ∈ scores).
    { rewrite Hsplit. apply elem_of_app. right. apply list_elem_of_here. }
    assert (Hall : forall y, y ∈ map snd scores -> (y <= snd best)%nat).
    { intros y Hy. change (map snd scores) with (snd <$> scores) in Hy.
      apply list_elem_of_fmap in Hy as (x & -> & Hx).
      rewrite Hsplit in Hx. apply elem_of_app in Hx as [Hx|Hx].
      - specialize (Hbefore x Hx). lia.
      - apply elem_of_cons in Hx as [->|Hx]; [lia | exact (Hafter x Hx)]. }
    assert (Hle : (snd best <= list_sum (map snd scores))%nat).
    { apply list_sum_elem. change (map snd scores) with (snd <$> scores).
      apply list_elem_of_fmap. exists best. split; [reflexivity | exact Hin]. }
    assert (H4 : (list_sum (map snd scores) <= 4 * snd best)%nat).
    { apply (list_sum_bounds _ _ Hall). }
    assert (Hname : fst best ∈ ["email"; "essay"; "report"; "creative"]).
    { change ["email"; "essay"; "report"; "creative"] with (fst <$> scores).
      apply list_elem_of_fmap. exists best. split; [reflexivity | exact Hin]. }
    assert (Hnotgen : fst best <> "general").
    { intros E. rewrite E in Hname.
      repeat (apply elem_of_cons in Hname as [Hname|Hname]; [discriminate Hname|]).
      inversion Hname. }
    destruct (0 <? list_sum (map snd scores))%nat eqn:Epos.
    - apply Nat.ltb_lt in Epos.
      destruct (ratio_bounds _ _ Epos Hle H4) as (R0 & R1 & R4).
      set (c := Num.of_nat (snd best) / Num.of_nat (list_sum (map snd scores))) in *.
      destruct (Num.Qltb c 0.3) eqn:Elow; cbn [fst snd].
      + apply Qltb_true in Elow.
        split; [cbn; repeat first [apply list_elem_of_here | apply list_elem_of_further]|].
        split; [exact R0|]. split; [exact R1|]. split; [right; exact R4|].
        split; [intros _; exact Elow | reflexivity].
      + apply Qltb_false in Elow.
        split.
        { cbn [map fst format_rules].
          repeat (apply elem_of_cons in Hname as [->|Hname];
                  [repeat first [apply list_elem_of_here | apply list_elem_of_further]|]).
          inversion Hname. }
        split; [exact R0|]. split; [exact R1|]. split; [right; exact R4|].
        split; [intros E; contradiction | intros Hlt; exfalso; exact (Qlt_not_le _ _ Hlt Elow)].
    - cbn [fst snd].
      change (Num.Qltb 0 0.3) with true. cbn [fst snd].
      split; [cbn; repeat first [apply list_elem_of_here | apply list_elem_of_further]|].
      split; [apply Qle_refl|]. split; [unfold Qle; simpl; lia|].
      split; [left; reflexivity|].
      split; [intros _; reflexivity | reflexivity]. }
  destruct Hscored as (Hf & H0 & H1 & H4 & Hg).
  split; [|split; [|split; [|split; [exact H4 | exact Hg]]]].
  - destruct user_specified_format as [f|]; [|exact Hf].
    destruct (decide (f ∈ map fst format_rules)) as [Hin|Hout].
    + cbn [map fst format_rules] in Hin.
      repeat (apply elem_of_cons in Hin as [->|Hin];
              [cbn; repeat first [apply list_elem_of_here | apply list_elem_of_further]|]).
      inversion Hin.
    + rewrite (unknown_format_is_scored text f Hout). exact Hf.
  - destruct user_specified_format as [f|]; [|exact H0].
    destruct (decide (f ∈ map fst format_rules)) as [Hin|Hout].
    + cbn [map fst format_rules] in Hin.
      repeat (apply elem_of_cons in Hin as [->|Hin]; [cbn; unfold Qle; simpl; lia|]).
      inversion Hin.
    + rewrite (unknown_format_is_scored text f Hout). exact H0.
  - destruct user_specified_format as [f|]; [|exact H1].
    destruct (decide (f ∈ map fst format_rules)) as [Hin|Hout].
    + cbn [map fst format_rules] in Hin.
      repeat (apply elem_of_cons in Hin as [->|Hin]; [cbn; unfold Qle; simpl; lia|]).
      inversion Hin.
    + rewrite (unknown_format_is_scored text f Hout). exact H1.
Qed.

(** X11: the elements that [_check_required_elements] reports for a format
    are required elements of its rules, in their order; they are always
    among greeting, closing, introduction, thesis, conclusion and
    executive_summary (the other required elements have no detector), and
    for every format other than email, essay and report nothing is ever
    reported missing. *)
Theorem missing_elements_by_format {rx : Regex} (text format_type : string) :
  let required := required_elements (rules_of format_type) in
  let missing := _check_required_elements text required format_type in
  sublist missing required
  /\ (forall element,
        element ∈ missing ->
        element ∈ ["greeting"; "closing"; "introduction"; "thesis"; "conclusion";
                   "executive_summary"])
  /\ (format_type ∉ ["email"; "essay"; "report"] -> missing = []).
Proof.
  cbv zeta. rewrite missing_is_filter.
  split; [apply filter_sublist|].
  unfold rules_of, format_rules. cbn [dict_get].
  destruct (String.eqb_spec format_type "email") as [->|N1];
    [|destruct (String.eqb_spec format_type "essay") as [->|N2];
      [|destruct (String.eqb_spec format_type "report") as [->|N3];
        [|destruct (String.eqb format_type "creative");
          [|destruct (String.eqb format_type "general")]]]].
  all: cbn [default required_elements general_rules].
  all: split;
    [ intros element Hin;
      apply list_elem_of_In, filter_In in Hin as [Hin Hm];
      apply list_elem_of_In in Hin;
      repeat (apply elem_of_cons in Hin as [->|Hin];
              [first [ discriminate Hm
                     | repeat first [apply list_elem_of_here | apply list_elem_of_further] ]|]);
      inversion Hin
    | ].
  all: try reflexivity.
  all: intros Hn; exfalso; apply Hn;
    repeat first [apply list_elem_of_here | apply list_elem_of_further].
Qed.

(** X12: when the analysis has its basic statistics, [apply_format_rules]
    returns a compliance score of at least 0.44 with at most five
    recommendations; for a format other than email, essay and report the
    score is at least 0.72 and there are at most two recommendations. *)
Theorem compliance_floor {rx : Regex}
    (text format_type : string) (analysis : Analysis) (stats : BasicStats) :
  basic_stats analysis = Some stats ->
  exists r,
    apply_format_rules text format_type analysis = Some r
    /\ 0.44 <= compliance_score r
    /\ (length (recommendations r) <= 5)%nat
    /\ (format_type ∉ ["email"; "essay"; "report"] ->
        0.72 <= compliance_score r /\ (length (recommendations r) <= 2)%nat).
Proof.
  intros Hstats.
  destruct (compliance_equation text format_type analysis stats Hstats)
    as (r & Hr & _ & _ & Hlen & Hscore).
  exists r. split; [exact Hr|]. rewrite Hscore, Hlen. clear Hr Hlen Hscore r.
  pose proof (missing_count_by_format text format_type) as Hmiss.
  revert Hmiss.
  generalize (List.filter (is_missing text) (required_elements (rules_of format_type))).
  intros missing Hmiss.
  assert (Hrules :
    (format_type = "email" /\ (length missing <= 2)%nat
       /\ too_short (rules_of format_type) (TextAnalyzer.word_count stats) = false)
    \/ (format_type = "essay" /\ (length missing <= 3)%nat
        /\ too_long (rules_of format_type) (TextAnalyzer.word_count stats) = false)
    \/ (format_type = "report" /\ (length missing <= 1)%nat
        /\ too_long (rules_of format_type) (TextAnalyzer.word_count stats) = false)
    \/ ((format_type ∉ ["email"; "essay"; "report"]) /\ length missing = 0%nat
        /\ too_long (rules_of format_type) (TextAnalyzer.word_count stats) = false)).
  { destruct Hmiss as (bound & Hb & Hcases).
    destruct (String.eqb_spec format_type "email") as [->|N1];
      [left|right;
       destruct (String.eqb_spec format_type "essay") as [->|N2];
       [left|right;
        destruct (String.eqb_spec format_type "report") as [->|N3];
        [left|right]]].
    - split; [reflexivity|]. split; [|reflexivity].
      rewrite Hb. apply (proj1 Hcases). reflexivity.
    - split; [reflexivity|]. split; [|reflexivity].
      rewrite Hb. apply (proj1 (proj2 Hcases)). reflexivity.
    - split; [reflexivity|]. split; [|reflexivity].
      rewrite Hb. apply (proj1 (proj2 (proj2 Hcases))). reflexivity.
    - assert (Hn : format_type ∉ ["email"; "essay"; "report"]).
      { intros Hin.
        repeat (apply elem_of_cons in Hin as [Hin|Hin]; [congruence|]). inversion Hin. }
      split; [exact Hn|]. split.
      + pose proof (proj2 (proj2 (proj2 Hcases)) Hn). lia.
      + unfold too_long, rules_of, format_rules. cbn [dict_get].
        destruct (String.eqb_spec format_type "email") as [E|_]; [congruence|].
        destruct (String.eqb_spec format_type "essay") as [E|_]; [congruence|].
        destruct (String.eqb_spec format_type "report") as [E|_]; [congruence|].
        destruct (String.eqb format_type "creative"); [reflexivity|].
        destruct (String.eqb format_type "general"); reflexivity. }
  clear Hmiss.
  set (s := too_short (rules_of format_type) (TextAnalyzer.word_count stats)) in *.
  set (l := too_long (rules_of format_type) (TextAnalyzer.word_count stats)) in *.
  set (p := long_paragraphs (rules_of format_type) text) in *.
  assert (Hc : forall b, (count_true b <= 1)%nat) by (intros []; simpl; lia).
  pose proof (Hc s). pose proof (Hc l). pose proof (Hc p).
  assert (Hfloor : forall s' l' k' q,
            (s = true -> s' = true) -> (l = true -> l' = true) ->
            (length missing <= k')%nat ->
            q <= Num.round (decayed s' l' true k') 2 ->
            q <= Num.round (decayed s l p (length missing)) 2).
  { intros s' l' k' q Hs Hl Hk Hq. eapply Qle_trans; [exact Hq|].
    apply round_mono. apply decayed_mono; auto. }
  destruct Hrules as [(-> & Hk & Hs)|[(-> & Hk & Hl)|[(-> & Hk & Hl)|(Hn & Hk & Hl)]]].
  - split; [|split].
    + apply (Hfloor false true 2%nat);
        [intros E; congruence | intros E; congruence | lia | vm_compute; discriminate].
    + rewrite Hs. simpl. lia.
    + intros Hout. exfalso. apply Hout. apply list_elem_of_here.
  - split; [|split].
    + apply (Hfloor true false 3%nat);
        [intros E; congruence | intros E; congruence | lia | vm_compute; discriminate].
    + rewrite Hl. simpl. lia.
    + intros Hout. exfalso. apply Hout. apply list_elem_of_further, list_elem_of_here.
  - split; [|split].
    + apply (Hfloor true false 1%nat);
        [intros E; congruence | intros E; congruence | lia | vm_compute; discriminate].
    + rewrite Hl. simpl. lia.
    + intros Hout. exfalso. apply Hout.
      do 2 apply list_elem_of_further. apply list_elem_of_here.
  - split; [|split].
    + apply (Hfloor true false 0%nat);
        [intros E; congruence | intros E; congruence | lia | vm_compute; discriminate].
    + rewrite Hl, Hk. simpl. lia.
    + intros _. split.
      * apply (Hfloor true false 0%nat);
        [intros E; congruence | intros E; congruence | lia | vm_compute; discriminate].
      * rewrite Hl, Hk. simpl. lia.
Qed.

(** The theorem on a nine-word text taken as a report. *)
Lemma compliance_floor_witness :
  exists r,
    @apply_format_rules Samples.no_match Samples.two_sentences "report"
      (@analyze Samples.sample_tokenizer Samples.no_match Samples.two_sentences) = Some r
    /\ 0.44 <= compliance_score r
    /\ (length (recommendations r) <= 5)%nat.
Proof.
  destruct (@compliance_floor Samples.no_match Samples.two_sentences "report"
              (@analyze Samples.sample_tokenizer Samples.no_match Samples.two_sentences)
              (@_get_basic_stats Samples.sample_tokenizer Samples.two_sentences)
              eq_refl)
    as (r & Hr & Hscore & Hlen & _).
  exists r. split; [exact Hr|]. split; [exact Hscore | exact Hlen].
Defined.

End ClassifierExtra.

(** ** Splitting and joining words (Python built-ins) *)

Module PyFacts.
Import Py.

Lemma append_cons (x : ascii) (a b : string) : String x a +:+ b = String x (a +:+ b).
Proof. reflexivity. Qed.

Lemma append_assoc (a b c : string) : (a +:+ b) +:+ c = a +:+ (b +:+ c).
Proof.
  induction a as [|x a IH]; [reflexivity|]. rewrite !append_cons. now rewrite IH.
Qed.

Lemma append_nil_r (a : string) : a +:+ "" = a.
Proof. induction a as [|x a IH]; [reflexivity|]. rewrite append_cons. now rewrite IH. Qed.

Lemma rev_onto_rev_onto (w acc acc' : string) :
  rev_onto (rev_onto w acc) acc' = rev_onto acc (w +:+ acc').
Proof.
  revert acc acc'. induction w as [|a w IH]; intros acc acc'; [reflexivity|].
  cbn [rev_onto]. rewrite IH, append_cons. reflexivity.
Qed.

Lemma rev_rev_onto (w : string) : rev (rev_onto w "") = w.
Proof. unfold rev. rewrite rev_onto_rev_onto. cbn [rev_onto]. apply append_nil_r. Qed.

Lemma rev_onto_nonempty (w acc : string) : acc <> "" -> rev_onto w acc <> "".
Proof.
  revert acc. induction w as [|a w IH]; intros acc H; simpl; [exact H|].
  apply IH. discriminate.
Qed.

Lemma all_chars_rev_onto (p : ascii -> bool) (w acc : string) :
  all_chars p (rev_onto w acc) = all_chars p w && all_chars p acc.
Proof.
  revert acc. induction w as [|a w IH]; intros acc; simpl; [reflexivity|].
  rewrite IH. simpl. destruct (p a), (all_chars p w); reflexivity.
Qed.

Lemma all_chars_append (p : ascii -> bool) (a b : string) :
  all_chars p (a +:+ b) = all_chars p a && all_chars p b.
Proof.
  induction a as [|x a IH]; [reflexivity|].
  rewrite append_cons. cbn [all_chars]. rewrite IH. now rewrite andb_assoc.
Qed.

Lemma split_ws_aux_word (w s cur : string) :
  all_chars nonspace w = true ->
  split_ws_aux (w +:+ s) cur = split_ws_aux s (rev_onto w cur).
Proof.
  revert cur. induction w as [|a w IH]; intros cur H; [reflexivity|].
  cbn [all_chars] in H. apply andb_true_iff in H as [Ha Hw]. unfold nonspace in Ha.
  apply negb_true_iff in Ha. rewrite append_cons. cbn [split_ws_aux rev_onto].
  rewrite Ha. now apply IH.
Qed.

Lemma split_ws_word_space (w s : string) :
  is_word w -> split_ws (w +:+ " " +:+ s) = w :: split_ws s.
Proof.
  intros [Hne Hw]. unfold split_ws. rewrite split_ws_aux_word by exact Hw.
  change (" " +:+ s) with (String " " s). cbn [split_ws_aux].
  change (is_space " ") with true. cbn iota.
  destruct (rev_onto w "") as [|c r] eqn:E.
  - destruct w; [congruence|]. simpl in E.
    exfalso. eapply rev_onto_nonempty; [|exact E]. discriminate.
  - rewrite <- E, rev_rev_onto. reflexivity.
Qed.

Lemma split_ws_word (w : string) : is_word w -> split_ws w = [w].
Proof.
  intros [Hne Hw]. unfold split_ws. rewrite <- (append_nil_r w) at 1.
  rewrite split_ws_aux_word by exact Hw. cbn [split_ws_aux].
  destruct (rev_onto w "") as [|c r] eqn:E.
  - destruct w; [congruence|]. simpl in E.
    exfalso. eapply rev_onto_nonempty; [|exact E]. discriminate.
  - rewrite <- E, rev_rev_onto. reflexivity.
Qed.

Lemma split_ws_space (s : string) : split_ws (" " +:+ s) = split_ws s.
Proof. reflexivity. Qed.

Lemma split_ws_aux_words (s cur : string) :
  all_chars nonspace cur = true -> Forall is_word (split_ws_aux s cur).
Proof.
  revert cur. induction s as [|c s IH]; intros cur Hcur; cbn [split_ws_aux].
  - destruct cur as [|a cur]; [constructor|]. constructor; [|constructor].
    split.
    + unfold rev. cbn [rev_onto]. apply rev_onto_nonempty. discriminate.
    + unfold rev. rewrite all_chars_rev_onto, Hcur. reflexivity.
  - destruct (is_space c) eqn:Ec.
    + destruct cur as [|a cur]; [apply IH; reflexivity|].
      constructor; [|apply IH; reflexivity]. split.
      * unfold rev. cbn [rev_onto]. apply rev_onto_nonempty. discriminate.
      * unfold rev. rewrite all_chars_rev_onto, Hcur. reflexivity.
    + apply IH. cbn [all_chars]. unfold nonspace at 1. rewrite Ec, Hcur. reflexivity.
Qed.

Lemma split_ws_words (s : string) : Forall is_word (split_ws s).
Proof. apply split_ws_aux_words. reflexivity. Qed.

Lemma join_cons (sep x : string) (l : list string) :
  l <> [] -> join sep (x :: l) = x +:+ sep +:+ join sep l.
Proof. destruct l; [congruence | reflexivity]. Qed.

Lemma split_ws_join_then (l : list string) (s : string) :
  Forall is_word l -> split_ws (join " " l +:+ " " +:+ s) = l ++ split_ws s.
Proof.
  induction 1 as [|x l Hx Hl IH]; [reflexivity|].
  destruct l as [|y l].
  - cbn [join]. now apply split_ws_word_space.
  - rewrite join_cons by discriminate. rewrite !append_assoc.
    rewrite split_ws_word_space by exact Hx. rewrite IH. reflexivity.
Qed.

Lemma split_ws_join (l : list string) : Forall is_word l -> split_ws (join " " l) = l.
Proof.
  induction 1 as [|x l Hx Hl IH]; [reflexivity|].
  destruct l as [|y l].
  - cbn [join]. now apply split_ws_word.
  - rewrite join_cons by discriminate.
    rewrite split_ws_word_space by exact Hx. now rewrite IH.
Qed.

Lemma join_snoc_stop (init : list string) (w rest : string) :
  join " " (init ++ [w]) +:+ ". " +:+ rest
  = join " " (init ++ [w +:+ "."]) +:+ " " +:+ rest.
Proof.
  induction init as [|x init IH].
  - cbn [app join]. rewrite append_assoc. reflexivity.
  - cbn [app]. rewrite !join_cons by (destruct init; discriminate).
    rewrite !append_assoc. rewrite IH. reflexivity.
Qed.

Lemma is_word_stop (w : string) : is_word w -> is_word (w +:+ ".").
Proof.
  intros [Hne Hw]. split.
  - destruct w; [congruence | discriminate].
  - rewrite all_chars_append, Hw. reflexivity.
Qed.

End PyFacts.

(** ** Suggestions from a reply (suggestion_generator.py) *)

Module SuggestionExtraFacts.
Import TextAnalyzer SuggestionGenerator.

Lemma numbered_length (kind label : string) (idx : nat) (l : list string) :
  length (numbered kind label idx l) = length l.
Proof.
  revert idx. induction l as [|x l IH]; intros idx; simpl; [reflexivity|].
  now rewrite IH.
Qed.

Lemma numbered_lookup (kind label : string) (idx : nat) (l : list string) (i : nat) :
  numbered kind label idx l !! i
  = (fun suggestion =>
       {| imp_type := kind;
          imp_problem := label +:+ Py.str_of_nat (idx + i + 1);
          imp_suggestion := suggestion;
          imp_priority := "medium" |}) <$> l !! i.
Proof.
  revert idx i. induction l as [|x l IH]; intros idx i; [reflexivity|].
  destruct i as [|i]; cbn [numbered].
  - cbn. now rewrite Nat.add_0_r.
  - cbn [lookup list_lookup]. rewrite IH.
    replace (S idx + i + 1)%nat with (idx + S i + 1)%nat by lia. reflexivity.
Qed.

Lemma numbered_elem (kind label : string) (idx : nat) (l : list string) (x : Improvement) :
  x ∈ numbered kind label idx l -> imp_type x = kind /\ imp_priority x = "medium".
Proof.
  revert idx. induction l as [|y l IH]; intros idx H; [inversion H|].
  cbn [numbered] in H. apply elem_of_cons in H as [->|H]; [split; reflexivity|].
  exact (IH _ H).
Qed.

Lemma corrections_length (l : list Correction) :
  length (flat_map
            (fun c =>
               match error c, correction c with
               | Some e, Some fixed =>
                   [ {| imp_type := "grammar";
                        imp_problem := e;
                        imp_suggestion := "Change to: " +:+ fixed;
                        imp_priority := "high" |} ]
               | _, _ => []
               end) l)
  = length (List.filter complete l).
Proof.
  induction l as [|c l IH]; [reflexivity|].
  cbn [flat_map List.filter]. rewrite length_app, IH. unfold complete.
  destruct (error c), (correction c); reflexivity.
Qed.

Lemma corrections_elem (l : list Correction) (x : Improvement) :
  x ∈ flat_map
        (fun c =>
           match error c, correction c with
           | Some e, Some fixed =>
               [ {| imp_type := "grammar";
                    imp_problem := e;
                    imp_suggestion := "Change to: " +:+ fixed;
                    imp_priority := "high" |} ]
           | _, _ => []
           end) l ->
  imp_type x = "grammar" /\ imp_priority x = "high".
Proof.
  induction l as [|c l IH]; intros H; [inversion H|].
  cbn [flat_map] in H. apply elem_of_app in H as [H|H]; [|exact (IH H)].
  destruct (error c), (correction c); try (inversion H; fail).
  apply list_elem_of_singleton in H as ->. split; reflexivity.
Qed.

End SuggestionExtraFacts.

Module SuggestionExtra.
Import TextAnalyzer SuggestionGenerator SuggestionExtraFacts PyFacts.

(** X13: whatever the reply of the service is, the suggestions built from
    it by [_parse_ai_response] carry the three general tips (the format of
    the submission plays no part), at most one rewrite, whose original is
    the fixed text "Original text", and improvements that are either of type
    clarity or structure with priority medium, or of type grammar with
    priority high. *)
Theorem reply_suggestions_shape {js : Json} (response : string) :
  let s := _parse_ai_response response in
  format_specific_tips s = general_tips
  /\ (length (rewrite_suggestions s) <= 1)%nat
  /\ (forall r, r ∈ rewrite_suggestions s ->
        original r = "Original text" /\ suggested r <> "")
  /\ (forall x, x ∈ specific_improvements s ->
        (imp_type x ∈ ["clarity"; "structure"] /\ imp_priority x = "medium")
        \/ (imp_type x = "grammar" /\ imp_priority x = "high")).
Proof.
  cbv zeta. unfold _parse_ai_response.
  destruct (json_loads (json_str_of response)) as [parsed|].
  - cbn [format_specific_tips rewrite_suggestions specific_improvements].
    split; [reflexivity|].
    unfold _create_rewrite_suggestions.
    destruct (default "" (improved_version parsed)) as [|c improved] eqn:E; cbn [Py.truthy].
    + split; [simpl; lia|]. split; [intros r H; inversion H|].
      intros x H. unfold _convert_to_improvements in H.
      apply elem_of_app in H as [H|H]; [|apply elem_of_app in H as [H|H]].
      * apply numbered_elem in H as [-> ->]. left. split; [apply list_elem_of_here | reflexivity].
      * apply numbered_elem in H as [-> ->]. left.
        split; [apply list_elem_of_further, list_elem_of_here | reflexivity].
      * right. exact (corrections_elem _ _ H).
    + split; [simpl; lia|].
      split; [intros r H; apply list_elem_of_singleton in H as ->; split;
              [reflexivity | discriminate]|].
      intros x H. unfold _convert_to_improvements in H.
      apply elem_of_app in H as [H|H]; [|apply elem_of_app in H as [H|H]].
      * apply numbered_elem in H as [-> ->]. left. split; [apply list_elem_of_here | reflexivity].
      * apply numbered_elem in H as [-> ->]. left.
        split; [apply list_elem_of_further, list_elem_of_here | reflexivity].
      * right. exact (corrections_elem _ _ H).
  - split; [reflexivity|]. split; [vm_compute; lia|].
    split; intros x H; vm_compute in H; inversion H.
Qed.

(** X14: with either service chosen, when no reply is obtained (the prompt
    cannot be built because the analysis has no readability entry, or the
    request raises), [generate_suggestions] returns the deterministic
    suggestions for the submitted text, analysis and format. *)
Theorem no_reply_fallback {js : Json} {cl : Client}
    (api_type : ApiType) (text : string) (analysis : Analysis) (writing_format : string) :
  (forall prompt,
     _create_prompt text analysis writing_format = Some prompt ->
     match api_type with
     | gemini => gemini_generate_content prompt = None
     | openai => openai_chat_completions_create prompt = None
     | mock => True
     end) ->
  generate_suggestions api_type text analysis writing_format
  = _generate_mock_suggestions text analysis writing_format.
Proof.
  intros H. destruct api_type; cbn [generate_suggestions]; [| |reflexivity].
  - unfold _generate_gemini_suggestions.
    destruct (_create_prompt text analysis writing_format) as [prompt|]; [|reflexivity].
    now rewrite (H prompt eq_refl).
  - unfold _generate_openai_suggestions.
    destruct (_create_prompt text analysis writing_format) as [prompt|]; [|reflexivity].
    now rewrite (H prompt eq_refl).
Qed.

(** The theorem on the second service, with every request raising. *)
Lemma no_reply_fallback_witness :
  @generate_suggestions Samples.refusing_json Samples.failing_client
    openai Samples.long_text Samples.long_text_analysis "email"
  = _generate_mock_suggestions Samples.long_text Samples.long_text_analysis "email".
Proof.
  apply (@no_reply_fallback Samples.refusing_json Samples.failing_client openai).
  intros prompt _. reflexivity.
Defined.

(** X15: the improvements built from a decoded reply list the clarity
    suggestions first, then the structure suggestions, then the grammar
    corrections that carry both an error and a correction; the clarity
    suggestion at index [i] is labelled "Clarity issue i+1", the structure
    suggestion at index [j] stands at index [len(clarity) + j] and is
    labelled "Structure issue j+1" (each numbering starts again at 1). *)
Theorem reply_improvements_numbered (parsed : Reply) :
  let clarity := default [] (clarity_suggestions parsed) in
  let structure := default [] (structure_suggestions parsed) in
  let corrections := default [] (grammar_corrections parsed) in
  let improvements := _convert_to_improvements parsed in
  length improvements
  = (length clarity + length structure + length (List.filter complete corrections))%nat
  /\ (forall i suggestion,
        clarity !! i = Some suggestion ->
        improvements !! i
        = Some {| imp_type := "clarity";
                  imp_problem := "Clarity issue " +:+ Py.str_of_nat (i + 1);
                  imp_suggestion := suggestion;
                  imp_priority := "medium" |})
  /\ (forall j suggestion,
        structure !! j = Some suggestion ->
        improvements !! (length clarity + j)%nat
        = Some {| imp_type := "structure";
                  imp_problem := "Structure issue " +:+ Py.str_of_nat (j + 1);
                  imp_suggestion := suggestion;
                  imp_priority := "medium" |})
  /\ (forall k x,
        improvements !! (length clarity + length structure + k)%nat = Some x ->
        imp_type x = "grammar" /\ imp_priority x = "high").
Proof.
  cbv zeta. unfold _convert_to_improvements.
  set (clarity := default [] (clarity_suggestions parsed)).
  set (structure := default [] (structure_suggestions parsed)).
  set (corrections := default [] (grammar_corrections parsed)).
  split; [|split; [|split]].
  - rewrite !length_app, !numbered_length, corrections_length. lia.
  - intros i suggestion Hi.
    rewrite lookup_app_l by (rewrite numbered_length; eapply lookup_lt_Some; exact Hi).
    rewrite numbered_lookup, Hi. reflexivity.
  - intros j suggestion Hj.
    rewrite lookup_app_r by (rewrite numbered_length; lia).
    rewrite numbered_length.
    replace (length clarity + j - length clarity)%nat with j by lia.
    rewrite lookup_app_l by (rewrite numbered_length; eapply lookup_lt_Some; exact Hj).
    rewrite numbered_lookup, Hj. reflexivity.
  - intros k x Hk.
    rewrite lookup_app_r in Hk by (rewrite numbered_length; lia).
    rewrite lookup_app_r in Hk by (rewrite !numbered_length; lia).
    apply list_elem_of_lookup_2 in Hk. exact (corrections_elem _ _ Hk).
Qed.

(** X16: [_simplify_sentence] returns a sentence of at most 25 words as it
    is; a longer one comes back with the same words in the same order, a
    full stop being added to the word that ends the first half (so the
    result has as many words as the sentence had). *)
Theorem simplified_sentence_words (sentence : string) :
  let words := Py.split_ws sentence in
  let midpoint := (length words / 2)%nat in
  ((length words <= 25)%nat -> _simplify_sentence sentence = sentence)
  /\ ((25 < length words)%nat ->
      exists w,
        words !! (midpoint - 1)%nat = Some w
        /\ Py.split_ws (_simplify_sentence sentence)
           = take (midpoint - 1) words ++ (w +:+ ".") :: drop midpoint words
        /\ length (Py.split_ws (_simplify_sentence sentence)) = length words).
Proof.
  cbv zeta. unfold _simplify_sentence.
  pose proof (split_ws_words sentence) as Hwords.
  set (words := Py.split_ws sentence) in *.
  split.
  - intros H. rewrite (proj2 (Nat.ltb_ge _ _) H). reflexivity.
  - intros H. rewrite (proj2 (Nat.ltb_lt _ _) H).
    set (midpoint := (length words / 2)%nat).
    assert (Hm : (13 <= midpoint)%nat).
    { unfold midpoint. apply Nat.div_le_lower_bound; lia. }
    assert (Hmn : (midpoint <= length words)%nat).
    { unfold midpoint. apply Nat.Div0.div_le_upper_bound. lia. }
    destruct (words !! (midpoint - 1)%nat) as [w|] eqn:Hw;
      [|apply lookup_ge_None in Hw; lia].
    exists w. split; [reflexivity|].
    assert (Htake : firstn midpoint words = take (midpoint - 1) words ++ [w]).
    { replace midpoint with (S (midpoint - 1)) at 1 by lia.
      now apply take_S_r. }
    assert (Hsplit : Py.split_ws
                       (Py.join " " (firstn midpoint words) +:+ ". "
                        +:+ Py.join " " (skipn midpoint words))
                     = take (midpoint - 1) words ++ (w +:+ ".") :: drop midpoint words).
    { rewrite Htake, join_snoc_stop, split_ws_join_then.
      - rewrite split_ws_join by (apply Forall_drop; exact Hwords).
        rewrite <- app_assoc. reflexivity.
      - apply Forall_app. split; [apply Forall_take; exact Hwords|].
        constructor; [|constructor]. apply is_word_stop.
        exact (proj1 (Forall_lookup _ _) Hwords _ _ Hw). }
    split; [exact Hsplit|].
    rewrite Hsplit, length_app, length_take. cbn [length]. rewrite length_drop. lia.
Qed.

End SuggestionExtra.

(** ** The analysis (text_analyzer.py) *)

Module AnalyzerExtraFacts.
Import TextAnalyzer NumFacts.

(** A ratio of counts against 0.3, without the division. *)
Lemma ratio_lt_iff (k n : nat) :
  (0 < n)%nat ->
  Num.Qltb (Num.of_nat k / Num.of_nat n) 0.3 = true <-> (10 * k < 3 * n)%nat.
Proof.
  intros Hn. rewrite Qltb_true. unfold Num.of_nat.
  assert (Hpos : 0 < inject_Z (Z.of_nat n)) by (unfold Qlt; simpl; lia).
  split.
  - intros H. destruct (le_lt_dec (3 * n) (10 * k)) as [Hge|Hlt]; [|exact Hlt].
    exfalso. apply (Qlt_not_le _ _ H).
    apply Qle_shift_div_l; [exact Hpos|]. unfold Qle. simpl. lia.
  - intros H. apply Qlt_shift_div_r; [exact Hpos|]. unfold Qlt. simpl. lia.
Qed.

Lemma sentence_type_cases (sentence : string) :
  sentence_type sentence ∈ ["question"; "exclamation"; "statement"].
Proof.
  unfold sentence_type.
  destruct (Py.endswith "?" sentence); [apply list_elem_of_here|].
  destruct (Py.endswith "!" sentence);
    repeat first [apply list_elem_of_here | apply list_elem_of_further].
Qed.

(** The distinct sentence types: at most three, at most one per sentence,
    and at least one when there is a sentence. *)
Lemma kinds_bounds (sentences : list string) :
  let kinds := length (remove_dups (map sentence_type sentences)) in
  (kinds <= 3)%nat /\ (kinds <= length sentences)%nat
  /\ (sentences <> [] -> (1 <= kinds)%nat).
Proof.
  cbv zeta. split; [|split].
  - change 3%nat with (length ["question"; "exclamation"; "statement"]).
    apply submseteq_length, NoDup_submseteq; [apply NoDup_remove_dups|].
    intros x Hx. apply (proj1 (elem_of_remove_dups _ _)) in Hx.
    change (map sentence_type sentences) with (sentence_type <$> sentences) in Hx.
    apply list_elem_of_fmap in Hx as (s & -> & _). apply sentence_type_cases.
  - etransitivity; [apply MetricsExtra.remove_dups_length_le|].
    now rewrite length_map.
  - intros Hne. destruct sentences as [|s rest]; [congruence|].
    destruct (remove_dups (map sentence_type (s :: rest))) as [|k ks] eqn:E; [|simpl; lia].
    exfalso. assert (H : sentence_type s ∈ remove_dups (map sentence_type (s :: rest))).
    { apply elem_of_remove_dups. apply list_elem_of_here. }
    rewrite E in H. inversion H.
Qed.

Lemma repeated_words_length (words : list string) :
  (length (repeated_words words) <= length words - 1)%nat.
Proof.
  induction words as [|w [|w' rest] IH]; [simpl; lia | simpl; lia |].
  change (repeated_words (w :: w' :: rest))
    with ((if String.eqb (Py.lower w) (Py.lower w')
              && negb (mem (Py.lower w) ["the"; "a"; "an"])
           then [ {| issue_type := "repeated_word";
                     issue_text := w;
                     issue_suggestion := "Remove repeated word";
                     issue_position := None |} ]
           else [])
          ++ repeated_words (w' :: rest)).
  rewrite length_app. cbn [length] in *.
  destruct (_ && _); cbn [length]; lia.
Qed.

Lemma passive_voice_length (words : list string) :
  (length (passive_voice words) <= length words - 1)%nat.
Proof.
  induction words as [|w [|w' rest] IH]; [simpl; lia | simpl; lia |].
  change (passive_voice (w :: w' :: rest))
    with ((if mem w passive_indicators
              && (Py.endswith "ed" w' || Py.endswith "en" w')
           then [ {| issue_type := "passive_voice";
                     issue_text := w +:+ " " +:+ w';
                     issue_suggestion := "Consider using active voice";
                     issue_position := None |} ]
           else [])
          ++ passive_voice (w' :: rest)).
  rewrite length_app. cbn [length] in *.
  destruct (_ && _); cbn [length]; lia.
Qed.

Lemma passive_voice_elem (words : list string) (i : Issue) :
  i ∈ passive_voice words ->
  issue_type i = "passive_voice"
  /\ issue_suggestion i = "Consider using active voice"
  /\ issue_position i = None.
Proof.
  induction words as [|w [|w' rest] IH]; intros H; [inversion H | inversion H |].
  change (passive_voice (w :: w' :: rest))
    with ((if mem w passive_indicators
              && (Py.endswith "ed" w' || Py.endswith "en" w')
           then [ {| issue_type := "passive_voice";
                     issue_text := w +:+ " " +:+ w';
                     issue_suggestion := "Consider using active voice";
                     issue_position := None |} ]
           else [])
          ++ passive_voice (w' :: rest)) in H.
  apply elem_of_app in H as [H|H]; [|exact (IH H)].
  destruct (_ && _); [|inversion H].
  apply list_elem_of_singleton in H as ->. repeat split.
Qed.

Lemma repeated_words_cons (w w' : string) (rest : list string) :
  repeated_words (w :: w' :: rest)
  = (if String.eqb (Py.lower w) (Py.lower w')
        && negb (mem (Py.lower w) ["the"; "a"; "an"])
     then [ {| issue_type := "repeated_word";
               issue_text := w;
               issue_suggestion := "Remove repeated word";
               issue_position := None |} ]
     else [])
    ++ repeated_words (w' :: rest).
Proof. reflexivity. Qed.

Lemma repeated_words_elem (words : list string) (i : Issue) :
  i ∈ repeated_words words ->
  issue_type i = "repeated_word"
  /\ issue_suggestion i = "Remove repeated word"
  /\ issue_position i = None.
Proof.
  induction words as [|w [|w' rest] IH]; intros H; [inversion H | inversion H |].
  rewrite repeated_words_cons in H.
  apply elem_of_app in H as [H|H]; [|exact (IH H)].
  destruct (_ && _); [|inversion H].
  apply list_elem_of_singleton in H as ->. repeat split.
Qed.

(** The words that [repeated_words] reports: those followed by the same
    word up to case, the articles apart. *)
Lemma repeated_words_spec (words : list string) (w : string) :
  (exists i, i ∈ repeated_words words /\ issue_text i = w)
  <-> exists k w',
        words !! k = Some w /\ words !! S k = Some w'
        /\ Py.lower w = Py.lower w' /\ Py.lower w ∉ ["the"; "a"; "an"].
Proof.
  induction words as [|w0 [|w1 rest] IH].
  - split; [intros (i & H & _); inversion H | intros (k & w' & H & _); discriminate H].
  - split; [intros (i & H & _); inversion H|].
    intros (k & w' & _ & H & _). destruct k; discriminate H.
  - rewrite repeated_words_cons. split.
    + intros (i & H & Hw). apply elem_of_app in H as [H|H].
      * destruct (String.eqb (Py.lower w0) (Py.lower w1)) eqn:Eeq; [|inversion H].
        destruct (mem (Py.lower w0) ["the"; "a"; "an"]) eqn:Emem; [inversion H|].
        apply list_elem_of_singleton in H as ->. cbn [issue_text] in Hw. subst w.
        exists 0%nat, w1. split; [reflexivity|]. split; [reflexivity|].
        split; [now apply String.eqb_eq | now apply SuggestionFacts.mem_not_elem].
      * destruct (proj1 IH (ex_intro _ i (conj H Hw))) as (k & w' & H1 & H2 & H3 & H4).
        exists (S k), w'. repeat split; assumption.
    + intros (k & w' & H1 & H2 & H3 & H4). destruct k as [|k].
      * cbn in H1, H2. injection H1 as ->. injection H2 as ->.
        rewrite (proj2 (String.eqb_eq _ _) H3).
        rewrite (proj2 (SuggestionFacts.mem_not_elem _ _) H4). cbn [andb negb].
        eexists. split; [apply elem_of_app; left; apply list_elem_of_here | reflexivity].
      * destruct (proj2 IH) as (i & Hi & Hw).
        { exists k, w'. repeat split; assumption. }
        exists i. split; [apply elem_of_app; right; exact Hi | exact Hw].
Qed.

Section WithLibraries.
Context {rx : Regex}.

Lemma confused_words_elem (text : string) (i : Issue) :
  i ∈ confused_words text ->
  issue_type i = "confused_words" /\ exists start, issue_position i = Some start.
Proof.
  unfold confused_words. intros H.
  apply list_elem_of_In, in_flat_map in H as ([pattern kind] & _ & H).
  apply in_map_iff in H as ([group start] & <- & _).
  split; [reflexivity|]. exists start. reflexivity.
Qed.

End WithLibraries.

Lemma wordiness_elem (text : string) (i : Issue) :
  i ∈ wordiness text ->
  issue_type i = "wordiness" /\ issue_position i = None
  /\ Py.contains (issue_text i) (Py.lower text) = true
  /\ exists replacement,
       (issue_text i, replacement) ∈ wordy_phrases
       /\ issue_suggestion i = "Replace with " +:+ dquote +:+ replacement +:+ dquote.
Proof.
  unfold wordiness. intros H.
  apply list_elem_of_In, in_flat_map in H as ([phrase replacement] & Hin & H).
  destruct (Py.contains phrase (Py.lower text)) eqn:E; [|inversion H].
  destruct H as [<-|[]]. cbn [issue_type issue_position issue_text issue_suggestion].
  split; [reflexivity|]. split; [reflexivity|]. split; [exact E|].
  exists replacement. split; [now apply list_elem_of_In | reflexivity].
Qed.

Lemma wordiness_length (text : string) : (length (wordiness text) <= 5)%nat.
Proof.
  unfold wordiness, wordy_phrases. cbn [flat_map]. rewrite !length_app.
  repeat match goal with
         | |- context [Py.contains ?p ?t] => destruct (Py.contains p t)
         end; cbn [length]; lia.
Qed.

End AnalyzerExtraFacts.

Module AnalyzerExtra.
Import TextAnalyzer NumFacts AnalyzerExtraFacts.

(** X17: the sentence analysis of any text lists one type and one length
    per sentence; every type is question, exclamation or statement; the
    variety score is 0 when there is no sentence and otherwise the number of
    distinct types (1 to 3, and at most the number of sentences) over the
    number of sentences, so it always lies between 0 and 1. *)
Theorem sentence_analysis_invariants {tok : Tokenizer} (text : string) :
  let sa := _analyze_sentences text in
  let n := total_sentences sa in
  let kinds := length (remove_dups (sentence_types sa)) in
  length (sentence_types sa) = n
  /\ length (sentence_lengths sa) = n
  /\ (forall t, t ∈ sentence_types sa -> t ∈ ["question"; "exclamation"; "statement"])
  /\ (kinds <= 3)%nat /\ (kinds <= n)%nat
  /\ (n = 0%nat -> variety_score sa == 0)
  /\ ((0 < n)%nat ->
      (1 <= kinds)%nat /\ variety_score sa == Num.of_nat kinds / Num.of_nat n)
  /\ 0 <= variety_score sa
  /\ variety_score sa <= 1.
Proof.
  cbv zeta. unfold _analyze_sentences.
  cbn [total_sentences sentence_types sentence_lengths variety_score].
  destruct (kinds_bounds (sent_tokenize text)) as (H3 & Hn & H1).
  split; [apply length_map|]. split; [apply length_map|].
  split.
  { intros t Ht. change (map sentence_type (sent_tokenize text))
      with (sentence_type <$> sent_tokenize text) in Ht.
    apply list_elem_of_fmap in Ht as (s & -> & _). apply sentence_type_cases. }
  split; [exact H3|]. split; [exact Hn|].
  destruct (sent_tokenize text) as [|s rest] eqn:E.
  - split; [reflexivity|]. split; [simpl; lia|]. split; unfold Qle; simpl; lia.
  - specialize (H1 ltac:(discriminate)).
    split; [discriminate|]. split; [intros _; split; [exact H1 | reflexivity]|].
    set (k := length (remove_dups (map sentence_type (s :: rest)))) in *.
    set (n := length (s :: rest)) in *.
    assert (Hpos : (0 < n)%nat) by (unfold n; simpl; lia).
    assert (HposQ : 0 < inject_Z (Z.of_nat n)) by (unfold Qlt; simpl; lia).
    unfold Num.of_nat. split.
    + apply Qle_shift_div_l; [exact HposQ|]. unfold Qle. simpl. lia.
    + apply Qle_shift_div_r; [exact HposQ|]. unfold Qle. simpl. lia.
Qed.

(** X18: in the basic statistics of any text the unique words are at most
    the word count, the character count is the length of the text, the
    sentence count is the one of the sentence analysis, and the average
    words per sentence is 0 for a text with no sentence and otherwise the
    word count over the sentence count. *)
Theorem basic_stats_invariants {tok : Tokenizer} (text : string) :
  let stats := _get_basic_stats text in
  (unique_words stats <= word_count stats)%nat
  /\ char_count stats = Py.len text
  /\ sentence_count stats = total_sentences (_analyze_sentences text)
  /\ (sentence_count stats = 0%nat -> avg_words_per_sentence stats == 0)
  /\ ((0 < sentence_count stats)%nat ->
      avg_words_per_sentence stats * Num.of_nat (sentence_count stats)
      == Num.of_nat (word_count stats)).
Proof.
  cbv zeta. unfold _get_basic_stats, _analyze_sentences.
  cbn [unique_words word_count char_count sentence_count avg_words_per_sentence
       total_sentences].
  split.
  { etransitivity; [apply MetricsExtra.remove_dups_length_le|].
    rewrite length_map. apply filter_length_le. }
  split; [reflexivity|]. split; [reflexivity|].
  destruct (sent_tokenize text) as [|s rest].
  - split; [reflexivity | simpl; lia].
  - split; [discriminate|]. intros _.
    field. unfold Num.of_nat, Qeq. simpl. lia.
Qed.

(** X19: every style issue is a passive-voice issue with the fixed
    suggestion, or a wordiness issue for one of the five listed phrases that
    the lowercased text contains, with its replacement; none carries a
    position.  Every grammar issue is a confused-words issue with a position
    or a repeated-word issue without one.  The style issues number at most
    the tokens of the lowercased text less one, plus five. *)
Theorem issue_kinds {tok : Tokenizer} {rx : Regex} (text : string) :
  (forall i, i ∈ _check_style text ->
     issue_position i = None
     /\ ((issue_type i = "passive_voice"
          /\ issue_suggestion i = "Consider using active voice")
         \/ (issue_type i = "wordiness"
             /\ Py.contains (issue_text i) (Py.lower text) = true
             /\ exists replacement,
                  (issue_text i, replacement) ∈ wordy_phrases
                  /\ issue_suggestion i
                     = "Replace with " +:+ dquote +:+ replacement +:+ dquote)))
  /\ (forall i, i ∈ _check_grammar text ->
        (issue_type i = "confused_words" /\ exists start, issue_position i = Some start)
        \/ (issue_type i = "repeated_word" /\ issue_position i = None
            /\ issue_suggestion i = "Remove repeated word"))
  /\ (length (_check_style text)
      <= length (word_tokenize (Py.lower text)) - 1 + 5)%nat.
Proof.
  split; [|split].
  - intros i H. unfold _check_style in H. apply elem_of_app in H as [H|H].
    + apply passive_voice_elem in H as (Ht & Hs & Hp).
      split; [exact Hp|]. left. split; assumption.
    + apply wordiness_elem in H as (Ht & Hp & Hc & Hr).
      split; [exact Hp|]. right. split; [exact Ht|]. split; assumption.
  - intros i H. unfold _check_grammar in H. apply elem_of_app in H as [H|H].
    + left. exact (confused_words_elem _ _ H).
    + right. apply repeated_words_elem in H as (Ht & Hs & Hp). repeat split; assumption.
  - unfold _check_style. rewrite length_app.
    pose proof (passive_voice_length (word_tokenize (Py.lower text))).
    pose proof (wordiness_length text). lia.
Qed.

(** X20: [_check_grammar] reports a repeated word [w] exactly when some
    whitespace-separated word of the text is [w], the next word is the same
    up to case, and [w] lowercased is not an article. *)
Theorem repeated_words_flagged {rx : Regex} (text w : string) :
  (exists i, i ∈ _check_grammar text
             /\ issue_type i = "repeated_word" /\ issue_text i = w)
  <-> exists k w',
        Py.split_ws text !! k = Some w /\ Py.split_ws text !! S k = Some w'
        /\ Py.lower w = Py.lower w' /\ Py.lower w ∉ ["the"; "a"; "an"].
Proof.
  rewrite <- repeated_words_spec. unfold _check_grammar. split.
  - intros (i & H & Ht & Hw). apply elem_of_app in H as [H|H].
    + apply confused_words_elem in H as [Hc _]. rewrite Hc in Ht. discriminate Ht.
    + exists i. split; assumption.
  - intros (i & H & Hw). exists i.
    split; [apply elem_of_app; right; exact H|].
    split; [exact (proj1 (repeated_words_elem _ _ H)) | exact Hw].
Qed.

(** X21: for the analysis of a text, the deterministic suggestions hold the
    low-priority entry (limited sentence variety) exactly when the text has
    no sentence or ten times the number of distinct sentence types is below
    three times the number of sentences: never for a text of one to three
    sentences, always for one of eleven or more. *)
Theorem variety_suggestion_by_counts {tok : Tokenizer} {rx : Regex}
    (text writing_format : string) :
  let n := length (sent_tokenize text) in
  let kinds := length (remove_dups (map sentence_type (sent_tokenize text))) in
  let improvements :=
    SuggestionGenerator.specific_improvements
      (SuggestionGenerator._generate_mock_suggestions text (analyze text) writing_format) in
  let flagged :=
    exists x, x ∈ improvements /\ SuggestionGenerator.imp_priority x = "low" in
  (flagged <-> n = 0%nat \/ (10 * kinds < 3 * n)%nat)
  /\ ((1 <= n <= 3)%nat -> ~ flagged)
  /\ ((11 <= n)%nat -> flagged).
Proof.
  cbv zeta.
  destruct (kinds_bounds (sent_tokenize text)) as (H3 & Hn & H1). cbv zeta in H3, Hn, H1.
  set (n := length (sent_tokenize text)) in *.
  set (kinds := length (remove_dups (map sentence_type (sent_tokenize text)))) in *.
  assert (Hiff :
    (exists x,
       x ∈ SuggestionGenerator.specific_improvements
             (SuggestionGenerator._generate_mock_suggestions text (analyze text) writing_format)
       /\ SuggestionGenerator.imp_priority x = "low")
    <-> n = 0%nat \/ (10 * kinds < 3 * n)%nat).
  { unfold SuggestionGenerator._generate_mock_suggestions.
    cbn [SuggestionGenerator.specific_improvements].
    unfold SuggestionGenerator._get_specific_improvements, analyze.
    cbn [style_issues grammar_issues sentence_analysis default].
    unfold _analyze_sentences. cbn [variety_score]. fold n. fold kinds.
    assert (Hflag :
      Num.Qltb match sent_tokenize text with
               | [] => 0
               | _ :: _ => Num.of_nat kinds / Num.of_nat n
               end 0.3 = true
      <-> n = 0%nat \/ (10 * kinds < 3 * n)%nat).
    { destruct (sent_tokenize text) as [|s rest] eqn:E.
      - split; [intros _; left; reflexivity | intros _; reflexivity].
      - rewrite ratio_lt_iff by (unfold n; simpl; lia).
        split; [intros H; right; exact H | intros [H|H]; [discriminate H | exact H]]. }
    rewrite <- Hflag.
    assert (Hother : forall x,
              x ∈ ([] ++ map (SuggestionGenerator.improvement_of "medium") (_check_style text))
                  ++ map (SuggestionGenerator.improvement_of "high") (_check_grammar text) ->
              SuggestionGenerator.imp_priority x <> "low").
    { intros x Hx. apply list_elem_of_In in Hx.
      apply in_app_or in Hx as [Hx|Hx]; [apply in_app_or in Hx as [[]|Hx]|];
        apply in_map_iff in Hx as (i & <- & _); discriminate. }
    destruct (Num.Qltb _ 0.3).
    - split; [reflexivity|]. intros _.
      exists {| SuggestionGenerator.imp_type := "sentence_variety";
                SuggestionGenerator.imp_problem := "Limited sentence variety";
                SuggestionGenerator.imp_suggestion := "Mix different sentence types and lengths";
                SuggestionGenerator.imp_priority := "low" |}.
      split; [|reflexivity]. apply elem_of_app. right. apply list_elem_of_here.
    - split; [|discriminate]. intros (x & Hx & Hlow). exfalso.
      exact (Hother x Hx Hlow). }
  split; [exact Hiff|]. split.
  - intros Hrange Hflag. apply Hiff in Hflag as [H0|Hlt]; [lia|].
    assert (1 <= kinds)%nat by (apply H1; intros E; unfold n in Hrange; rewrite E in Hrange; simpl in Hrange; lia).
    lia.
  - intros Hbig. apply Hiff. right. lia.
Qed.


End AnalyzerExtra.

(** ** Validation and the pipeline (input_handler.py, main.py) *)

Module PipelineExtraFacts.
Import Py PyFacts.

Lemma len_rev_onto (s acc : string) :
  len (rev_onto s acc) = (len s + len acc)%nat.
Proof.
  unfold len. revert acc. induction s as [|c s IH]; intros acc; [reflexivity|].
  cbn [rev_onto String.length]. rewrite IH. cbn [String.length]. lia.
Qed.

Lemma len_lstrip (s : string) : (len (lstrip s) <= len s)%nat.
Proof.
  unfold len. induction s as [|c s IH]; [reflexivity|].
  cbn [lstrip]. destruct (is_space c); cbn [String.length]; lia.
Qed.

Lemma len_strip (s : string) : (len (strip s) <= len s)%nat.
Proof.
  unfold strip, rstrip, rev. rewrite len_rev_onto.
  pose proof (len_lstrip (rev_onto (lstrip s) "")) as H.
  rewrite len_rev_onto in H. pose proof (len_lstrip s).
  change (len "") with 0%nat in *. lia.
Qed.

Lemma split_ws_aux_pending (s cur : string) : cur <> "" -> split_ws_aux s cur <> [].
Proof.
  revert cur. induction s as [|c s IH]; intros cur H; cbn [split_ws_aux].
  - destruct cur; [congruence | discriminate].
  - destruct (is_space c); [destruct cur; [congruence | discriminate]|].
    apply IH. discriminate.
Qed.

(** A text that is not all white space has a word. *)
Lemma split_ws_nonempty (s : string) : strip s <> "" -> split_ws s <> [].
Proof.
  intros H. assert (Hl : lstrip s <> "").
  { intros E. apply H. unfold strip. rewrite E. reflexivity. }
  clear H. unfold split_ws. induction s as [|c s IH]; [exfalso; apply Hl; reflexivity|].
  cbn [lstrip] in Hl. cbn [split_ws_aux]. destruct (is_space c).
  - apply IH. exact Hl.
  - apply split_ws_aux_pending. discriminate.
Qed.

End PipelineExtraFacts.

Module PipelineExtra.
Import TextAnalyzer InputHandler ProgressTracker PipelineExtraFacts.

(** X22: a valid result of [validate_input] always names one of the five
    known formats: the requested one when it is known, "general" when it is
    unknown, empty or absent; it carries the stripped text, of at least 10
    characters; its character count is the length of the text as given (so
    at least that of the stripped text) and its word count, the number of
    whitespace-separated words of the text, is at least 1. *)
Theorem validated_input_fields (text : string) (writing_format : option string)
    (v : ValidInput) :
  validate_input text writing_format = valid v ->
  InputHandler.format v ∈ valid_formats
  /\ (forall f, writing_format = Some f -> f ∈ valid_formats -> InputHandler.format v = f)
  /\ (forall f, writing_format = Some f -> f ∉ valid_formats ->
        InputHandler.format v = "general")
  /\ (writing_format = None -> InputHandler.format v = "general")
  /\ InputHandler.text v = Py.strip text
  /\ InputHandler.char_count v = Py.len text
  /\ (10 <= Py.len (InputHandler.text v) <= InputHandler.char_count v)%nat
  /\ InputHandler.word_count v = length (Py.split_ws text)
  /\ (1 <= InputHandler.word_count v)%nat.
Proof.
  unfold validate_input.
  destruct (negb (Py.truthy text) || negb (Py.truthy (Py.strip text))) eqn:Eempty;
    [discriminate|].
  destruct (Py.len (Py.strip text) <? 10)%nat eqn:Eshort; [discriminate|].
  intros [= <-]. cbn [InputHandler.format InputHandler.text InputHandler.char_count
                      InputHandler.word_count].
  apply Nat.ltb_ge in Eshort.
  assert (Hformat :
    forall f, writing_format = Some f ->
      (f ∈ valid_formats ->
       match (if Py.truthy f && negb (mem f valid_formats) then Some "general" else Some f) with
       | Some f0 => if Py.truthy f0 then f0 else "general"
       | None => "general"
       end = f)
      /\ (f ∉ valid_formats ->
          match (if Py.truthy f && negb (mem f valid_formats) then Some "general" else Some f) with
          | Some f0 => if Py.truthy f0 then f0 else "general"
          | None => "general"
          end = "general")).
  { intros f _. split.
    - intros Hin. rewrite (proj2 (SuggestionFacts.mem_elem _ _) Hin).
      rewrite andb_false_r.
      destruct f; [|reflexivity]. exfalso.
      repeat (apply elem_of_cons in Hin as [Hin|Hin]; [discriminate Hin|]). inversion Hin.
    - intros Hout. rewrite (proj2 (SuggestionFacts.mem_not_elem _ _) Hout).
      destruct f; reflexivity. }
  split; [|split; [|split; [|split]]].
  - destruct writing_format as [f|]; cbv beta iota zeta;
      [|repeat first [apply list_elem_of_here | apply list_elem_of_further]].
    destruct (decide (f ∈ valid_formats)) as [Hin|Hout].
    + match goal with
      | |- ?g ∈ _ =>
          replace g with f by (symmetry; exact (proj1 (Hformat f eq_refl) Hin))
      end.
      exact Hin.
    + match goal with
      | |- ?g ∈ _ =>
          replace g with "general" by (symmetry; exact (proj2 (Hformat f eq_refl) Hout))
      end.
      repeat first [apply list_elem_of_here | apply list_elem_of_further].
  - intros f -> Hin. cbv beta iota zeta. exact (proj1 (Hformat f eq_refl) Hin).
  - intros f -> Hout. cbv beta iota zeta. exact (proj2 (Hformat f eq_refl) Hout).
  - intros ->. reflexivity.
  - 
split; [reflexivity|]. split; [reflexivity|].
    split; [split; [exact Eshort | apply len_strip]|].
  split; [reflexivity|].
  assert (Hne : Py.split_ws text <> []).
  { apply split_ws_nonempty. intros E. rewrite E in Eshort. simpl in Eshort. lia. }
  destruct (Py.split_ws text); [congruence | simpl; lia].
Qed.

(** The theorem on a padded text with the unknown format "poem". *)
Lemma validated_input_fields_witness :
  exists v,
    validate_input "  A note to the team  " (Some "poem") = valid v
    /\ InputHandler.format v = "general"
    /\ InputHandler.text v = "A note to the team"
    /\ InputHandler.char_count v = 22%nat.
Proof.
  eexists. split; [reflexivity|].
  destruct (validated_input_fields "  A note to the team  " (Some "poem") _ eq_refl)
    as (_ & _ & Hout & _ & Htext & Hchars & _).
  split; [|split; [exact Htext | exact Hchars]].
  apply (Hout "poem" eq_refl). intros Hin.
  repeat (apply elem_of_cons in Hin as [Hin|Hin]; [discriminate Hin|]). inversion Hin.
Defined.



End PipelineExtra.

(** ** The web output (output_formatter.py) *)

Module FormatterExtra.
Import TextAnalyzer ProgressTracker OutputFormatter.

Lemma quick_fixes_count
    (analysis : Analysis) (suggestions : SuggestionGenerator.Suggestions)
    (grammar style : list Issue) :
  grammar_issues analysis = Some grammar ->
  style_issues analysis = Some style ->
  exists fixes,
    _get_quick_fixes analysis suggestions = Some fixes
    /\ length fixes = (Nat.min 3 (length grammar) + Nat.min 2 (length style))%nat
    /\ (length fixes <= 5)%nat.
Proof.
  intros Hg Hs. unfold _get_quick_fixes. rewrite Hg, Hs.
  eexists. split; [reflexivity|]. cbn [app].
  change (@firstn) with (@take).
  rewrite length_app, !length_map, !length_take. split; [reflexivity | lia].
Qed.

(** X24: for an analysis with its two issue lists, the quick fixes are one
    grammar fix of priority high for each of the first three grammar issues,
    then one style fix of priority medium for each of the first two style
    issues, each described by the suggestion of its issue: at most five in
    all. *)
Theorem quick_fixes_of_issues
    (analysis : Analysis) (suggestions : SuggestionGenerator.Suggestions)
    (grammar style : list Issue) :
  grammar_issues analysis = Some grammar ->
  style_issues analysis = Some style ->
  exists fixes,
    _get_quick_fixes analysis suggestions = Some fixes
    /\ length fixes = (Nat.min 3 (length grammar) + Nat.min 2 (length style))%nat
    /\ (length fixes <= 5)%nat
    /\ (forall k issue,
          (k < 3)%nat -> grammar !! k = Some issue ->
          fixes !! k = Some {| fix_type := "grammar";
                               fix_description := issue_suggestion issue;
                               fix_priority := "high" |})
    /\ (forall k issue,
          (k < 2)%nat -> style !! k = Some issue ->
          fixes !! (Nat.min 3 (length grammar) + k)%nat
          = Some {| fix_type := "style";
                    fix_description := issue_suggestion issue;
                    fix_priority := "medium" |}).
Proof.
  intros Hg Hs. unfold _get_quick_fixes. rewrite Hg, Hs.
  eexists. split; [reflexivity|]. cbn [app].
  change (@firstn) with (@take).
  assert (Hlg : length (map (fun issue => {| fix_type := "grammar";
                                             fix_description := issue_suggestion issue;
                                             fix_priority := "high" |})
                            (take 3 grammar)) = Nat.min 3 (length grammar)).
  { rewrite length_map, length_take. reflexivity. }
  split; [rewrite length_app, Hlg, length_map, length_take; reflexivity|].
  split; [rewrite length_app, Hlg, length_map, length_take; lia|].
  split.
  - intros k issue Hk Hi.
    rewrite lookup_app_l by (rewrite Hlg; apply lookup_lt_Some in Hi; lia).
    change (map ?f ?l) with (f <$> l).
    rewrite list_lookup_fmap, lookup_take_lt by exact Hk. rewrite Hi. reflexivity.
  - intros k issue Hk Hi.
    rewrite lookup_app_r by (rewrite Hlg; lia). rewrite Hlg.
    replace (Nat.min 3 (length grammar) + k - Nat.min 3 (length grammar))%nat with k by lia.
    change (map ?f ?l) with (f <$> l).
    rewrite list_lookup_fmap, lookup_take_lt by exact Hk. rewrite Hi. reflexivity.
Qed.

(** The theorem on an analysis with one issue of each kind. *)
Lemma quick_fixes_of_issues_witness :
  exists fixes,
    _get_quick_fixes Samples.long_text_analysis
      (SuggestionGenerator._generate_mock_suggestions
         Samples.long_text Samples.long_text_analysis "email")
    = Some fixes
    /\ length fixes = 2%nat.
Proof.
  destruct (quick_fixes_of_issues Samples.long_text_analysis
              (SuggestionGenerator._generate_mock_suggestions
                 Samples.long_text Samples.long_text_analysis "email")
              _ _ eq_refl eq_refl)
    as (fixes & Hrun & Hlen & _).
  exists fixes. split; [exact Hrun | exact Hlen].
Defined.

(** X25: on the analysis of any text [format_for_web] does not raise, reads
    the clock once for its timestamp and stores nothing; the summary carries
    the readability of the text, the total of its style and grammar issues,
    and the format and compliance score of the rules given ("general" and no
    score without rules); the quick fixes are those of the analysis, at most
    five and at most the total of the issues. *)
Theorem format_for_web_of_analysis {tok : Tokenizer} {rx : Regex} {clk : Clock}
    (text : string) (suggestions : SuggestionGenerator.Suggestions)
    (format_rules : option FormatClassifier.FormatRules)
    (user_progress : option Progress) (w : World) :
  exists out,
    format_for_web (analyze text) suggestions format_rules user_progress w
    = (Some out, {| files := files w; ticks := S (ticks w) |})
    /\ web_timestamp out = reading (ticks w)
    /\ summary_readability_level (summary out) = level (_calculate_readability text)
    /\ summary_readability_score (summary out) = score (_calculate_readability text)
    /\ total_issues (summary out)
       = (length (_check_style text) + length (_check_grammar text))%nat
    /\ _get_quick_fixes (analyze text) suggestions = Some (quick_fixes out)
    /\ (length (quick_fixes out) <= 5)%nat
    /\ (length (quick_fixes out) <= total_issues (summary out))%nat
    /\ (format_rules = None ->
        summary_format (summary out) = "general"
        /\ summary_compliance_score (summary out) = None)
    /\ (forall r, format_rules = Some r ->
        summary_format (summary out) = FormatClassifier.fr_format r
        /\ summary_compliance_score (summary out)
           = Some (FormatClassifier.compliance_score r)).
Proof.
  destruct (quick_fixes_count (analyze text) suggestions
              (_check_grammar text) (_check_style text) eq_refl eq_refl)
    as (fixes & Hfix & Hlen & H5).
  unfold format_for_web, bind, datetime_now, lift_option, ret.
  cbn [readability style_issues grammar_issues analyze].
  rewrite Hfix. eexists. split; [reflexivity|].
  cbn [web_timestamp summary summary_readability_level summary_readability_score
       total_issues quick_fixes summary_format summary_compliance_score].
  do 5 (split; [reflexivity|]). split; [exact H5|].
  split; [rewrite Hlen; lia|].
  split; [intros ->; split; reflexivity | intros r ->; split; reflexivity].
Qed.

End FormatterExtra.

(** ** The reply handed to the decoder (suggestion_generator.py) *)

Module ReplyExtraFacts.
Import Py PyFacts.

Lemma len_append (a b : string) : len (a +:+ b) = (len a + len b)%nat.
Proof.
  unfold len. induction a as [|c a IH]; [reflexivity|].
  rewrite append_cons. cbn [String.length]. now rewrite IH.
Qed.

(** A one-character pattern at the head of a string. *)
Lemma startswith_char (c d : ascii) (s : string) :
  startswith (String c "") (String d s) = Ascii.eqb c d.
Proof. cbn [startswith]. destruct (Ascii.eqb c d); reflexivity. Qed.

Lemma contains_char_cons (c d : ascii) (s : string) :
  contains (String c "") (String d s) = false ->
  Ascii.eqb c d = false /\ contains (String c "") s = false.
Proof.
  cbn [contains]. rewrite startswith_char. intros H.
  apply orb_false_iff in H. exact H.
Qed.

Lemma contains_char_here (c : ascii) (before rest : string) :
  contains (String c "") (before +:+ String c rest) = true.
Proof.
  induction before as [|d before IH].
  - change ("" +:+ String c rest) with (String c rest). cbn [contains].
    rewrite startswith_char, Ascii.eqb_refl. reflexivity.
  - rewrite append_cons. cbn [contains]. rewrite IH. apply orb_true_r.
Qed.

Lemma find_from_char (c : ascii) (before rest : string) (i : nat) :
  contains (String c "") before = false ->
  find_from (String c "") (before +:+ String c rest) i = Some (i + len before)%nat.
Proof.
  revert i. induction before as [|d before IH]; intros i H.
  - change ("" +:+ String c rest) with (String c rest). cbn [find_from].
    rewrite startswith_char, Ascii.eqb_refl. cbn [len String.length]. f_equal. lia.
  - apply contains_char_cons in H as [Hd H].
    rewrite append_cons. cbn [find_from]. rewrite startswith_char, Hd.
    rewrite IH by exact H. cbn [len String.length]. f_equal. unfold len. lia.
Qed.

Lemma rfind_from_absent (c : ascii) (s : string) (i : nat) (last : option nat) :
  contains (String c "") s = false ->
  rfind_from (String c "") s i last = last.
Proof.
  revert i. induction s as [|d s IH]; intros i H.
  - reflexivity.
  - apply contains_char_cons in H as [Hd H].
    cbn [rfind_from]. rewrite startswith_char, Hd. now apply IH.
Qed.

Lemma rfind_from_char (c : ascii) (before after : string) (i : nat) (last : option nat) :
  contains (String c "") after = false ->
  rfind_from (String c "") (before +:+ String c after) i last
  = Some (i + len before)%nat.
Proof.
  revert i last. induction before as [|d before IH]; intros i last H.
  - change ("" +:+ String c after) with (String c after). cbn [rfind_from].
    rewrite startswith_char, Ascii.eqb_refl.
    rewrite rfind_from_absent by exact H. cbn [len String.length]. f_equal. lia.
  - rewrite append_cons. cbn [rfind_from].
    rewrite IH by exact H. cbn [len String.length]. f_equal. unfold len. lia.
Qed.

Lemma substring_skip (a s : string) (n : nat) :
  String.substring (len a) n (a +:+ s) = String.substring 0 n s.
Proof.
  unfold len. induction a as [|c a IH]; [reflexivity|].
  rewrite append_cons. cbn [String.length String.substring]. exact IH.
Qed.

Lemma substring_prefix (m t : string) : String.substring 0 (len m) (m +:+ t) = m.
Proof.
  unfold len. induction m as [|c m IH].
  - cbn [String.length]. destruct ("" +:+ t); reflexivity.
  - rewrite append_cons. cbn [String.length String.substring]. now rewrite IH.
Qed.



End ReplyExtraFacts.

Module ReplyExtra.
Import TextAnalyzer SuggestionGenerator PyFacts ReplyExtraFacts.

(** X26: from a reply without a json code fence, [_parse_ai_response]
    hands the decoder the text from the first opening brace to the last
    closing brace: for a reply made of a text without opening brace, a
    braced object and a text without closing brace, that is the object, the
    surrounding text being dropped. *)
Theorem json_object_extracted (before body after : string) :
  let object := "{" +:+ body +:+ "}" in
  let response := before +:+ object +:+ after in
  Py.contains "```json" response = false ->
  Py.contains "{" before = false ->
  Py.contains "}" after = false ->
  json_str_of response = object.
Proof.
  cbv zeta.
  assert (Hshape : before +:+ ("{" +:+ body +:+ "}") +:+ after
                   = before +:+ String "{" (body +:+ String "}" after)).
  { f_equal. change ("{" +:+ body +:+ "}") with (String "{" (body +:+ "}")).
    rewrite append_cons, append_assoc. reflexivity. }
  rewrite Hshape. intros Hfence Hbefore Hafter. unfold json_str_of.
  rewrite Hfence, contains_char_here.
  unfold Py.find. rewrite find_from_char by exact Hbefore.
  unfold Py.rfind.
  assert (Hlast : Py.rfind_from "}" (before +:+ String "{" (body +:+ String "}" after)) 0 None
                  = Some (Py.len before + S (Py.len body))%nat).
  { replace (before +:+ String "{" (body +:+ String "}" after))
      with ((before +:+ String "{" body) +:+ String "}" after)
      by (rewrite append_assoc, append_cons; reflexivity).
    rewrite rfind_from_char by exact Hafter. rewrite len_append. reflexivity. }
  rewrite Hlast. unfold Py.slice. cbn [Nat.add].
  replace (Py.len before + S (Py.len body) + 1 - Py.len before)%nat
    with (Py.len ("{" +:+ body +:+ "}"))
    by (change ("{" +:+ body +:+ "}") with (String "{" (body +:+ "}"));
        cbn [Py.len String.length];
        change (String.length (body +:+ "}")) with (Py.len (body +:+ "}"));
        rewrite len_append; cbn [Py.len String.length]; lia).
  rewrite <- Hshape, substring_skip. apply substring_prefix.
Qed.

(** The theorem on a reply with a sentence around the object. *)
Lemma json_object_extracted_witness :
  json_str_of "Sure: {a: 1} Done." = "{a: 1}".
Proof.
  apply (json_object_extracted "Sure: " "a: 1" " Done."); reflexivity.
Defined.

End ReplyExtra.


(** ** One record per user (progress_tracker.py) *)

Module IsolationExtra.
Import ProgressTracker PyFacts ReplyExtraFacts TrackerFacts.




End IsolationExtra.

(** ** The fenced reply (suggestion_generator.py) *)

Module FenceExtraFacts.
Import Py PyFacts ReplyExtraFacts.

Lemma startswith_append (sep rest : string) : startswith sep (sep +:+ rest) = true.
Proof.
  induction sep as [|c sep IH]; [reflexivity|].
  rewrite append_cons. cbn [startswith]. now rewrite Ascii.eqb_refl.
Qed.

Lemma find_from_shift (sep s : string) (i : nat) :
  find_from sep s (S i) = S <$> find_from sep s i.
Proof.
  revert i. induction s as [|c s IH]; intros i; cbn [find_from].
  - destruct (startswith sep ""); reflexivity.
  - destruct (startswith sep (String c s)); [reflexivity | apply IH].
Qed.

Lemma find_from_absent (sep s : string) (i : nat) :
  contains sep s = false -> find_from sep s i = None.
Proof.
  revert i. induction s as [|c s IH]; intros i H; cbn [contains find_from] in *.
  - apply orb_false_iff in H as [-> _]. reflexivity.
  - apply orb_false_iff in H as [-> H]. now apply IH.
Qed.

(** The characters of a separator occurrence still to be passed over. *)
Lemma split_aux_skip (sep x rest cur : string) :
  split_aux sep (len x) (x +:+ rest) cur = split_aux sep 0 rest cur.
Proof.
  unfold len. induction x as [|c x IH]; [reflexivity|].
  rewrite append_cons. cbn [String.length split_aux]. exact IH.
Qed.

(** Splitting at the first occurrence of the separator. *)
Lemma split_aux_first (c : ascii) (sep pre rest cur : string) :
  find_from (String c sep) (pre +:+ String c sep +:+ rest) 0 = Some (len pre) ->
  split_aux (String c sep) 0 (pre +:+ String c sep +:+ rest) cur
  = rev (rev_onto pre cur) :: split_aux (String c sep) 0 rest "".
Proof.
  revert cur. induction pre as [|d pre IH]; intros cur H.
  - change ("" +:+ String c sep +:+ rest) with (String c sep +:+ rest).
    rewrite append_cons. cbn [split_aux]. rewrite <- append_cons, startswith_append.
    cbn [String.length Nat.sub]. rewrite Nat.sub_0_r.
    change (String.length sep) with (len sep). rewrite split_aux_skip. reflexivity.
  - rewrite (append_cons d pre) in H. rewrite (append_cons d pre).
    cbn [find_from split_aux] in *.
    destruct (startswith (String c sep) (String d (pre +:+ String c sep +:+ rest)));
      [discriminate H|].
    rewrite find_from_shift in H. cbn [len String.length] in H.
    destruct (find_from (String c sep) (pre +:+ String c sep +:+ rest) 0) as [n|] eqn:E;
      [|discriminate H].
    injection H as ->. rewrite IH by reflexivity. reflexivity.
Qed.

Lemma split_aux_absent (sep s cur : string) :
  contains sep s = false ->
  split_aux sep 0 s cur = [rev (rev_onto s cur)].
Proof.
  revert cur. induction s as [|c s IH]; intros cur H; [reflexivity|].
  cbn [contains] in H. apply orb_false_iff in H as [Hs H].
  cbn [split_aux]. rewrite Hs. now apply IH.
Qed.

Lemma contains_append (sep pre rest : string) :
  contains sep (pre +:+ sep +:+ rest) = true.
Proof.
  induction pre as [|c pre IH].
  - change ("" +:+ sep +:+ rest) with (sep +:+ rest).
    destruct (sep +:+ rest) eqn:E; cbn [contains]; rewrite <- E, startswith_append;
      reflexivity.
  - rewrite append_cons. cbn [contains]. rewrite IH. apply orb_true_r.
Qed.

End FenceExtraFacts.

Module FenceExtra.
Import TextAnalyzer SuggestionGenerator PyFacts ReplyExtraFacts FenceExtraFacts.

(** X28: from a reply that holds one json code fence, opened right after
    [before] (its first occurrence) and closed by the first three backquotes
    after [inner], [_parse_ai_response] hands the decoder [inner] stripped
    of its surrounding white space: the text before the fence, the closing
    fence and what follows it are dropped. *)
Theorem fenced_json_extracted (before inner after : string) :
  let rest := inner +:+ "```" +:+ after in
  let response := before +:+ "```json" +:+ rest in
  Py.find "```json" response = Some (Py.len before) ->
  Py.contains "```json" rest = false ->
  Py.find "```" rest = Some (Py.len inner) ->
  json_str_of response = Py.strip inner.
Proof.
  cbv zeta. intros Hopen Hone Hclose. unfold json_str_of.
  rewrite contains_append. unfold Py.split.
  rewrite (split_aux_first "`" "``json") by exact Hopen.
  rewrite split_aux_absent by exact Hone.
  rewrite rev_rev_onto.
  rewrite (split_aux_first "`" "``") by exact Hclose.
  rewrite rev_rev_onto. reflexivity.
Qed.

(** The theorem on a fenced object between two sentences. *)
Lemma fenced_json_extracted_witness :
  json_str_of "Here it is: ```json {a: 1} ``` Bye." = "{a: 1}".
Proof.
  apply (fenced_json_extracted "Here it is: " " {a: 1} " " Bye."); reflexivity.
Defined.

End FenceExtra.
